(** * Cloud-360: AWS inventory and CloudWatch metric reports

    A shallow embedding of [EC2_report.py], [RDS_report.py], [ECS_report.py]
    and [main.py], and the properties of the reports proved over it.

    - Python [float]s are binary64 numbers: Rocq's primitive floats.
    - Python [str]s are [string]s holding their UTF-8 encoding: one
      character is one code point, see [Py.drop_first] and [Py.int_of_str].
    - Python [dict]s keep insertion order: association lists with unique
      keys, see [Py.dict_set].
    - Exceptions, printing, calls to AWS and spreadsheet writes are the
      effects of the monad [Run.M]: a computation yields the list of its
      events and either a value or the exception it raised.
    - The AWS clients are records of functions giving, for each request, the
      response of the (mocked) service: a value, an exception, or a run of
      pages that may end in an exception. *)

From Stdlib Require Import ZArith List String Ascii Bool Lia.
From Stdlib Require Import PrimFloat FloatOps FloatAxioms SpecFloat Uint63.
From Stdlib Require Import DecimalString.
From Stdlib Require DecimalPos DecimalN FinFun.
Import ListNotations.
Open Scope list_scope.
Open Scope string_scope.

(* ===================================================================== *)
(** * The Python runtime the reports rely on *)
(* ===================================================================== *)

Module Py.

(** An exception, carried as the text [str(e)] prints. *)
Definition exn := string.

Inductive result (A : Type) : Type :=
| Ok (a : A)
| Raise (e : exn).
Arguments Ok {A} a.
Arguments Raise {A} e.

(** ** Strings *)

(** [str(n)] for an [int]. *)
Definition str_of_Z (z : Z) : string :=
  match z with
  | Zneg p => "-" ++ NilZero.string_of_uint (Pos.to_uint p)
  | _ => NilZero.string_of_uint (N.to_uint (Z.to_N z))
  end.

Definition str_of_nat (n : nat) : string := str_of_Z (Z.of_nat n).

(** [f"{n:02d}"] for [0 <= n]: at least two digits. *)
Definition pad2 (z : Z) : string :=
  if (z <? 10)%Z then "0" ++ str_of_Z z else str_of_Z z.

(** [needle in haystack] on strings. *)
Fixpoint contains (needle haystack : string) : bool :=
  if prefix needle haystack then true
  else match haystack with
       | EmptyString => false
       | String _ rest => contains needle rest
       end.

(** [sep.join(parts)]. *)
Fixpoint join (sep : string) (parts : list string) : string :=
  match parts with
  | [] => ""
  | [p] => p
  | p :: rest => p ++ sep ++ join sep rest
  end.

(** ** Code points

    A byte from 128 to 191 continues a code point; a byte from 192 on opens
    one and tells how many bytes follow. *)
Definition is_continuation (c : ascii) : bool :=
  let n := nat_of_ascii c in ((128 <=? n) && (n <? 192))%nat.

Definition trail_length (c : ascii) : nat :=
  let n := nat_of_ascii c in
  if (n <? 192)%nat then 0
  else if (n <? 224)%nat then 1
  else if (n <? 240)%nat then 2
  else if (n <? 248)%nat then 3
  else 0.

Fixpoint drop_continuation (n : nat) (s : string) : string :=
  match n, s with
  | S n', String c rest =>
      if is_continuation c then drop_continuation n' rest else s
  | _, _ => s
  end.

(** [s[1:]]: the string without its first character. *)
Definition drop_first (s : string) : string :=
  match s with
  | EmptyString => ""
  | String c rest => drop_continuation (trail_length c) rest
  end.

(** [s.split(sep)[-1]] for a one-character separator: the text after the
    last separator, the whole string when there is none. *)
Fixpoint last_segment (sep : ascii) (s : string) : string :=
  match s with
  | EmptyString => ""
  | String c rest =>
      if Ascii.eqb c sep then last_segment sep rest
      else if contains (String sep "") rest then last_segment sep rest
      else s
  end.

(** ** [int(text)]

    The text is first brought to ASCII: a character below 128 stays, white
    space beyond ASCII becomes a blank, a decimal digit of any script becomes
    the ASCII digit of its value, and the text is cut at the first other
    character, which leaves a question mark.  Then: optional surrounding
    white space, an optional sign, decimal digits, single underscores
    between digits; anything else is a [ValueError].  The interpreter's cap
    on the number of digits ([sys.set_int_max_str_digits], 4300 unless
    changed) is a setting and is taken to be lifted. *)

(** The first code points of the runs of ten decimal digits beyond ASCII
    (Unicode 14, general category Nd). *)
Definition decimal_runs : list N :=
  [ 0x660; 0x6f0; 0x7c0; 0x966; 0x9e6; 0xa66; 0xae6; 0xb66; 0xbe6; 0xc66;
    0xce6; 0xd66; 0xde6; 0xe50; 0xed0; 0xf20; 0x1040; 0x1090; 0x17e0;
    0x1810; 0x1946; 0x19d0; 0x1a80; 0x1a90; 0x1b50; 0x1bb0; 0x1c40; 0x1c50;
    0xa620; 0xa8d0; 0xa900; 0xa9d0; 0xa9f0; 0xaa50; 0xabf0; 0xff10; 0x104a0;
    0x10d30; 0x11066; 0x110f0; 0x11136; 0x111d0; 0x112f0; 0x11450; 0x114d0;
    0x11650; 0x116c0; 0x11730; 0x118e0; 0x11950; 0x11c50; 0x11d50; 0x11da0;
    0x16a60; 0x16ac0; 0x16b50; 0x1d7ce; 0x1d7d8; 0x1d7e2; 0x1d7ec; 0x1d7f6;
    0x1e140; 0x1e2f0; 0x1e950; 0x1fbf0 ]%N.

(** The value of a decimal digit beyond ASCII. *)
Definition decimal_of_code_point (cp : N) : option N :=
  match find (fun start => (start <=? cp)%N && (cp <? start + 10)%N)
             decimal_runs with
  | Some start => Some (cp - start)%N
  | None => None
  end.

(** White space beyond ASCII. *)
Definition space_code_point (cp : N) : bool :=
  (cp =? 0x85)%N || (cp =? 0xa0)%N || (cp =? 0x1680)%N
  || ((0x2000 <=? cp)%N && (cp <=? 0x200a)%N)
  || (cp =? 0x2028)%N || (cp =? 0x2029)%N || (cp =? 0x202f)%N
  || (cp =? 0x205f)%N || (cp =? 0x3000)%N.

(** What a code point beyond ASCII becomes; [None] cuts the text. *)
Definition ascii_of_code_point (cp : N) : option ascii :=
  if space_code_point cp then Some " "%char
  else match decimal_of_code_point cp with
       | Some d => Some (ascii_of_N (48 + d))
       | None => None
       end.

(** The least code point that takes [n] bytes after the first. *)
Definition least_code_point (n : nat) : N :=
  match n with
  | 1%nat => 0x80
  | 2%nat => 0x800
  | _ => 0x10000
  end%N.

(** [pending] bytes of the current code point are still to come, [acc]
    holds the bits read so far and [least] the least value the sequence may
    encode. *)
Fixpoint to_ascii_digits (pending : nat) (acc least : N) (s : string)
  : string :=
  match s with
  | EmptyString => match pending with O => "" | S _ => "?" end
  | String c rest =>
      match pending with
      | O =>
          if (nat_of_ascii c <? 128)%nat then
            String c (to_ascii_digits 0 0 0 rest)
          else
            match trail_length c with
            | O => "?"
            | S k =>
                to_ascii_digits (S k)
                  (N_of_ascii c mod N.shiftl 1 (N.of_nat (6 - S k)%nat))%N
                  (least_code_point (S k)) rest
            end
      | S k =>
          if is_continuation c then
            let acc' := (acc * 64 + (N_of_ascii c - 128))%N in
            match k with
            | O =>
                if (acc' <? least)%N then "?"
                else match ascii_of_code_point acc' with
                     | Some a => String a (to_ascii_digits 0 0 0 rest)
                     | None => "?"
                     end
            | S _ => to_ascii_digits k acc' least rest
            end
          else "?"
      end
  end.

(** The white space [int] strips from an ASCII text. *)
Definition is_space (c : ascii) : bool :=
  let n := nat_of_ascii c in
  ((9 <=? n) && (n <=? 13))%nat || (n =? 32)%nat.

Definition digit_of (c : ascii) : option Z :=
  let n := nat_of_ascii c in
  if ((48 <=? n) && (n <=? 57))%nat then Some (Z.of_nat (n - 48)) else None.

Fixpoint lstrip (s : string) : string :=
  match s with
  | String c rest => if is_space c then lstrip rest else s
  | EmptyString => ""
  end.

Fixpoint all_space (s : string) : bool :=
  match s with
  | EmptyString => true
  | String c rest => is_space c && all_space rest
  end.

(** Digits after at least one digit was read: [acc] is the value so far and
    [after_digit] tells whether the previous character was a digit (an
    underscore must stand between two digits). *)
Fixpoint int_digits (s : string) (acc : Z) (after_digit : bool) : option Z :=
  match s with
  | EmptyString => if after_digit then Some acc else None
  | String c rest =>
      match digit_of c with
      | Some d => int_digits rest (10 * acc + d)%Z true
      | None =>
          if Ascii.eqb c "_" then
            if after_digit then int_digits rest acc false else None
          else if after_digit && all_space s then Some acc
          else None
      end
  end.

Definition int_unsigned (s : string) : option Z :=
  match s with
  | String c _ => match digit_of c with
                  | Some _ => int_digits s 0%Z false
                  | None => None
                  end
  | EmptyString => None
  end.

Definition int_of_str (text : string) : result Z :=
  let s := lstrip (to_ascii_digits 0 0 0 text) in
  let parsed :=
    match s with
    | String "-" rest => option_map Z.opp (int_unsigned rest)
    | String "+" rest => int_unsigned rest
    | _ => int_unsigned s
    end in
  match parsed with
  | Some z => Ok z
  | None => Raise ("invalid literal for int() with base 10: '" ++ text ++ "'")
  end.

(** ** Lists *)

(** [l[i]] with Python's negative indices; out of range is an
    [IndexError]. *)
Definition index {A} (l : list A) (i : Z) : result A :=
  let n := Z.of_nat (List.length l) in
  let j := if (i <? 0)%Z then (i + n)%Z else i in
  if ((0 <=? j) && (j <? n))%Z then
    match nth_error l (Z.to_nat j) with
    | Some a => Ok a
    | None => Raise "list index out of range"
    end
  else Raise "list index out of range".

(** [enumerate(l)]. *)
Fixpoint enumerate_from {A} (start : nat) (l : list A) : list (nat * A) :=
  match l with
  | [] => []
  | a :: rest => (start, a) :: enumerate_from (S start) rest
  end.

Definition enumerate {A} (l : list A) : list (nat * A) := enumerate_from 0 l.

(** [[l[i:i+size] for i in range(0, len(l), size)]]; [fuel] bounds the
    number of slices and [length l] is always enough. *)
Fixpoint slices_fuel {A} (fuel size : nat) (l : list A) : list (list A) :=
  match fuel, l with
  | _, [] => []
  | O, _ => []
  | S fuel', _ => firstn size l :: slices_fuel fuel' size (skipn size l)
  end.

Definition slices {A} (size : nat) (l : list A) : list (list A) :=
  slices_fuel (List.length l) size l.

(** ** Dictionaries: insertion-ordered, one entry per key *)

Definition dict (V : Type) := list (string * V).

Fixpoint dict_get {V} (k : string) (d : dict V) : option V :=
  match d with
  | [] => None
  | (k', v) :: rest => if String.eqb k k' then Some v else dict_get k rest
  end.

(** [d[k] = v]: an existing key keeps its place, a new one goes last. *)
Fixpoint dict_set {V} (k : string) (v : V) (d : dict V) : dict V :=
  match d with
  | [] => [(k, v)]
  | (k', v') :: rest =>
      if String.eqb k k' then (k', v) :: rest
      else (k', v') :: dict_set k v rest
  end.

(** [d.update(other)], and [{**d, **other}] on a copy of [d]. *)
Definition dict_update {V} (d other : dict V) : dict V :=
  fold_left (fun acc kv => dict_set (fst kv) (snd kv) acc) other d.

(** A dictionary display [{k1: v1, k2: v2, ...}]. *)
Definition dict_of {V} (entries : list (string * V)) : dict V :=
  dict_update [] entries.

Definition dict_keys {V} (d : dict V) : list string := map fst d.

(** ** Floats *)

(** [min(values)] for the non-empty list [v :: rest]: the first smallest
    element ([item < current] replaces). *)
Definition min_float (v : float) (rest : list float) : float :=
  fold_left (fun cur item => if PrimFloat.ltb item cur then item else cur)
            rest v.

(** [max(values)] for the non-empty list [v :: rest]: [item > current]
    replaces. *)
Definition max_float (v : float) (rest : list float) : float :=
  fold_left (fun cur item => if PrimFloat.ltb cur item then item else cur)
            rest v.

(** [sum(values)]: the floats are added from the left, starting from 0.
    (CPython from 3.12 on also carries a rounding-error compensation; it is
    zero whenever the partial sums are exact.) *)
Definition sum_float (values : list float) : float :=
  fold_left PrimFloat.add values 0%float.

(** [float(len(l))], exact below 2^53. *)
Definition float_of_len {A} (l : list A) : float :=
  PrimFloat.of_uint63 (Uint63.of_Z (Z.of_nat (List.length l))).

(** [sum(values) / len(values)] for the non-empty list [v :: rest]. *)
Definition mean_float (v : float) (rest : list float) : float :=
  PrimFloat.div (sum_float (v :: rest)) (float_of_len (v :: rest)).

(** The number of hundredths nearest to [m * 2^e], ties to even: what
    CPython's correctly rounded [%.2f] conversion keeps of a finite float. *)
Definition hundredths (m : positive) (e : Z) : Z :=
  let n := (Zpos m * 100)%Z in
  if (0 <=? e)%Z then (n * 2 ^ e)%Z
  else
    let d := (2 ^ (- e))%Z in
    let q := (n / d)%Z in
    let r := (n mod d)%Z in
    if (2 * r <? d)%Z then q
    else if (d <? 2 * r)%Z then (q + 1)%Z
    else if Z.even q then q else (q + 1)%Z.

Definition sign_str (negative : bool) : string :=
  if negative then "-" else "".

(** [f"{value:.2f}"]. *)
Definition format_2f (value : float) : string :=
  match Prim2SF value with
  | S754_nan => "nan"
  | S754_infinity s => sign_str s ++ "inf"
  | S754_zero s => sign_str s ++ "0.00"
  | S754_finite s m e =>
      let h := hundredths m e in
      sign_str s ++ str_of_Z (h / 100) ++ "." ++ pad2 (h mod 100)
  end.

End Py.

(* ===================================================================== *)
(** * Effects: events and exceptions *)
(* ===================================================================== *)

(** A calendar time, as [datetime] holds it. *)
Record datetime := {
  year : Z; month : Z; day : Z; hour : Z; minute : Z; second : Z
}.

(** ** [datetime] arithmetic *)

Module Datetime.
Import Py.

Definition is_leap (y : Z) : bool :=
  ((y mod 4 =? 0) && (negb (y mod 100 =? 0) || (y mod 400 =? 0)))%Z.

(** The days before the first of January of year [y]. *)
Definition days_before_year (y : Z) : Z :=
  let y' := (y - 1)%Z in
  (y' * 365 + y' / 4 - y' / 100 + y' / 400)%Z.

Definition days_in_month (y m : Z) : Z :=
  if (m =? 2)%Z then (if is_leap y then 29 else 28)%Z
  else if ((m =? 4) || (m =? 6) || (m =? 9) || (m =? 11))%Z then 30%Z
  else 31%Z.

(** The days of year [y] before the first of month [m]. *)
Definition days_before_month (y m : Z) : Z :=
  fold_left (fun acc k => (acc + days_in_month y (Z.of_nat k))%Z)
            (seq 1 (Z.to_nat m - 1)) 0%Z.

(** [t.toordinal()]: the first of January of year 1 is day 1. *)
Definition toordinal (t : datetime) : Z :=
  (days_before_year (year t) + days_before_month (year t) (month t) + day t)%Z.

(** [datetime.max.toordinal()]. *)
Definition max_ordinal : Z := 3652059.

(** [timedelta(days=d)]: the number of days it holds. *)
Definition timedelta (d : Z) : result Z :=
  if ((d <? - 2147483648) || (2147483647 <? d))%Z then
    Raise "Python int too large to convert to C int"
  else if (999999999 <? Z.abs d)%Z then
    Raise ("days=" ++ str_of_Z d ++ "; must have magnitude <= 999999999")
  else Ok d.

(** [t - delta] for a [delta] of whole days: the ordinal of the day it
    falls on, the time of day being that of [t]. *)
Definition sub (t : datetime) (delta : Z) : result Z :=
  let o := (toordinal t - delta)%Z in
  if ((1 <=? o) && (o <=? max_ordinal))%Z then Ok o
  else Raise "date value out of range".

(** [t - timedelta(days=d)]. *)
Definition days_before (t : datetime) (d : Z) : result Z :=
  match timedelta d with
  | Ok delta => sub t delta
  | Raise e => Raise e
  end.

End Datetime.

(** A spreadsheet cell: [None], a missing value, text, a boolean, an
    integer. *)
Inductive cell :=
| CNone
| CNaN
| CStr (s : string)
| CBool (b : bool)
| CInt (z : Z).

(** A row is a dictionary from column name to cell; [pd.DataFrame(rows)]
    keeps one line per row, in order. *)
Definition row := Py.dict cell.
Definition DataFrame := list row.

(** [str(c)], as an f-string prints a cell. *)
Definition str_of_cell (c : cell) : string :=
  match c with
  | CNone => "None"
  | CNaN => "nan"
  | CStr s => s
  | CBool true => "True"
  | CBool false => "False"
  | CInt z => Py.str_of_Z z
  end.

(** [d.get(k)] as a cell: [None] for a missing key. *)
Definition cell_of (o : option string) : cell :=
  match o with
  | Some s => CStr s
  | None => CNone
  end.

(** [d[k]]: a [KeyError] for a missing key. *)
Definition getitem {V} (d : Py.dict V) (k : string) : Py.result V :=
  match Py.dict_get k d with
  | Some v => Py.Ok v
  | None => Py.Raise ("'" ++ k ++ "'")
  end.

(** The line feed of ["\n"]. *)
Definition nl : string := String (ascii_of_nat 10) "".

(** [{'Name': ..., 'Value': ...}] of a CloudWatch dimension. *)
Record Dimension := {
  dim_Name : string;
  dim_Value : cell
}.

(** One entry of [MetricDataQueries]. *)
Record MetricDataQuery := {
  q_Id : string;
  q_Namespace : string;
  q_MetricName : string;
  q_Dimensions : list Dimension;
  q_Period : Z;
  q_Stat : string;
  q_ReturnData : bool
}.

(** [{'Name': ..., 'Values': [...]}] of a listing filter. *)
Record Filter := {
  f_Name : string;
  f_Values : list string
}.

(** The requests the reports send. [GetMetricData] carries the length in
    days of the window [utcnow() - timedelta(days), utcnow()]. *)
Inductive request :=
| DescribeInstanceStatus (IncludeAllInstances : bool)
| DescribeAddresses
| DescribeInstances (Filters : list Filter)
| DescribeAlarmsForMetric (MetricName Namespace : string)
                          (Dimensions : list Dimension)
| GetMetricData (MetricDataQueries : list MetricDataQuery) (days : Z)
                (ScanBy : string)
| DescribeDBInstances
| ListClusters
| ListServices (cluster : string)
| DescribeServices (cluster : string) (services : list string).

Inductive event :=
| Print (text : string)
| PrintFrame (df : DataFrame)
| Call (r : request)
| ToExcel (file sheet : string) (startrow : nat) (df : DataFrame).

Module Run.
Import Py.

(** A computation: the events it caused, in order, and how it ended. *)
Definition M (A : Type) : Type := list event * result A.

Definition ret {A} (a : A) : M A := ([], Ok a).

Definition bind {A B} (m : M A) (k : A -> M B) : M B :=
  match m with
  | (t, Ok a) => let (t', r) := k a in ((t ++ t')%list, r)
  | (t, Raise e) => (t, Raise e)
  end.

Definition raise {A} (e : exn) : M A := ([], Raise e).

Definition emit (ev : event) : M unit := ([ev], Ok tt).

Definition print (text : string) : M unit := emit (Print text).

(** A pure step that may raise. *)
Definition lift {A} (r : result A) : M A := ([], r).

(** A request answered by the service with [answer]. *)
Definition call {A} (r : request) (answer : result A) : M A :=
  ([Call r], answer).

(** [try: body except Exception as e: handler(e)]. *)
Definition try_except {A} (body : M A) (handler : exn -> M A) : M A :=
  match body with
  | (t, Raise e) => let (t', r) := handler e in ((t ++ t')%list, r)
  | done => done
  end.

Definition trace {A} (m : M A) : list event := fst m.
Definition outcome {A} (m : M A) : result A := snd m.

Module Notations.
  Notation "x <- m ;; k" := (bind m (fun x => k))
    (at level 61, m at next level, right associativity).
  Notation "m ;; k" := (bind m (fun _ => k))
    (at level 61, right associativity).
End Notations.
Import Notations.

(** [for x in xs: acc = body(acc, x)]. *)
Fixpoint for_each {A S} (xs : list A) (acc : S) (body : S -> A -> M S) : M S :=
  match xs with
  | [] => ret acc
  | x :: rest => acc' <- body acc x ;; for_each rest acc' body
  end.

(** [[f(x) for x in xs]]. *)
Fixpoint map_M {A B} (f : A -> M B) (xs : list A) : M (list B) :=
  match xs with
  | [] => ret []
  | x :: rest => y <- f x ;; ys <- map_M f rest ;; ret (y :: ys)
  end.

(** What a paginator yields: some pages, then the end of the listing or an
    exception raised while the next page is fetched. *)
Record paged (P : Type) := {
  pages : list P;
  failure : option exn
}.
Arguments pages {P} _.
Arguments failure {P} _.

(** [for page in paginator.paginate(...): acc = body(acc, page)]. *)
Definition for_pages {P S} (r : request) (answer : paged P) (acc : S)
    (body : S -> P -> M S) : M S :=
  emit (Call r) ;;
  acc' <- for_each (pages answer) acc body ;;
  match failure answer with
  | Some e => raise e
  | None => ret acc'
  end.

End Run.

(* ===================================================================== *)
(** * The AWS clients *)
(* ===================================================================== *)

Module Aws.
Import Py Run.

(** One entry of [InstanceStatuses]; [SystemStatus] and [InstanceStatus]
    hold the ['Status'] text of the two checks. *)
Record InstanceStatusEntry := {
  st_InstanceId : option string;
  st_SystemStatus : option string;
  st_InstanceStatus : option string
}.

(** One entry of [Addresses]. *)
Record Address := {
  a_InstanceId : option string;
  a_PublicIp : option string
}.

(** One entry of [Instances]; an absent key is [None]. *)
Record Instance := {
  InstanceId : option string;
  Tags : list (string * string);
  State_Name : option string;
  InstanceType : option string;
  Placement_AvailabilityZone : option string;
  PublicDnsName : option string;
  PublicIpAddress : option string;
  Ipv6Addresses : list (option string);
  Monitoring_State : option string;
  SecurityGroups : list string;
  KeyName : option string;
  LaunchTime : option datetime;
  PlatformDetails : option string;
  PrivateDnsName : option string
}.

(** [r['Instances']] of a reservation; a page holds [page['Reservations']]. *)
Definition Reservation := list Instance.

Record ec2_client := {
  describe_instance_status : bool -> result (list InstanceStatusEntry);
  describe_addresses : result (list Address);
  describe_instances : list Filter -> paged (list Reservation)
}.

(** One entry of [MetricDataResults]. *)
Record MetricDataResult := {
  Id : string;
  Values : list float
}.

Record cloudwatch_client := {
  get_metric_data :
    list MetricDataQuery -> Z -> string -> paged (list MetricDataResult);
  (** the names of the alarms under [MetricAlarms] *)
  describe_alarms_for_metric :
    string -> string -> list Dimension -> result (list string)
}.

(** One entry of [DBInstances]. *)
Record DBInstance := {
  DBInstanceIdentifier : option string;
  DBInstanceClass : option string;
  Engine : option string;
  DBInstanceStatus : option string;
  MultiAZ : option bool;
  AvailabilityZone : option string;
  StorageType : option string;
  AllocatedStorage : option Z
}.

Record rds_client := {
  describe_db_instances : paged (list DBInstance)
}.

(** One entry of [services]. *)
Record Service := {
  serviceName : option string;
  serviceArn : option string;
  status : option string;
  launchType : option string;
  desiredCount : option Z;
  runningCount : option Z;
  taskDefinition : option string
}.

Record ecs_client := {
  list_clusters : result (list string);
  list_services : string -> paged (list string);
  describe_services : string -> list string -> result (list Service)
}.

(** [boto3.Session(region_name=...)] and its [client(...)] method; each may
    raise. *)
Record Session := {
  client_ec2 : result ec2_client;
  client_rds : result rds_client;
  client_ecs : result ecs_client;
  client_cloudwatch : result cloudwatch_client
}.

(** What a report finds when it starts: the environment variables, the
    service, the clock [datetime.now()] reads when the file is named and the
    clock [datetime.utcnow()] reads when metrics are asked for; the day is
    taken not to change while a report runs. *)
Record World := {
  AWS_REGION : option string;
  METRIC_DAYS : Z;
  boto3_Session : option string -> result Session;
  now : datetime;
  utcnow : datetime
}.

(** The marks in front of some log lines, as the source files hold them. *)
Definition mark_found : string := "✅".
Definition mark_done : string := "🚀".
Definition mark_failed : string := "❌".
Definition mark_found' : string := "‚úÖ".
Definition mark_done' : string := "üöÄ".
Definition mark_failed' : string := "‚ùå".
Definition dash : string := "–".

(** [strftime("%Y-%m-%d_%H%M%S")]. *)
Definition file_stamp (t : datetime) : string :=
  str_of_Z (year t) ++ "-" ++ pad2 (month t) ++ "-" ++ pad2 (day t) ++ "_"
  ++ pad2 (hour t) ++ pad2 (minute t) ++ pad2 (second t).

(** [strftime("%Y/%m/%d %H:%M GMT+5:30")]. *)
Definition launch_stamp (t : datetime) : string :=
  str_of_Z (year t) ++ "/" ++ pad2 (month t) ++ "/" ++ pad2 (day t) ++ " "
  ++ pad2 (hour t) ++ ":" ++ pad2 (minute t) ++ " GMT+5:30".

End Aws.

(* ===================================================================== *)
(** * [get_cloudwatch_metrics] of [EC2_report.py] and [RDS_report.py] *)
(* ===================================================================== *)

(** The two files hold the same text for this function; it differs only in
    the [format_metric_value] of its module and in the [METRIC_DAYS] read
    when the module is loaded, which are the section's variables, as is the
    clock [datetime.utcnow()] reads. *)

Module Metrics.
Import Py Run Run.Notations Aws.

(** The three cells of one metric, [f'{metric_name} Min'] and so on. *)
Definition stat_cells (metric_name : string) (min_val max_val avg_val : cell)
  : dict cell :=
  dict_of [ (metric_name ++ " Min", min_val);
            (metric_name ++ " Max", max_val);
            (metric_name ++ " Avg", avg_val) ].

(** [all_results[metric_name].extend(values)]. *)
Definition extend (all_results : dict (list float)) (metric_name : string)
    (values : list float) : result (dict (list float)) :=
  match dict_get metric_name all_results with
  | Some old => Ok (dict_set metric_name (old ++ values)%list all_results)
  | None => Raise ("'" ++ metric_name ++ "'")
  end.

Section WithModule.

Variable format_metric_value : float -> string -> string.
Variable METRIC_DAYS : Z.
Variable utcnow : datetime.

Definition metric_data_queries (namespace : string)
    (dimensions : list Dimension) (metric_list : list string)
  : list MetricDataQuery :=
  map (fun im =>
         {| q_Id := "m" ++ str_of_nat (fst im);
            q_Namespace := namespace;
            q_MetricName := snd im;
            q_Dimensions := dimensions;
            q_Period := 300;
            q_Stat := "Average";
            q_ReturnData := true |})
      (enumerate metric_list).

(** The body of the loop over [page['MetricDataResults']]. *)
Definition collect_result (metric_list : list string)
    (all_results : dict (list float)) (result : MetricDataResult)
  : M (dict (list float)) :=
  i <- lift (int_of_str (drop_first (Id result))) ;;
  metric_name <- lift (index metric_list i) ;;
  lift (extend all_results metric_name (Values result)).

(** The paging loop: every page's results are appended to the lists of
    [all_results], which start empty.  The start of the window is worked out
    before the request is made; it raises when the day falls outside the
    calendar. *)
Definition collect (queries : list MetricDataQuery) (metric_list : list string)
    (cloudwatch_client : cloudwatch_client) : M (dict (list float)) :=
  let all_results :=
    fold_left (fun d metric_name => dict_set metric_name [] d) metric_list [] in
  lift (Datetime.days_before utcnow METRIC_DAYS) ;;
  for_pages (GetMetricData queries METRIC_DAYS "TimestampAscending")
            (get_metric_data cloudwatch_client queries METRIC_DAYS
                             "TimestampAscending")
            all_results
            (fun acc page => for_each page acc (collect_result metric_list)).

(** The body of the loop over [all_results.items()]. *)
Definition reduce_metric (metrics_data : dict cell)
    (item : string * list float) : dict cell :=
  let (metric_name, values) := item in
  match values with
  | [] =>
      dict_update metrics_data
        (stat_cells metric_name (CStr "Nil") (CStr "Nil") (CStr "Nil"))
  | v :: rest =>
      dict_update metrics_data
        (stat_cells metric_name
           (CStr (format_metric_value (min_float v rest) metric_name))
           (CStr (format_metric_value (max_float v rest) metric_name))
           (CStr (format_metric_value (mean_float v rest) metric_name)))
  end.

(** The loop of the [except] branch. *)
Definition mark_errors (metric_list : list string) (metrics_data : dict cell)
  : dict cell :=
  fold_left (fun md metric =>
               dict_update md
                 (stat_cells metric (CStr "Error") (CStr "Error") (CStr "Error")))
            metric_list metrics_data.

(** No step of the [try] block raises after [metrics_data] was first
    written, so the [except] branch finds it as it was created. *)
Definition get_cloudwatch_metrics (namespace : string)
    (dimensions : list Dimension) (resource_name : cell)
    (metric_list : list string) (cloudwatch_client : cloudwatch_client)
  : M row :=
  print ("Fetching CloudWatch metrics for " ++ str_of_cell resource_name ++ "...") ;;
  let metrics_data := dict_of [("Name", resource_name)] in
  let queries := metric_data_queries namespace dimensions metric_list in
  try_except
    (all_results <- collect queries metric_list cloudwatch_client ;;
     ret (fold_left reduce_metric all_results metrics_data))
    (fun e =>
       print ("Error fetching metrics for " ++ str_of_cell resource_name
              ++ ": " ++ e) ;;
       ret (mark_errors metric_list metrics_data)).

End WithModule.
End Metrics.

(* ===================================================================== *)
(** * [EC2_report.py] *)
(* ===================================================================== *)

Module EC2_report.
Import Py Run Run.Notations Aws.

Definition EC2_METRICS : list string :=
  ["CPUCreditUsage"; "CPUUtilization"; "MetadataNoToken"; "CPUCreditBalance"].

Fixpoint name_of_tags (tags : list (string * string)) : string :=
  match tags with
  | [] => "N/A"
  | (key, value) :: rest =>
      if String.eqb key "Name" then value else name_of_tags rest
  end.

Definition get_instance_name (instance : Instance) : string :=
  name_of_tags (Tags instance).

Definition format_metric_value (value : float) (metric_name : string) : string :=
  if contains "CPUUtilization" metric_name then format_2f value ++ "%"
  else if contains "Bytes" metric_name then
    format_2f (value / 1e9)%float ++ " GB"
  else format_2f value.

(** [{s['InstanceId']: s for s in statuses}]. *)
Fixpoint build_status_map (statuses : list InstanceStatusEntry)
    (acc : dict InstanceStatusEntry) : result (dict InstanceStatusEntry) :=
  match statuses with
  | [] => Ok acc
  | s :: rest =>
      match st_InstanceId s with
      | Some id => build_status_map rest (dict_set id s acc)
      | None => Raise "'InstanceId'"
      end
  end.

(** [{a.get('InstanceId'): a['PublicIp'] for a in addresses
      if 'InstanceId' in a}]. *)
Fixpoint build_ip_map (addresses : list Address) (acc : dict string)
  : result (dict string) :=
  match addresses with
  | [] => Ok acc
  | a :: rest =>
      match a_InstanceId a with
      | Some id =>
          match a_PublicIp a with
          | Some ip => build_ip_map rest (dict_set id ip acc)
          | None => Raise "'PublicIp'"
          end
      | None => build_ip_map rest acc
      end
  end.

(** [m.get(instance_id)] where [instance_id] may be [None]. *)
Definition lookup {V} (m : dict V) (instance_id : option string) : option V :=
  match instance_id with
  | Some id => dict_get id m
  | None => None
  end.

Definition status_check_of (status : option InstanceStatusEntry) : string :=
  match status with
  | Some s =>
      match st_SystemStatus s, st_InstanceStatus s with
      | Some sys, Some ins =>
          if String.eqb sys "ok" && String.eqb ins "ok"
          then "2/2 checks passed" else "N/A"
      | _, _ => "N/A"
      end
  | None => "N/A"
  end.

Definition or_default (o : option string) (default : string) : string :=
  match o with
  | Some s => s
  | None => default
  end.

(** The dictionary appended to [instances_details] for instance [i]. *)
Definition instance_row (i : Instance) (status_check alarm_status : string)
    (elastic_ip launch_time : string) : row :=
  [ ("Name", CStr (get_instance_name i));
    ("Instance ID", cell_of (InstanceId i));
    ("Instance state", cell_of (State_Name i));
    ("Instance type", cell_of (InstanceType i));
    ("Status check", CStr status_check);
    ("Alarm status", CStr alarm_status);
    ("Availability Zone", cell_of (Placement_AvailabilityZone i));
    ("Public IPv4 DNS", CStr (or_default (PublicDnsName i) dash));
    ("Public IPv4 address", CStr (or_default (PublicIpAddress i) dash));
    ("Elastic IP", CStr elastic_ip);
    ("IPv6 IPs",
     CStr (join ", " (map (fun addr => or_default addr "") (Ipv6Addresses i))));
    ("Monitoring", cell_of (Monitoring_State i));
    ("Security group name", CStr (join ", " (SecurityGroups i)));
    ("Key name", CStr (or_default (KeyName i) dash));
    ("Launch time", CStr launch_time);
    ("Platform details", CStr (or_default (PlatformDetails i) "Linux/UNIX"));
    ("Managed", CStr "FALSE");
    ("Operator", CStr dash);
    ("Hostname type", CStr ("ip-name: " ++ or_default (PrivateDnsName i) ""));
    ("AWS Compute Optimizer finding", CStr "Enable Opt In") ].

(** The body of the loop over [r['Instances']]. *)
Definition describe_instance (cloudwatch_client : cloudwatch_client)
    (status_map : dict InstanceStatusEntry) (ip_map : dict string)
    (instances_details : list row) (i : Instance) : M (list row) :=
  let instance_id := InstanceId i in
  let status := lookup status_map instance_id in
  let status_check := status_check_of status in
  let dims := [ {| dim_Name := "InstanceId"; dim_Value := cell_of instance_id |} ] in
  alarms <- call (DescribeAlarmsForMetric "CPUUtilization" "AWS/EC2" dims)
                 (describe_alarms_for_metric cloudwatch_client
                    "CPUUtilization" "AWS/EC2" dims) ;;
  let alarm_status :=
    match alarms with [] => "No alarms" | _ => "View alarms" end in
  launch_time <- lift (match LaunchTime i with
                       | Some t => Ok (launch_stamp t)
                       | None => Raise "'NoneType' object has no attribute 'strftime'"
                       end) ;;
  ret (instances_details
       ++ [instance_row i status_check alarm_status
             (or_default (lookup ip_map instance_id) dash) launch_time])%list.

Definition state_filter : list Filter :=
  [ {| f_Name := "instance-state-name"; f_Values := ["running"; "stopped"] |} ].

Definition get_ec2_instance_details (ec2_client : ec2_client)
    (cloudwatch_client : cloudwatch_client) : M (list row) :=
  print "Fetching EC2 instance details..." ;;
  statuses <- call (DescribeInstanceStatus true)
                   (describe_instance_status ec2_client true) ;;
  status_map <- lift (build_status_map statuses []) ;;
  addresses <- call DescribeAddresses (describe_addresses ec2_client) ;;
  ip_map <- lift (build_ip_map addresses []) ;;
  instances_details <-
    for_pages (DescribeInstances state_filter)
              (describe_instances ec2_client state_filter) []
              (fun acc page =>
                 for_each page acc (fun acc r =>
                   for_each r acc
                     (describe_instance cloudwatch_client status_map ip_map))) ;;
  print (mark_found ++ " Found " ++ str_of_nat (List.length instances_details)
         ++ " EC2 instances.") ;;
  ret instances_details.

Definition get_cloudwatch_metrics (w : World) :=
  Metrics.get_cloudwatch_metrics format_metric_value (METRIC_DAYS w) (utcnow w).

(** The element of the list comprehension of [main] for the row [d]. *)
Definition metrics_of_row (w : World) (cloudwatch_client : cloudwatch_client)
    (d : row) : M row :=
  instance_id <- lift (getitem d "Instance ID") ;;
  name <- lift (getitem d "Name") ;;
  get_cloudwatch_metrics w "AWS/EC2"
    [ {| dim_Name := "InstanceId"; dim_Value := instance_id |} ]
    name EC2_METRICS cloudwatch_client.

Definition main (w : World) : M unit :=
  try_except
    (session <- lift (boto3_Session w (AWS_REGION w)) ;;
     ec2_client <- lift (client_ec2 session) ;;
     cloudwatch_client <- lift (client_cloudwatch session) ;;
     print (nl ++ "--- Generating EC2 Report ---") ;;
     details_list <- get_ec2_instance_details ec2_client cloudwatch_client ;;
     match details_list with
     | [] => print "No EC2 instances found. Exiting."
     | _ =>
         metrics_list <- map_M (metrics_of_row w cloudwatch_client) details_list ;;
         let details_df : DataFrame := details_list in
         let metrics_df : DataFrame := metrics_list in
         print (nl ++ "--- EC2 Metrics (Min, Max, Avg) ---") ;;
         emit (PrintFrame metrics_df) ;;
         let output_file := "EC2_Report_" ++ file_stamp (now w) ++ ".xlsx" in
         emit (ToExcel output_file "EC2_Report" 0 details_df) ;;
         emit (ToExcel output_file "EC2_Report" (List.length details_df + 3)
                       metrics_df) ;;
         print (nl ++ mark_done ++ " Report generation complete! Saved to '"
                ++ output_file ++ "'")
     end)
    (fun e => print (nl ++ mark_failed ++ " An unexpected error occurred: " ++ e)).

End EC2_report.

(* ===================================================================== *)
(** * [RDS_report.py] *)
(* ===================================================================== *)

Module RDS_report.
Import Py Run Run.Notations Aws.

Definition RDS_METRICS : list string :=
  [ "CPUUtilization"; "FreeableMemory"; "WriteLatency"; "ReadLatency";
    "Deadlocks"; "DiskQueueDepth"; "DatabaseConnections"; "DeleteLatency";
    "LoginFailures"; "SwapUsage"; "SelectLatency"; "ReadThroughput";
    "DDLLatency"; "WriteIOPS"; "CommitLatency"; "ReadIOPS" ].

Definition format_metric_value (value : float) (metric_name : string) : string :=
  if contains "CPUUtilization" metric_name then format_2f value ++ "%"
  else if contains "FreeableMemory" metric_name then
    format_2f (value / 1e9)%float ++ " GB"
  else format_2f value.

(** The dictionary appended to [db_instances] for [db]. *)
Definition db_row (db : DBInstance) : row :=
  [ ("DBInstanceIdentifier", cell_of (DBInstanceIdentifier db));
    ("DBInstanceClass", cell_of (DBInstanceClass db));
    ("Engine", cell_of (Engine db));
    ("DBInstanceStatus", cell_of (DBInstanceStatus db));
    ("MultiAZ", match MultiAZ db with Some b => CBool b | None => CNone end);
    ("AvailabilityZone", cell_of (AvailabilityZone db));
    ("StorageType", cell_of (StorageType db));
    ("AllocatedStorage",
     CStr (str_of_cell (match AllocatedStorage db with
                        | Some z => CInt z
                        | None => CNone
                        end) ++ " GB")) ].

Definition get_rds_instance_details (rds_client : rds_client) : M (list row) :=
  print "Fetching RDS instance details..." ;;
  db_instances <-
    for_pages DescribeDBInstances (describe_db_instances rds_client) []
              (fun acc page =>
                 for_each page acc (fun acc db => ret (acc ++ [db_row db])%list)) ;;
  print (mark_found' ++ " Found " ++ str_of_nat (List.length db_instances)
         ++ " RDS instances.") ;;
  ret db_instances.

Definition get_cloudwatch_metrics (w : World) :=
  Metrics.get_cloudwatch_metrics format_metric_value (METRIC_DAYS w) (utcnow w).

(** The element of the list comprehension of [main] for the row [d]. *)
Definition metrics_of_row (w : World) (cloudwatch_client : cloudwatch_client)
    (d : row) : M row :=
  identifier <- lift (getitem d "DBInstanceIdentifier") ;;
  get_cloudwatch_metrics w "AWS/RDS"
    [ {| dim_Name := "DBInstanceIdentifier"; dim_Value := identifier |} ]
    identifier RDS_METRICS cloudwatch_client.

Definition main (w : World) : M unit :=
  try_except
    (session <- lift (boto3_Session w (AWS_REGION w)) ;;
     rds_client <- lift (client_rds session) ;;
     cloudwatch_client <- lift (client_cloudwatch session) ;;
     print (nl ++ "--- Generating RDS Report ---") ;;
     details_list <- get_rds_instance_details rds_client ;;
     match details_list with
     | [] => print "No RDS instances found. Exiting."
     | _ =>
         metrics_list <- map_M (metrics_of_row w cloudwatch_client) details_list ;;
         let details_df : DataFrame := details_list in
         let metrics_df : DataFrame := metrics_list in
         let output_file := "RDS_Report_" ++ file_stamp (now w) ++ ".xlsx" in
         emit (ToExcel output_file "RDS_Report" 0 details_df) ;;
         emit (ToExcel output_file "RDS_Report" (List.length details_df + 3)
                       metrics_df) ;;
         print (nl ++ mark_done' ++ " Report generation complete! Saved to '"
                ++ output_file ++ "'")
     end)
    (fun e => print (nl ++ mark_failed' ++ " An unexpected error occurred: " ++ e)).

End RDS_report.

(* ===================================================================== *)
(** * [ECS_report.py] *)
(* ===================================================================== *)

Module ECS_report.
Import Py Run Run.Notations Aws.

Definition ECS_METRICS : list string := ["CPUUtilization"; "MemoryUtilization"].

Definition format_metric_value (value : float) (metric_name : string) : string :=
  if contains "CPUUtilization" metric_name
     || contains "MemoryUtilization" metric_name
  then format_2f value ++ "%"
  else format_2f value.

Definition metric_data_queries (cluster_name service_name : string)
  : list MetricDataQuery :=
  Metrics.metric_data_queries "AWS/ECS"
    [ {| dim_Name := "ClusterName"; dim_Value := CStr cluster_name |};
      {| dim_Name := "ServiceName"; dim_Value := CStr service_name |} ]
    ECS_METRICS.

(** The body of the loop over [all_results.items()]. *)
Definition reduce_metric (metrics_data : dict cell)
    (item : string * list float) : dict cell :=
  let (metric_name, values) := item in
  match values with
  | v :: rest =>
      dict_set (metric_name ++ " Avg")
        (CStr (format_metric_value (mean_float v rest) metric_name))
        (dict_set (metric_name ++ " Max")
           (CStr (format_metric_value (max_float v rest) metric_name))
           (dict_set (metric_name ++ " Min")
              (CStr (format_metric_value (min_float v rest) metric_name))
              metrics_data))
  | [] =>
      dict_set (metric_name ++ " Avg") (CStr "Nil")
        (dict_set (metric_name ++ " Max") (CStr "Nil")
           (dict_set (metric_name ++ " Min") (CStr "Nil") metrics_data))
  end.

(** The paging loop is the one of the other two modules, over
    [ECS_METRICS]; as there, nothing raises once [metrics_data] is written. *)
Definition get_cloudwatch_metrics (w : World) (cluster_name service_name : string)
    (cloudwatch_client : cloudwatch_client) : M (dict cell) :=
  let metrics_data : dict cell := [] in
  let queries := metric_data_queries cluster_name service_name in
  try_except
    (all_results <- Metrics.collect (METRIC_DAYS w) (utcnow w) queries ECS_METRICS
                                    cloudwatch_client ;;
     ret (fold_left reduce_metric all_results metrics_data))
    (fun e =>
       print ("Error fetching metrics for " ++ service_name ++ ": " ++ e) ;;
       ret (Metrics.mark_errors ECS_METRICS metrics_data)).

Definition or_int (o : option Z) (default : Z) : cell :=
  match o with
  | Some z => CInt z
  | None => CInt default
  end.

(** The dictionary appended to [all_services_data]. *)
Definition service_row (cluster_name service_name : string) (service : Service)
    (stats : dict cell) : row :=
  dict_update
    [ ("Cluster", CStr cluster_name);
      ("Service Name", CStr service_name);
      ("ARN", cell_of (serviceArn service));
      ("Status", cell_of (status service));
      ("Launch Type", CStr (match launchType service with
                            | Some t => t
                            | None => "EC2"
                            end));
      ("Desired Tasks", or_int (desiredCount service) 0);
      ("Running Tasks", or_int (runningCount service) 0);
      ("Task Definition", cell_of (taskDefinition service)) ]
    stats.

(** The body of the loop over [services_desc]. *)
Definition describe_service (w : World) (cloudwatch_client : cloudwatch_client)
    (cluster_name : string) (all_services_data : list row) (service : Service)
  : M (list row) :=
  service_name <- lift (match serviceName service with
                        | Some n => Ok n
                        | None => Raise "'serviceName'"
                        end) ;;
  stats <- get_cloudwatch_metrics w cluster_name service_name cloudwatch_client ;;
  ret (all_services_data
       ++ [service_row cluster_name service_name service stats])%list.

(** The body of the loop over the batches of ten service ARNs. *)
Definition describe_batch (w : World) (ecs_client : ecs_client)
    (cloudwatch_client : cloudwatch_client) (cluster_arn cluster_name : string)
    (all_services_data : list row) (service_batch : list string)
  : M (list row) :=
  services_desc <- call (DescribeServices cluster_arn service_batch)
                        (describe_services ecs_client cluster_arn service_batch) ;;
  for_each services_desc all_services_data
           (describe_service w cloudwatch_client cluster_name).

(** The body of the loop over [cluster_arns]. *)
Definition describe_cluster (w : World) (ecs_client : ecs_client)
    (cloudwatch_client : cloudwatch_client) (all_services_data : list row)
    (cluster_arn : string) : M (list row) :=
  let cluster_name := last_segment "/" cluster_arn in
  for_pages (ListServices cluster_arn) (list_services ecs_client cluster_arn)
            all_services_data
            (fun acc service_arns =>
               match service_arns with
               | [] => ret acc
               | _ =>
                   for_each (slices 10 service_arns) acc
                     (describe_batch w ecs_client cloudwatch_client
                                     cluster_arn cluster_name)
               end).

Definition get_ecs_report_data (w : World) (ecs_client : ecs_client)
    (cloudwatch_client : cloudwatch_client) : M (list row) :=
  print "Fetching ECS service details and metrics..." ;;
  cluster_arns <- call ListClusters (list_clusters ecs_client) ;;
  all_services_data <-
    for_each cluster_arns [] (describe_cluster w ecs_client cloudwatch_client) ;;
  print (mark_found' ++ " Found and processed "
         ++ str_of_nat (List.length all_services_data) ++ " ECS services.") ;;
  ret all_services_data.

Definition final_columns : list string :=
  [ "Cluster"; "Service Name"; "ARN"; "Status"; "Launch Type"; "Desired Tasks";
    "Running Tasks"; "Task Definition"; "CPUUtilization Min";
    "CPUUtilization Max"; "CPUUtilization Avg"; "MemoryUtilization Min";
    "MemoryUtilization Max"; "MemoryUtilization Avg" ].

(** [df.reindex(columns=...)]: the named columns in that order, a missing
    value where a row has none. *)
Definition reindex (columns : list string) (df : DataFrame) : DataFrame :=
  map (fun r =>
         map (fun c => (c, match dict_get c r with
                           | Some v => v
                           | None => CNaN
                           end)) columns)
      df.

Definition main (w : World) : M unit :=
  try_except
    (session <- lift (boto3_Session w (AWS_REGION w)) ;;
     ecs_client <- lift (client_ecs session) ;;
     cloudwatch_client <- lift (client_cloudwatch session) ;;
     print (nl ++ "--- Generating ECS Report ---") ;;
     report_data <- get_ecs_report_data w ecs_client cloudwatch_client ;;
     match report_data with
     | [] => print "No ECS services found. Exiting."
     | _ =>
         let df : DataFrame := reindex final_columns report_data in
         let output_file := "ECS_Report_" ++ file_stamp (now w) ++ ".xlsx" in
         emit (ToExcel output_file "Sheet1" 0 df) ;;
         print (nl ++ mark_done' ++ " Report generation complete! Saved to '"
                ++ output_file ++ "'")
     end)
    (fun e => print (nl ++ mark_failed' ++ " An unexpected error occurred: " ++ e)).

End ECS_report.

(* ===================================================================== *)
(** * [main.py] *)
(* ===================================================================== *)

Module Main.
Import Py Run Run.Notations Aws.

Section Orchestrator.

(** The three [main] functions the entry point calls. *)
Variables EC2_main RDS_main ECS_main : M unit.

Definition run_reports : M unit :=
  print "--- Starting AWS Report Generation ---" ;;
  try_except
    (print (nl ++ "--- Generating EC2 Report ---") ;; EC2_main)
    (fun e => print (mark_failed ++ " Error generating EC2 report: " ++ e)) ;;
  try_except
    (print (nl ++ "--- Generating RDS Report ---") ;; RDS_main)
    (fun e => print (mark_failed ++ " Error generating RDS report: " ++ e)) ;;
  try_except
    (print (nl ++ "--- Generating ECS Report ---") ;; ECS_main)
    (fun e => print (mark_failed ++ " Error generating ECS report: " ++ e)) ;;
  print (nl ++ "--- All Reports Generated Successfully ---").

End Orchestrator.

(** [main()]: each report runs in the world it finds when it starts. *)
Definition main (w_ec2 w_rds w_ecs : World) : M unit :=
  run_reports (EC2_report.main w_ec2) (RDS_report.main w_rds)
              (ECS_report.main w_ecs).

End Main.

(* ===================================================================== *)
(** * What is observed of a run *)
(* ===================================================================== *)

Module Observe.
Import Py Run Aws.

Definition is_export (ev : event) : bool :=
  match ev with
  | ToExcel _ _ _ _ => true
  | _ => false
  end.

Definition is_metric_query (ev : event) : bool :=
  match ev with
  | Call (GetMetricData _ _ _) => true
  | _ => false
  end.

(** The spreadsheet writes of a run, in order. *)
Definition exports (t : list event) : list event := filter is_export t.

(** The metric queries of a run, in order. *)
Definition metric_queries (t : list event) : list event :=
  filter is_metric_query t.

(** The metric a returned result is filed under: [metric_list[int(Id[1:])]],
    [None] when that lookup raises. *)
Definition metric_of_result (metric_list : list string) (r : MetricDataResult)
  : option string :=
  match int_of_str (drop_first (Id r)) with
  | Ok i => match index metric_list i with
            | Ok m => Some m
            | Raise _ => None
            end
  | Raise _ => None
  end.

Definition filed_under (metric_list : list string) (m : string)
    (r : MetricDataResult) : bool :=
  match metric_of_result metric_list r with
  | Some m' => String.eqb m' m
  | None => false
  end.

(** The samples of metric [m] in the window, in the spec's words: the
    values returned for [m], concatenated across all pages. *)
Definition samples_of (metric_list : list string) (m : string)
    (pages : list (list MetricDataResult)) : list float :=
  List.concat
    (map Values (filter (filed_under metric_list m) (List.concat pages))).

(** The three derived fields of metric [m] in a metrics row. *)
Definition derived_fields (r : dict cell) (m : string)
  : option cell * option cell * option cell :=
  (dict_get (m ++ " Min") r, dict_get (m ++ " Max") r, dict_get (m ++ " Avg") r).

(** AWS's reading of the [instance-state-name] filter: the state of the
    instance is one of the listed values. *)
Definition in_state (states : list string) (i : Instance) : bool :=
  match State_Name i with
  | Some s => existsb (String.eqb s) states
  | None => false
  end.

(** All instances of a run of pages, in the order they are listed. *)
Definition listed (answer : paged (list Reservation)) : list Instance :=
  List.concat (List.concat (pages answer)).

(** The log line the entry point prints when a report raised. *)
Definition failure_log (report : string) (m : M unit) : list event :=
  match outcome m with
  | Raise e => [Print (mark_failed ++ " Error generating " ++ report
                       ++ " report: " ++ e)]
  | Ok _ => []
  end.

Definition no_export (ev : event) : Prop := is_export ev = false.

Definition no_metric_query (ev : event) : Prop := is_metric_query ev = false.

(** [d] is the row of instance [i], whatever its status, alarm, address and
    launch-time cells are. *)
Definition row_of_instance (i : Instance) (d : row) : Prop :=
  exists status_check alarm_status elastic_ip launch_time,
    d = EC2_report.instance_row i status_check alarm_status elastic_ip
                                launch_time.

(** A loop body of the ECS listing never drops a row, and when it adds none
    it has sent no metric query. *)
Definition adds_rows {X} (body : list row -> X -> M (list row)) : Prop :=
  forall acc x acc',
    outcome (body acc x) = Ok acc' ->
    (List.length acc <= List.length acc')%nat
    /\ (List.length acc' = List.length acc ->
        Forall no_metric_query (trace (body acc x))).

(** The answer to the metric query [EC2_report.main] sends for the
    inventory row [d]. *)
Definition ec2_metric_answer (w : World) (cw : cloudwatch_client) (d : row)
  : paged (list MetricDataResult) :=
  get_metric_data cw
    (Metrics.metric_data_queries "AWS/EC2"
       [ {| dim_Name := "InstanceId";
            dim_Value := match dict_get "Instance ID" d with
                         | Some c => c
                         | None => CNone
                         end |} ]
       EC2_report.EC2_METRICS)
    (METRIC_DAYS w) "TimestampAscending".

(** The answer to the metric query sent for an ECS service. *)
Definition ecs_metric_answer (w : World) (cw : cloudwatch_client)
    (cluster_name service_name : string) : paged (list MetricDataResult) :=
  get_metric_data cw
    (ECS_report.metric_data_queries cluster_name service_name)
    (METRIC_DAYS w) "TimestampAscending".

(** The window of the metric queries starts on a day of the calendar:
    [datetime.utcnow() - timedelta(days=METRIC_DAYS)] does not raise. *)
Definition window_opens (w : World) : Prop :=
  exists start, Datetime.days_before (utcnow w) (METRIC_DAYS w) = Ok start.

(** The query completes: no page fetch raises, and every result carries an
    [Id] the lookup [metric_list[int(Id[1:])]] accepts. *)
Definition completes (metric_list : list string)
    (answer : paged (list MetricDataResult)) : Prop :=
  failure answer = None
  /\ forall page r, In page (pages answer) -> In r page ->
                    metric_of_result metric_list r <> None.

Definition all_nil : option cell * option cell * option cell :=
  (Some (CStr "Nil"), Some (CStr "Nil"), Some (CStr "Nil")).

Definition all_error : option cell * option cell * option cell :=
  (Some (CStr "Error"), Some (CStr "Error"), Some (CStr "Error")).

(** Log lines of the [main] functions. *)
Definition unexpected (mark : string) (e : exn) : event :=
  Print (nl ++ mark ++ " An unexpected error occurred: " ++ e).

Definition heading (service : string) : event :=
  Print (nl ++ "--- Generating " ++ service ++ " Report ---").

Definition saved (mark file : string) : event :=
  Print (nl ++ mark ++ " Report generation complete! Saved to '" ++ file ++ "'").

End Observe.

(* ===================================================================== *)
(** * Mocked services, for the examples *)
(* ===================================================================== *)

Module Mock.
Import Py Run Aws Observe.

Definition clock : datetime :=
  {| year := 2024; month := 1; day := 15; hour := 9; minute := 30; second := 5 |}.

Definition instance (id name state : string) : Instance :=
  {| InstanceId := Some id;
     Tags := [("Name", name)];
     State_Name := Some state;
     InstanceType := Some "t3.micro";
     Placement_AvailabilityZone := Some "ap-south-1a";
     PublicDnsName := None;
     PublicIpAddress := None;
     Ipv6Addresses := [];
     Monitoring_State := Some "disabled";
     SecurityGroups := ["default"];
     KeyName := None;
     LaunchTime := Some clock;
     PlatformDetails := None;
     PrivateDnsName := Some "ip-10-0-0-1" |}.

Definition one_page {P} (page : P) : paged P :=
  {| pages := [page]; failure := None |}.

Definition failing {P} (e : exn) : paged P :=
  {| pages := []; failure := Some e |}.

(** A filter other than [instance-state-name] lets every instance pass. *)
Definition passes (filters : list Filter) (i : Instance) : bool :=
  forallb (fun f => if String.eqb (f_Name f) "instance-state-name"
                    then in_state (f_Values f) i else true)
          filters.

(** An EC2 service holding [fleet] in one reservation. *)
Definition ec2 (fleet : list Instance) : ec2_client :=
  {| describe_instance_status := fun _ => Ok [];
     describe_addresses := Ok [];
     describe_instances := fun filters => one_page [filter (passes filters) fleet] |}.

(** An EC2 service whose first call fails. *)
Definition ec2_down : ec2_client :=
  {| describe_instance_status := fun _ => Raise "AuthFailure";
     describe_addresses := Ok [];
     describe_instances := fun _ => one_page [] |}.

(** A CloudWatch giving the same answer to every metric query. *)
Definition cloudwatch (answer : paged (list MetricDataResult)) : cloudwatch_client :=
  {| get_metric_data := fun _ _ _ => answer;
     describe_alarms_for_metric := fun _ _ _ => Ok [] |}.

(** The series 10, 20, 30 returned for the query [id], nothing for the
    others. *)
Definition series (id : string) : paged (list MetricDataResult) :=
  one_page [ {| Id := id; Values := [10; 20; 30]%float |} ].

Definition no_data : paged (list MetricDataResult) := one_page [].

Definition db (identifier : string) : DBInstance :=
  {| DBInstanceIdentifier := Some identifier;
     DBInstanceClass := Some "db.t3.micro";
     Engine := Some "postgres";
     DBInstanceStatus := Some "available";
     MultiAZ := Some false;
     AvailabilityZone := Some "ap-south-1a";
     StorageType := Some "gp2";
     AllocatedStorage := Some 20%Z |}.

Definition rds (dbs : list DBInstance) : rds_client :=
  {| describe_db_instances := one_page dbs |}.

Definition rds_down : rds_client :=
  {| describe_db_instances := failing "AccessDenied" |}.

Definition service (name : string) : Service :=
  {| serviceName := Some name;
     serviceArn := Some ("arn:aws:ecs:ap-south-1:1:service/prod/" ++ name);
     status := Some "ACTIVE";
     launchType := Some "FARGATE";
     desiredCount := Some 2%Z;
     runningCount := Some 2%Z;
     taskDefinition := None |}.

(** An ECS service with the clusters [clusters], each running the services
    named [names]. *)
Definition ecs (clusters names : list string) : ecs_client :=
  {| list_clusters := Ok clusters;
     list_services := fun _ => one_page names;
     describe_services := fun _ batch => Ok (map service batch) |}.

Definition world (ec2 : ec2_client) (rds : rds_client) (ecs : ecs_client)
    (cw : cloudwatch_client) : World :=
  {| AWS_REGION := Some "ap-south-1";
     METRIC_DAYS := 90;
     boto3_Session := fun _ =>
       Ok {| client_ec2 := Ok ec2; client_rds := Ok rds;
             client_ecs := Ok ecs; client_cloudwatch := Ok cw |};
     now := clock;
     utcnow := clock |}.


(** Two instances, one of them terminated, one database, one service. *)
Definition fleet : list Instance :=
  [ instance "i-01" "web" "running";
    instance "i-02" "old" "terminated";
    instance "i-03" "batch" "stopped" ].

Definition stocked (cw : cloudwatch_client) : World :=
  world (ec2 fleet) (rds [db "orders"]) (ecs ["arn:aws:ecs:ap-south-1:1:cluster/prod"] ["api"]) cw.

Definition empty : World :=
  world (ec2 []) (rds []) (ecs [] []) (cloudwatch no_data).

Definition down : World :=
  world ec2_down rds_down (ecs [] []) (cloudwatch no_data).

End Mock.

(* ===================================================================== *)
(** * Further notions used by the properties *)
(* ===================================================================== *)

Module Shape.
Import Py Run Aws Observe.


(** The columns of a metrics row, after [Name]. *)
Definition metric_columns (metric_list : list string) : list string :=
  flat_map (fun m => [m ++ " Min"; m ++ " Max"; m ++ " Avg"]) metric_list.

(** A key that is no derived field of any metric. *)
Definition plain_key (k : string) : Prop :=
  forall m, k <> m ++ " Min" /\ k <> m ++ " Max" /\ k <> m ++ " Avg".



(** What the reduction writes for the samples [values] of metric [m]. *)
Definition reduced (format : float -> string -> string) (m : string)
    (values : list float) : option cell * option cell * option cell :=
  match values with
  | [] => all_nil
  | v :: rest =>
      (Some (CStr (format (min_float v rest) m)),
       Some (CStr (format (max_float v rest) m)),
       Some (CStr (format (mean_float v rest) m)))
  end.

(** A [DescribeServices] request names between one and ten services. *)
Definition batch_in_limit (ev : event) : Prop :=
  match ev with
  | Call (DescribeServices _ batch) =>
      (1 <= List.length batch <= 10)%nat
  | _ => True
  end.

(** The last entry of [statuses] for the instance [id]. *)
Definition last_status (statuses : list InstanceStatusEntry) (id : string)
  : option InstanceStatusEntry :=
  find (fun s => match st_InstanceId s with
                 | Some i => String.eqb id i
                 | None => false
                 end)
       (rev statuses).

(** The last entry of [addresses] associated with the instance [id]. *)
Definition last_address (addresses : list Address) (id : string)
  : option Address :=
  find (fun a => match a_InstanceId a with
                 | Some i => String.eqb id i
                 | None => false
                 end)
       (rev addresses).

(** The dimensions of the alarm lookup for instance [i]. *)
Definition alarm_dimensions (i : Instance) : list Dimension :=
  [ {| dim_Name := "InstanceId"; dim_Value := cell_of (InstanceId i) |} ].

(** The row the listing is to produce for instance [i], read off the
    answers of the service. *)
Definition expected_row (statuses : list InstanceStatusEntry)
    (addresses : list Address) (cw : cloudwatch_client) (i : Instance) : row :=
  EC2_report.instance_row i
    (EC2_report.status_check_of
       (match InstanceId i with
        | Some id => last_status statuses id
        | None => None
        end))
    (match describe_alarms_for_metric cw "CPUUtilization" "AWS/EC2"
             (alarm_dimensions i) with
     | Ok (_ :: _) => "View alarms"
     | _ => "No alarms"
     end)
    (match InstanceId i with
     | Some id => match last_address addresses id with
                  | Some a => EC2_report.or_default (a_PublicIp a) dash
                  | None => dash
                  end
     | None => dash
     end)
    (match LaunchTime i with
     | Some t => launch_stamp t
     | None => ""
     end).


End Shape.

(* ===================================================================== *)
(** * Properties *)
(* ===================================================================== *)

Import Py Run Run.Notations Aws Observe.

Section RunLemmas.

Context {A B : Type}.

Lemma bind_ok (m : M A) (k : A -> M B) (a : A) :
  outcome m = Ok a ->
  bind m k = ((trace m ++ trace (k a))%list, outcome (k a)).
Proof.
  destruct m as [t [a'|e]]; simpl; intros H; inversion H; subst.
  destruct (k a); reflexivity.
Qed.

Lemma bind_ok_inv (m : M A) (k : A -> M B) (b : B) :
  outcome (bind m k) = Ok b ->
  exists a, outcome m = Ok a /\ outcome (k a) = Ok b
            /\ trace (bind m k) = (trace m ++ trace (k a))%list.
Proof.
  destruct m as [t [a|e]]; simpl.
  - destruct (k a) as [t' r] eqn:E; simpl. intros ->. exists a.
    rewrite E. auto.
  - discriminate.
Qed.

Lemma bind_all (P : event -> Prop) (m : M A) (k : A -> M B) :
  Forall P (trace m) -> (forall a, Forall P (trace (k a))) ->
  Forall P (trace (bind m k)).
Proof.
  destruct m as [t [a|e]]; simpl; intros Hm Hk; auto.
  specialize (Hk a). destruct (k a); simpl in *.
  apply Forall_app; auto.
Qed.

Lemma try_except_all (P : event -> Prop) (m : M A) (h : exn -> M A) :
  Forall P (trace m) -> (forall e, Forall P (trace (h e))) ->
  Forall P (trace (try_except m h)).
Proof.
  destruct m as [t [a|e]]; simpl; intros Hm Hh; auto.
  specialize (Hh e). destruct (h e); simpl in *.
  apply Forall_app; auto.
Qed.

End RunLemmas.

Lemma for_each_all {X S} (P : event -> Prop) (xs : list X)
    (body : S -> X -> M S) :
  (forall acc x, In x xs -> Forall P (trace (body acc x))) ->
  forall acc, Forall P (trace (for_each xs acc body)).
Proof.
  induction xs as [|x rest IH]; intros Hb acc; simpl.
  - constructor.
  - apply bind_all.
    + apply Hb. now left.
    + intros acc'. apply IH. intros. apply Hb. now right.
Qed.

Lemma map_M_all {X Y} (P : event -> Prop) (f : X -> M Y) (xs : list X) :
  (forall x, In x xs -> Forall P (trace (f x))) ->
  Forall P (trace (map_M f xs)).
Proof.
  induction xs as [|x rest IH]; intros Hf; simpl.
  - constructor.
  - apply bind_all; [apply Hf; now left|]. intros y.
    apply bind_all; [apply IH; intros; apply Hf; now right|].
    intros ys. constructor.
Qed.

Lemma for_pages_all {P0 S} (P : event -> Prop) (r : request)
    (answer : paged P0) (acc : S) (body : S -> P0 -> M S) :
  P (Call r) ->
  (forall acc page, In page (pages answer) -> Forall P (trace (body acc page))) ->
  Forall P (trace (for_pages r answer acc body)).
Proof.
  intros Hr Hb. unfold for_pages.
  apply bind_all; [repeat constructor; exact Hr|]. intros _.
  apply bind_all; [apply for_each_all; exact Hb|]. intros acc'.
  destruct (failure answer); constructor.
Qed.

Lemma filter_none {X} (p : X -> bool) (l : list X) :
  Forall (fun x => p x = false) l -> filter p l = [].
Proof.
  induction 1 as [|x l Hx _ IH]; simpl; [reflexivity|]. now rewrite Hx.
Qed.

(** ** The entry point *)

(** C8: the entry point runs the three reports one after the other,
    whatever each of them does; a report that raises leaves one log line of
    the entry point behind it, the reports after it still run, and the entry
    point itself ends without an exception. *)
Theorem main_runs_all_reports (EC2_main RDS_main ECS_main : M unit) :
  outcome (Main.run_reports EC2_main RDS_main ECS_main) = Ok tt
  /\ trace (Main.run_reports EC2_main RDS_main ECS_main)
     = ([Print "--- Starting AWS Report Generation ---"]
        ++ [Print (nl ++ "--- Generating EC2 Report ---")]
        ++ trace EC2_main ++ failure_log "EC2" EC2_main
        ++ [Print (nl ++ "--- Generating RDS Report ---")]
        ++ trace RDS_main ++ failure_log "RDS" RDS_main
        ++ [Print (nl ++ "--- Generating ECS Report ---")]
        ++ trace ECS_main ++ failure_log "ECS" ECS_main
        ++ [Print (nl ++ "--- All Reports Generated Successfully ---")])%list.
Proof.
  unfold Main.run_reports, failure_log.
  destruct EC2_main as [t1 [[]|e1]], RDS_main as [t2 [[]|e2]],
           ECS_main as [t3 [[]|e3]]; simpl;
    repeat rewrite <- app_assoc; simpl; split; reflexivity.
Qed.

(** ** Formatting *)

(** C5: a utilization of 42.5 is shown as 42.50%, and 2147483648 bytes of
    memory as 2.15 GB: by the EC2 formatter for CPUUtilization and for a
    byte count, by the RDS formatter for CPUUtilization and FreeableMemory. *)
Theorem format_metric_value_examples :
  EC2_report.format_metric_value 42.5 "CPUUtilization" = "42.50%"
  /\ RDS_report.format_metric_value 42.5 "CPUUtilization" = "42.50%"
  /\ RDS_report.format_metric_value 2147483648 "FreeableMemory" = "2.15 GB"
  /\ EC2_report.format_metric_value 2147483648 "MemoryBytes" = "2.15 GB".
Proof. repeat split; vm_compute; reflexivity. Qed.
(** ** Dictionaries *)

Section DictLemmas.

Context {V : Type}.

Lemma dict_get_set_same (k : string) (v : V) (d : dict V) :
  dict_get k (dict_set k v d) = Some v.
Proof.
  induction d as [|[k' v'] rest IH]; simpl.
  - now rewrite String.eqb_refl.
  - destruct (String.eqb k k') eqn:E; simpl; rewrite E; auto.
Qed.

Lemma dict_get_set_other (k k' : string) (v : V) (d : dict V) :
  k <> k' -> dict_get k (dict_set k' v d) = dict_get k d.
Proof.
  intros Hne. induction d as [|[k0 v0] rest IH]; simpl.
  - apply String.eqb_neq in Hne. now rewrite Hne.
  - destruct (String.eqb k' k0) eqn:E; simpl.
    + apply String.eqb_eq in E. subst k0.
      apply String.eqb_neq in Hne. now rewrite Hne.
    + now rewrite IH.
Qed.

Lemma dict_get_set (k k' : string) (v : V) (d : dict V) :
  dict_get k (dict_set k' v d)
  = if String.eqb k k' then Some v else dict_get k d.
Proof.
  destruct (String.eqb_spec k k') as [->|Hne].
  - apply dict_get_set_same.
  - now apply dict_get_set_other.
Qed.

Lemma dict_set_keys_in (k k0 : string) (v : V) (d : dict V) :
  In k0 (dict_keys (dict_set k v d)) -> k0 = k \/ In k0 (dict_keys d).
Proof.
  induction d as [|[k' v'] rest IH]; simpl.
  - intros [<-|[]]. now left.
  - destruct (String.eqb_spec k k') as [->|Hne]; simpl.
    + intros [<-|H]; auto.
    + intros [<-|H]; auto. destruct (IH H); auto.
Qed.

Lemma dict_set_nodup (k : string) (v : V) (d : dict V) :
  NoDup (dict_keys d) -> NoDup (dict_keys (dict_set k v d)).
Proof.
  induction d as [|[k' v'] rest IH]; simpl; intros Hnd.
  - constructor; [intros []|constructor].
  - inversion Hnd as [|? ? Hnotin Hrest]; subst.
    destruct (String.eqb_spec k k') as [->|Hne]; simpl.
    + constructor; assumption.
    + constructor; [|now apply IH].
      intros Hin. apply dict_set_keys_in in Hin as [->|Hin]; auto.
Qed.

End DictLemmas.

(** ** The keys of the derived fields *)

Lemma length_append (a s : string) :
  String.length (a ++ s) = String.length a + String.length s.
Proof. induction a as [|c a IH]; simpl; [reflexivity|now rewrite IH]. Qed.

Lemma append_inj_same_length (a b s t : string) :
  String.length a = String.length b -> a ++ s = b ++ t -> a = b /\ s = t.
Proof.
  revert b. induction a as [|c a IH]; intros [|c' b]; simpl;
    try discriminate; intros Hlen Heq.
  - auto.
  - injection Heq as -> Heq. injection Hlen as Hlen.
    destruct (IH b Hlen Heq) as [-> ->]. auto.
Qed.

Lemma append_inj_suffix (a b s t : string) :
  String.length s = String.length t -> a ++ s = b ++ t -> a = b /\ s = t.
Proof.
  intros Hlen Heq. apply append_inj_same_length; [|exact Heq].
  apply (f_equal String.length) in Heq. rewrite !length_append in Heq. lia.
Qed.

Lemma key_eqb (a b s t : string) :
  String.length s = String.length t ->
  String.eqb (a ++ s) (b ++ t) = String.eqb a b && String.eqb s t.
Proof.
  intros Hlen.
  destruct (String.eqb_spec (a ++ s) (b ++ t)) as [Heq|Hne].
  - destruct (append_inj_suffix _ _ _ _ Hlen Heq) as [-> ->].
    now rewrite !String.eqb_refl.
  - destruct (String.eqb_spec a b) as [->|]; [|reflexivity].
    destruct (String.eqb_spec s t) as [->|]; [|reflexivity].
    now elim Hne.
Qed.

Lemma name_is_no_field (m s : string) :
  String.length s = 4 -> s <> "Name" -> String.eqb "Name" (m ++ s) = false.
Proof.
  intros Hlen Hs. apply String.eqb_neq. intros Heq.
  destruct (append_inj_suffix "" m "Name" s) as [_ ?]; auto.
Qed.

Lemma stat_cells_eq (m : string) (a b c : cell) :
  Metrics.stat_cells m a b c
  = [(m ++ " Min", a); (m ++ " Max", b); (m ++ " Avg", c)].
Proof.
  unfold Metrics.stat_cells, dict_of, dict_update. simpl.
  repeat (simpl; rewrite ?key_eqb by reflexivity; rewrite ?andb_false_r).
  reflexivity.
Qed.

Lemma update_stat_cells (md : dict cell) (m : string) (a b c : cell) :
  dict_update md (Metrics.stat_cells m a b c)
  = dict_set (m ++ " Avg") c
      (dict_set (m ++ " Max") b (dict_set (m ++ " Min") a md)).
Proof. rewrite stat_cells_eq. reflexivity. Qed.

Lemma derived_fields_update_same (md : dict cell) (m : string) (a b c : cell) :
  derived_fields (dict_update md (Metrics.stat_cells m a b c)) m
  = (Some a, Some b, Some c).
Proof.
  rewrite update_stat_cells. unfold derived_fields.
  rewrite !dict_get_set, !key_eqb by reflexivity.
  rewrite !String.eqb_refl. reflexivity.
Qed.

Lemma derived_fields_update_other (md : dict cell) (m m' : string) (a b c : cell) :
  m <> m' ->
  derived_fields (dict_update md (Metrics.stat_cells m' a b c)) m
  = derived_fields md m.
Proof.
  intros Hne. rewrite update_stat_cells. unfold derived_fields.
  rewrite !dict_get_set, !key_eqb by reflexivity.
  apply String.eqb_neq in Hne. rewrite Hne. reflexivity.
Qed.

Lemma name_update (md : dict cell) (m : string) (a b c : cell) :
  dict_get "Name" (dict_update md (Metrics.stat_cells m a b c))
  = dict_get "Name" md.
Proof.
  rewrite update_stat_cells, !dict_get_set.
  rewrite !name_is_no_field by (reflexivity || discriminate). reflexivity.
Qed.

(** ** The reduction of the collected samples *)

Section Reduction.

Variable format_metric_value : float -> string -> string.

Let reduce_metric := Metrics.reduce_metric format_metric_value.

(** What the reduction writes for the samples [values] of metric [m]. *)
Let reduced (m : string) (values : list float) :=
  match values with
  | [] => (Some (CStr "Nil"), Some (CStr "Nil"), Some (CStr "Nil"))
  | v :: rest =>
      (Some (CStr (format_metric_value (min_float v rest) m)),
       Some (CStr (format_metric_value (max_float v rest) m)),
       Some (CStr (format_metric_value (mean_float v rest) m)))
  end.

Lemma reduce_metric_same (md : dict cell) (m : string) (values : list float) :
  derived_fields (reduce_metric md (m, values)) m = reduced m values.
Proof.
  unfold reduce_metric, Metrics.reduce_metric, reduced.
  destruct values; apply derived_fields_update_same.
Qed.

Lemma reduce_metric_other (md : dict cell) (m m' : string) (values : list float) :
  m <> m' ->
  derived_fields (reduce_metric md (m', values)) m = derived_fields md m.
Proof.
  intros Hne. unfold reduce_metric, Metrics.reduce_metric.
  destruct values; now apply derived_fields_update_other.
Qed.

Lemma reduce_metric_name (md : dict cell) (item : string * list float) :
  dict_get "Name" (reduce_metric md item) = dict_get "Name" md.
Proof.
  destruct item as [m values]. unfold reduce_metric, Metrics.reduce_metric.
  destruct values; apply name_update.
Qed.

Lemma fold_reduce_name (all_results : dict (list float)) (md : dict cell) :
  dict_get "Name" (fold_left reduce_metric all_results md) = dict_get "Name" md.
Proof.
  revert md. induction all_results as [|item rest IH]; intros md; simpl.
  - reflexivity.
  - now rewrite IH, reduce_metric_name.
Qed.

Lemma fold_reduce_other (all_results : dict (list float)) (md : dict cell)
    (m : string) :
  ~ In m (dict_keys all_results) ->
  derived_fields (fold_left reduce_metric all_results md) m
  = derived_fields md m.
Proof.
  revert md. induction all_results as [|[m' vs] rest IH]; intros md Hn; simpl.
  - reflexivity.
  - rewrite IH by (intros Hin; apply Hn; now right).
    apply reduce_metric_other. intros ->. apply Hn. now left.
Qed.

Lemma fold_reduce_fields (all_results : dict (list float)) (md : dict cell)
    (m : string) (values : list float) :
  NoDup (dict_keys all_results) ->
  dict_get m all_results = Some values ->
  derived_fields (fold_left reduce_metric all_results md) m = reduced m values.
Proof.
  revert md. induction all_results as [|[m' vs] rest IH]; intros md Hnd Hget.
  - discriminate.
  - simpl in Hget, Hnd |- *. inversion Hnd as [|? ? Hnotin Hrest]; subst.
    destruct (String.eqb_spec m m') as [->|Hne].
    + injection Hget as ->. rewrite fold_reduce_other by exact Hnotin.
      apply reduce_metric_same.
    + now apply IH.
Qed.

End Reduction.

(** ** The [except] branch *)

Lemma mark_errors_keeps (metric_list : list string) (md : dict cell) (m : string) :
  derived_fields md m
  = (Some (CStr "Error"), Some (CStr "Error"), Some (CStr "Error")) ->
  derived_fields (Metrics.mark_errors metric_list md) m
  = (Some (CStr "Error"), Some (CStr "Error"), Some (CStr "Error")).
Proof.
  revert md. unfold Metrics.mark_errors.
  induction metric_list as [|m' rest IH]; intros md H; simpl; [exact H|].
  apply IH. destruct (String.eqb_spec m m') as [->|Hne].
  - apply derived_fields_update_same.
  - now rewrite derived_fields_update_other.
Qed.

Lemma mark_errors_fields (metric_list : list string) (md : dict cell) (m : string) :
  In m metric_list ->
  derived_fields (Metrics.mark_errors metric_list md) m
  = (Some (CStr "Error"), Some (CStr "Error"), Some (CStr "Error")).
Proof.
  revert md. induction metric_list as [|m' rest IH]; intros md Hin.
  - destruct Hin.
  - destruct Hin as [->|Hin].
    + apply (mark_errors_keeps rest). apply derived_fields_update_same.
    + apply IH, Hin.
Qed.

Lemma mark_errors_name (metric_list : list string) (md : dict cell) :
  dict_get "Name" (Metrics.mark_errors metric_list md) = dict_get "Name" md.
Proof.
  revert md. unfold Metrics.mark_errors.
  induction metric_list as [|m' rest IH]; intros md; simpl; [reflexivity|].
  now rewrite IH, name_update.
Qed.

(** ** The paging loop *)

Lemma for_each_app {X S} (xs ys : list X) (acc : S) (body : S -> X -> M S) :
  for_each (xs ++ ys) acc body
  = (acc' <- for_each xs acc body ;; for_each ys acc' body).
Proof.
  revert acc. induction xs as [|x rest IH]; intros acc; simpl.
  - destruct (for_each ys acc body) as [t r]. simpl. destruct r; reflexivity.
  - destruct (body acc x) as [t [acc1|e]]; simpl; [|reflexivity].
    rewrite IH. destruct (for_each rest acc1 body) as [t1 [acc2|e1]]; simpl.
    + destruct (for_each ys acc2 body) as [t2 r2]. simpl.
      now rewrite app_assoc.
    + reflexivity.
Qed.

Lemma for_each_concat {X S} (xss : list (list X)) (acc : S)
    (body : S -> X -> M S) :
  for_each xss acc (fun acc xs => for_each xs acc body)
  = for_each (List.concat xss) acc body.
Proof.
  revert acc. induction xss as [|xs rest IH]; intros acc; simpl.
  - reflexivity.
  - rewrite for_each_app. destruct (for_each xs acc body) as [t [acc1|e]]; simpl.
    + now rewrite IH.
    + reflexivity.
Qed.

Lemma index_In {X} (l : list X) (i : Z) (x : X) : index l i = Ok x -> In x l.
Proof.
  unfold index.
  destruct (_ && _); [|discriminate].
  destruct (nth_error l _) eqn:E; [|discriminate].
  intros [= <-]. eapply nth_error_In, E.
Qed.

Section Collect.

Variable metric_list : list string.

Let samples (m : string) (rs : list MetricDataResult) : list float :=
  List.concat (map Values (filter (filed_under metric_list m) rs)).

(** The lists of [all_results] grow by the values filed under their
    metric, as long as every result names one of the metrics asked for. *)
Lemma collect_results (rs : list MetricDataResult) (all_results : dict (list float)) :
  (forall r, In r rs -> metric_of_result metric_list r <> None) ->
  (forall m, In m metric_list -> dict_get m all_results <> None) ->
  NoDup (dict_keys all_results) ->
  exists all_results',
    for_each rs all_results (Metrics.collect_result metric_list)
    = ([], Ok all_results')
    /\ NoDup (dict_keys all_results')
    /\ forall m, dict_get m all_results'
                 = option_map (fun old => (old ++ samples m rs)%list)
                              (dict_get m all_results).
Proof.
  revert all_results. induction rs as [|r rest IH]; intros ar Hres Hkeys Hnd.
  - exists ar. repeat split; auto. intros m. unfold samples. simpl.
    destruct (dict_get m ar); simpl; [now rewrite app_nil_r|reflexivity].
  - assert (Hr := Hres r (or_introl eq_refl)).
    unfold metric_of_result in Hr.
    destruct (int_of_str (drop_first (Id r))) as [i|e] eqn:Ei; [|now elim Hr].
    destruct (index metric_list i) as [m0|e] eqn:Em; [|now elim Hr].
    assert (Hin0 : In m0 metric_list) by (eapply index_In, Em).
    destruct (dict_get m0 ar) as [old|] eqn:Eold; [|now elim (Hkeys m0 Hin0)].
    destruct (IH (dict_set m0 (old ++ Values r)%list ar)) as (ar' & Hrun & Hnd' & Hget).
    + intros r' Hr'. apply Hres. now right.
    + intros m Hm. rewrite dict_get_set.
      destruct (String.eqb m m0); [discriminate|now apply Hkeys].
    + now apply dict_set_nodup.
    + exists ar'. split; [|split; [exact Hnd'|]].
      * simpl. unfold Metrics.collect_result at 1. rewrite Ei. simpl.
        rewrite Em. simpl. unfold Metrics.extend. rewrite Eold. simpl.
        rewrite Hrun. reflexivity.
      * intros m. rewrite Hget, dict_get_set. unfold samples. simpl.
        unfold filed_under at 2, metric_of_result. rewrite Ei, Em.
        rewrite (String.eqb_sym m0 m).
        destruct (String.eqb_spec m m0) as [->|Hne].
        -- rewrite Eold. simpl. now rewrite app_assoc.
        -- reflexivity.
Qed.

Lemma init_results_spec (l : list string) (acc : dict (list float)) :
  NoDup (dict_keys acc) ->
  let d := fold_left (fun d m => dict_set m [] d) l acc in
  NoDup (dict_keys d)
  /\ (forall m, In m l -> dict_get m d = Some [])
  /\ (forall m, ~ In m l -> dict_get m d = dict_get m acc).
Proof.
  revert acc. induction l as [|m0 rest IH]; intros acc Hnd; simpl.
  - repeat split; auto. intros m [].
  - destruct (IH (dict_set m0 [] acc) (dict_set_nodup _ _ _ Hnd))
      as (Hnd' & Hin & Hout).
    split; [exact Hnd'|]. split.
    + intros m [->|Hm].
      * destruct (in_dec string_dec m rest) as [Hr|Hr]; [now apply Hin|].
        rewrite Hout by exact Hr. apply dict_get_set_same.
      * now apply Hin.
    + intros m Hm. rewrite Hout by (intros Hr; apply Hm; now right).
      apply dict_get_set_other. intros ->. apply Hm. now left.
Qed.

End Collect.

(** ** One metric query *)

Lemma bind_lift_ok {X Y} (a : X) (k : X -> M Y) : bind (lift (Ok a)) k = k a.
Proof. unfold bind, lift. now destruct (k a). Qed.

Section MetricQuery.

Variable METRIC_DAYS : Z.
Variable utcnow : datetime.
Variable queries : list MetricDataQuery.
Variable metric_list : list string.
Variable cloudwatch_client : cloudwatch_client.

Let answer :=
  get_metric_data cloudwatch_client queries METRIC_DAYS "TimestampAscending".
Let the_call := Call (GetMetricData queries METRIC_DAYS "TimestampAscending").
Let collect :=
  Metrics.collect METRIC_DAYS utcnow queries metric_list cloudwatch_client.
Let window := Datetime.days_before utcnow METRIC_DAYS.

Lemma collect_ok (start : Z) :
  window = Ok start ->
  failure answer = None ->
  (forall page r, In page (pages answer) -> In r page ->
                  metric_of_result metric_list r <> None) ->
  exists all_results,
    collect = ([the_call], Ok all_results)
    /\ NoDup (dict_keys all_results)
    /\ forall m, In m metric_list ->
                 dict_get m all_results
                 = Some (samples_of metric_list m (pages answer)).
Proof.
  intros Hwin Hend Hres.
  destruct (init_results_spec metric_list [] (NoDup_nil _)) as (Hnd & Hin & _).
  destruct (collect_results metric_list (List.concat (pages answer))
              (fold_left (fun d m => dict_set m [] d) metric_list []))
    as (ar & Hrun & Hnd' & Hget).
  - intros r Hr. apply in_concat in Hr as (page & Hp & Hr). eauto.
  - intros m Hm. rewrite (Hin m Hm). discriminate.
  - exact Hnd.
  - exists ar. split; [|split; [exact Hnd'|]].
    + unfold collect, Metrics.collect. fold window. rewrite Hwin, bind_lift_ok.
      unfold for_pages. fold answer.
      rewrite for_each_concat, Hrun, Hend. reflexivity.
    + intros m Hm. rewrite Hget, (Hin m Hm). reflexivity.
Qed.

Lemma collect_fails (e : exn) :
  failure answer = Some e -> exists e', outcome collect = Raise e'.
Proof.
  intros Hf. unfold collect, Metrics.collect. fold window.
  destruct window as [start|e0]; [|simpl; eauto].
  rewrite bind_lift_ok. unfold for_pages. fold answer.
  rewrite Hf. simpl.
  destruct (for_each (pages answer) _ _) as [t [ar|e']]; simpl; eauto.
Qed.


Lemma collect_result_silent (acc : dict (list float)) (r : MetricDataResult) :
  trace (Metrics.collect_result metric_list acc r) = [].
Proof.
  unfold Metrics.collect_result, Metrics.extend.
  destruct (int_of_str _); simpl; [|reflexivity].
  destruct (index _ _) as [m|]; simpl; [|reflexivity].
  destruct (dict_get m acc); reflexivity.
Qed.

Lemma collect_trace :
  trace collect = match window with Ok _ => [the_call] | Raise _ => [] end.
Proof.
  unfold collect, Metrics.collect. fold window.
  destruct window as [start|e0]; [|reflexivity].
  rewrite bind_lift_ok. unfold for_pages. fold answer.
  rewrite for_each_concat.
  assert (H : forall rs acc,
             trace (for_each rs acc (Metrics.collect_result metric_list)) = []).
  { induction rs as [|r rest IH]; intros acc; simpl; [reflexivity|].
    pose proof (collect_result_silent acc r) as Hs.
    destruct (Metrics.collect_result metric_list acc r) as [t [acc'|e]];
      simpl in *; subst; [|reflexivity].
    specialize (IH acc'). destruct (for_each rest acc' _); simpl in *.
    now subst. }
  match goal with |- context [for_each ?rs ?acc _] =>
    specialize (H rs acc); destruct (for_each rs acc _) as [t [ar|e]] end;
    simpl in *; subst; [|reflexivity].
  destruct (failure answer); reflexivity.
Qed.

End MetricQuery.

Section GetCloudwatchMetrics.

Variable format_metric_value : float -> string -> string.
Variable METRIC_DAYS : Z.
Variable utcnow : datetime.
Variable namespace : string.
Variable dimensions : list Dimension.
Variable resource_name : cell.
Variable metric_list : list string.
Variable cloudwatch_client : cloudwatch_client.

Let queries := Metrics.metric_data_queries namespace dimensions metric_list.
Let answer :=
  get_metric_data cloudwatch_client queries METRIC_DAYS "TimestampAscending".
Let window := Datetime.days_before utcnow METRIC_DAYS.
Let run :=
  Metrics.get_cloudwatch_metrics format_metric_value METRIC_DAYS utcnow
    namespace dimensions resource_name metric_list cloudwatch_client.

Lemma metrics_row_total :
  exists r, outcome run = Ok r /\ dict_get "Name" r = Some resource_name.
Proof.
  unfold run, Metrics.get_cloudwatch_metrics. simpl.
  destruct (Metrics.collect _ _ _ _ _) as [t [ar|e]]; simpl.
  - eexists. split; [reflexivity|]. now rewrite fold_reduce_name.
  - eexists. split; [reflexivity|]. now rewrite mark_errors_name.
Qed.


Lemma metrics_row_ok (start : Z) (m : string) :
  window = Ok start ->
  failure answer = None ->
  (forall page r, In page (pages answer) -> In r page ->
                  metric_of_result metric_list r <> None) ->
  In m metric_list ->
  exists r,
    outcome run = Ok r
    /\ derived_fields r m
       = match samples_of metric_list m (pages answer) with
         | [] => (Some (CStr "Nil"), Some (CStr "Nil"), Some (CStr "Nil"))
         | v :: rest =>
             (Some (CStr (format_metric_value (min_float v rest) m)),
              Some (CStr (format_metric_value (max_float v rest) m)),
              Some (CStr (format_metric_value (mean_float v rest) m)))
         end.
Proof.
  intros Hwin Hend Hres Hm.
  destruct (collect_ok METRIC_DAYS utcnow queries metric_list cloudwatch_client
              start Hwin Hend Hres) as (ar & Hrun & Hnd & Hget).
  unfold run, Metrics.get_cloudwatch_metrics. fold queries. rewrite Hrun.
  simpl. eexists. split; [reflexivity|].
  apply fold_reduce_fields; auto.
Qed.

Lemma metrics_row_error (e : exn) (m : string) :
  failure answer = Some e ->
  In m metric_list ->
  exists r,
    outcome run = Ok r
    /\ derived_fields r m
       = (Some (CStr "Error"), Some (CStr "Error"), Some (CStr "Error")).
Proof.
  intros Hf Hm.
  destruct (collect_fails METRIC_DAYS utcnow queries metric_list
              cloudwatch_client e Hf) as (e' & He').
  unfold run, Metrics.get_cloudwatch_metrics. fold queries.
  destruct (Metrics.collect _ _ _ _ _) as [t [ar|e0]]; simpl in *;
    [discriminate|].
  eexists. split; [reflexivity|]. now apply mark_errors_fields.
Qed.

End GetCloudwatchMetrics.

(** ** [ECS_report.get_cloudwatch_metrics] *)

Lemma fold_left_ext {X Y} (f g : X -> Y -> X) (l : list Y) (x : X) :
  (forall a b, f a b = g a b) -> fold_left f l x = fold_left g l x.
Proof.
  intros H. revert x. induction l as [|y rest IH]; intros x; simpl.
  - reflexivity.
  - now rewrite H, IH.
Qed.

Lemma ecs_reduce_metric_eq (md : dict cell) (item : string * list float) :
  ECS_report.reduce_metric md item
  = Metrics.reduce_metric ECS_report.format_metric_value md item.
Proof.
  destruct item as [m [|v rest]]; simpl; now rewrite update_stat_cells.
Qed.

Section EcsMetricQuery.

Variable w : World.
Variables cluster_name service_name : string.
Variable cloudwatch_client : cloudwatch_client.

Let queries := ECS_report.metric_data_queries cluster_name service_name.
Let answer :=
  get_metric_data cloudwatch_client queries (METRIC_DAYS w) "TimestampAscending".
Let window := Datetime.days_before (utcnow w) (METRIC_DAYS w).
Let run :=
  ECS_report.get_cloudwatch_metrics w cluster_name service_name cloudwatch_client.

Lemma ecs_metrics_trace :
  exists log,
    trace run
    = (match window with
       | Ok _ => [Call (GetMetricData queries (METRIC_DAYS w) "TimestampAscending")]
       | Raise _ => []
       end
       ++ map Print log)%list.
Proof.
  unfold run, ECS_report.get_cloudwatch_metrics.
  pose proof (collect_trace (METRIC_DAYS w) (utcnow w) queries
                ECS_report.ECS_METRICS cloudwatch_client) as Ht.
  fold queries. fold window in Ht.
  destruct (Metrics.collect _ _ _ _ _) as [t [ar|e]]; simpl in *; subst.
  - exists []. simpl. now rewrite List.app_nil_r.
  - eexists [_]. reflexivity.
Qed.

Lemma ecs_metrics_ok (start : Z) (m : string) :
  window = Ok start ->
  failure answer = None ->
  (forall page r, In page (pages answer) -> In r page ->
                  metric_of_result ECS_report.ECS_METRICS r <> None) ->
  In m ECS_report.ECS_METRICS ->
  exists stats,
    outcome run = Ok stats
    /\ derived_fields stats m
       = match samples_of ECS_report.ECS_METRICS m (pages answer) with
         | [] => (Some (CStr "Nil"), Some (CStr "Nil"), Some (CStr "Nil"))
         | v :: rest =>
             (Some (CStr (ECS_report.format_metric_value (min_float v rest) m)),
              Some (CStr (ECS_report.format_metric_value (max_float v rest) m)),
              Some (CStr (ECS_report.format_metric_value (mean_float v rest) m)))
         end.
Proof.
  intros Hwin Hend Hres Hm.
  destruct (collect_ok (METRIC_DAYS w) (utcnow w) queries ECS_report.ECS_METRICS
              cloudwatch_client start Hwin Hend Hres) as (ar & Hrun & Hnd & Hget).
  unfold run, ECS_report.get_cloudwatch_metrics. fold queries. rewrite Hrun.
  simpl. eexists. split; [reflexivity|].
  rewrite (fold_left_ext _ _ _ _ ecs_reduce_metric_eq).
  apply fold_reduce_fields; auto.
Qed.

Lemma ecs_metrics_error (e : exn) :
  failure answer = Some e ->
  outcome run
  = Ok [ ("CPUUtilization Min", CStr "Error"); ("CPUUtilization Max", CStr "Error");
         ("CPUUtilization Avg", CStr "Error");
         ("MemoryUtilization Min", CStr "Error");
         ("MemoryUtilization Max", CStr "Error");
         ("MemoryUtilization Avg", CStr "Error") ].
Proof.
  intros Hf.
  destruct (collect_fails (METRIC_DAYS w) (utcnow w) queries
              ECS_report.ECS_METRICS cloudwatch_client e Hf) as (e' & He').
  unfold run, ECS_report.get_cloudwatch_metrics. fold queries.
  destruct (Metrics.collect _ _ _ _ _) as [t [ar|e0]]; simpl in *;
    [discriminate|reflexivity].
Qed.

End EcsMetricQuery.

(** ** A formatted value is never the no-data mark *)

Lemma contains_append_r (x a b : string) :
  contains x b = true -> contains x (a ++ b) = true.
Proof.
  intros H. induction a as [|c a IH]; [exact H|].
  change (contains x (String c a ++ b))
    with (if prefix x (String c (a ++ b)) then true else contains x (a ++ b)).
  rewrite IH. now destruct (prefix x (String c (a ++ b))).
Qed.

Lemma format_2f_not_nil (value : float) : format_2f value <> "Nil".
Proof.
  unfold format_2f.
  destruct (Prim2SF value) as [[]|[]|  |s m e]; try discriminate.
  intros H. apply (f_equal (contains ".")) in H.
  rewrite contains_append_r in H; [discriminate|].
  apply contains_append_r. simpl. now destruct (pad2 _).
Qed.

Lemma append_not_nil (a s : string) :
  (s = "%" \/ s = " GB") -> a ++ s <> "Nil".
Proof.
  intros [-> | ->] H.
  - destruct (append_inj_suffix a "Ni" "%" "l" eq_refl H). discriminate.
  - destruct (append_inj_suffix a "" " GB" "Nil" eq_refl H). discriminate.
Qed.

Lemma formatted_not_nil (value : float) (metric_name : string) :
  EC2_report.format_metric_value value metric_name <> "Nil"
  /\ RDS_report.format_metric_value value metric_name <> "Nil"
  /\ ECS_report.format_metric_value value metric_name <> "Nil".
Proof.
  unfold EC2_report.format_metric_value, RDS_report.format_metric_value,
    ECS_report.format_metric_value.
  repeat split;
    repeat match goal with
           | |- context [if ?c then _ else _] => destruct c
           end;
    try apply format_2f_not_nil; apply append_not_nil; auto.
Qed.

(** ** Runs without exports, runs without metric queries *)

Lemma silent_all {X} (P : event -> Prop) (m : M X) :
  trace m = [] -> Forall P (trace m).
Proof. intros ->. constructor. Qed.

Lemma single_all {X} (P : event -> Prop) (m : M X) (ev : event) :
  trace m = [ev] -> P ev -> Forall P (trace m).
Proof. intros -> H. now constructor. Qed.

Lemma bind_print {X} (text : string) (k : unit -> M X) :
  bind (print text) k = (Print text :: trace (k tt), outcome (k tt)).
Proof. unfold bind, print, emit. now destruct (k tt). Qed.

(** Goals [Forall P (trace m)] for [m] built from the loops and steps of
    module [Run]. *)
Ltac quiet :=
  repeat first
    [ apply bind_all
    | apply for_pages_all
    | apply for_each_all
    | apply map_M_all
    | apply try_except_all
    | apply silent_all; reflexivity
    | eapply single_all; [reflexivity|reflexivity]
    | progress intros
    | reflexivity
    | match goal with
      | |- Forall _ (trace (match ?x with _ => _ end)) => destruct x
      end ].

Lemma ec2_listing_no_export ec2 cw :
  Forall no_export (trace (EC2_report.get_ec2_instance_details ec2 cw)).
Proof. unfold EC2_report.get_ec2_instance_details, EC2_report.describe_instance. quiet. Qed.

Lemma ec2_listing_no_metric_query ec2 cw :
  Forall no_metric_query (trace (EC2_report.get_ec2_instance_details ec2 cw)).
Proof. unfold EC2_report.get_ec2_instance_details, EC2_report.describe_instance. quiet. Qed.

Lemma rds_listing_no_export rds :
  Forall no_export (trace (RDS_report.get_rds_instance_details rds)).
Proof. unfold RDS_report.get_rds_instance_details. quiet. Qed.

Lemma rds_listing_no_metric_query rds :
  Forall no_metric_query (trace (RDS_report.get_rds_instance_details rds)).
Proof. unfold RDS_report.get_rds_instance_details. quiet. Qed.

Lemma ecs_listing_no_export w ecs cw :
  Forall no_export (trace (ECS_report.get_ecs_report_data w ecs cw)).
Proof.
  unfold ECS_report.get_ecs_report_data, ECS_report.describe_cluster,
    ECS_report.describe_batch, ECS_report.describe_service.
  quiet.
Qed.

Lemma ec2_metrics_no_export w cw details :
  Forall no_export (trace (map_M (EC2_report.metrics_of_row w cw) details)).
Proof.
  unfold EC2_report.metrics_of_row. quiet.
Qed.

Lemma rds_metrics_no_export w cw details :
  Forall no_export (trace (map_M (RDS_report.metrics_of_row w cw) details)).
Proof.
  unfold RDS_report.metrics_of_row. quiet.
Qed.

Lemma metric_queries_none (t : list event) :
  Forall no_metric_query t -> metric_queries t = [].
Proof. apply filter_none. Qed.

(** ** What the listings return *)

Lemma for_pages_ok_inv {P0 S} (r : request) (answer : paged P0) (acc acc' : S)
    (body : S -> P0 -> M S) :
  outcome (for_pages r answer acc body) = Ok acc' ->
  outcome (for_each (pages answer) acc body) = Ok acc' /\ failure answer = None.
Proof.
  unfold for_pages. simpl.
  destruct (for_each (pages answer) acc body) as [t [a|e]]; simpl;
    [|discriminate].
  destruct (failure answer); simpl; [discriminate|]. intros [= ->]. auto.
Qed.

Lemma map_M_ok_inv {X Y} (f : X -> M Y) (xs : list X) (ys : list Y) :
  outcome (map_M f xs) = Ok ys ->
  Forall2 (fun x y => outcome (f x) = Ok y) xs ys.
Proof.
  revert ys. induction xs as [|x rest IH]; intros ys; simpl.
  - intros [= <-]. constructor.
  - intros H. apply bind_ok_inv in H as (y & Hy & H & _).
    apply bind_ok_inv in H as (ys' & Hys & H & _).
    injection H as <-. constructor; auto.
Qed.

Lemma map_M_ok {X Y} (f : X -> M Y) (xs : list X) :
  Forall (fun x => exists y, outcome (f x) = Ok y) xs ->
  exists ys, outcome (map_M f xs) = Ok ys.
Proof.
  induction 1 as [|x rest [y Hy] _ [ys Hys]]; simpl.
  - now exists [].
  - exists (y :: ys). rewrite (bind_ok _ _ y Hy). simpl.
    rewrite (bind_ok _ _ ys Hys). reflexivity.
Qed.

Lemma describe_instance_ok cw status_map ip_map acc i acc' :
  outcome (EC2_report.describe_instance cw status_map ip_map acc i) = Ok acc' ->
  exists d, acc' = (acc ++ [d])%list /\ row_of_instance i d.
Proof.
  unfold EC2_report.describe_instance. intros H.
  apply bind_ok_inv in H as (alarms & _ & H & _).
  apply bind_ok_inv in H as (launch_time & _ & H & _).
  injection H as <-. eexists. split; [reflexivity|].
  unfold row_of_instance. eauto.
Qed.

Lemma describe_instances_ok cw status_map ip_map instances :
  forall acc acc',
    outcome (for_each instances acc
               (EC2_report.describe_instance cw status_map ip_map)) = Ok acc' ->
    exists rows, acc' = (acc ++ rows)%list
                 /\ Forall2 row_of_instance instances rows.
Proof.
  induction instances as [|i rest IH]; intros acc acc'; simpl.
  - intros [= <-]. exists []. split; [now rewrite app_nil_r|constructor].
  - intros H. apply bind_ok_inv in H as (acc1 & H1 & H & _).
    apply describe_instance_ok in H1 as (d & -> & Hd).
    apply IH in H as (rows & -> & Hrows).
    exists (d :: rows). split; [now rewrite <- app_assoc|now constructor].
Qed.

Lemma ec2_listing_rows ec2 cw details :
  outcome (EC2_report.get_ec2_instance_details ec2 cw) = Ok details ->
  Forall2 row_of_instance
          (listed (describe_instances ec2 EC2_report.state_filter)) details.
Proof.
  unfold EC2_report.get_ec2_instance_details. intros H.
  apply bind_ok_inv in H as (_ & _ & H & _).
  apply bind_ok_inv in H as (statuses & _ & H & _).
  apply bind_ok_inv in H as (status_map & _ & H & _).
  apply bind_ok_inv in H as (addresses & _ & H & _).
  apply bind_ok_inv in H as (ip_map & _ & H & _).
  apply bind_ok_inv in H as (rows & Hrows & H & _).
  apply bind_ok_inv in H as (_ & _ & H & _). injection H as <-.
  apply for_pages_ok_inv in Hrows as [Hrows _].
  unfold Reservation in Hrows. rewrite 2!for_each_concat in Hrows.
  apply describe_instances_ok in Hrows as (rows' & -> & Hall). exact Hall.
Qed.

Lemma rds_rows_ok dbs :
  forall acc,
    for_each dbs acc (fun acc db => ret (acc ++ [RDS_report.db_row db])%list)
    = ([], Ok (acc ++ map RDS_report.db_row dbs)%list).
Proof.
  induction dbs as [|db rest IH]; intros acc; simpl.
  - now rewrite app_nil_r.
  - rewrite IH. simpl. now rewrite <- app_assoc.
Qed.


Lemma for_each_adds_rows {X} (body : list row -> X -> M (list row)) :
  adds_rows body -> adds_rows (fun acc xs => for_each xs acc body).
Proof.
  intros Hb acc xs. revert acc. induction xs as [|x rest IH]; intros acc acc'.
  - simpl. intros [= <-]. split; [lia|constructor].
  - simpl. intros H. apply bind_ok_inv in H as (acc1 & H1 & H & Ht).
    destruct (Hb _ _ _ H1) as [Hle1 Hq1]. destruct (IH _ _ H) as [Hle Hq].
    split; [lia|]. intros Heq. rewrite Ht.
    apply Forall_app. split; [apply Hq1|apply Hq]; lia.
Qed.

Lemma for_pages_adds_rows {P0} (r : P0 -> request) (answer : P0 -> paged (list string))
    (body : P0 -> list row -> list string -> M (list row)) :
  (forall x, no_metric_query (Call (r x))) ->
  (forall x, adds_rows (body x)) ->
  adds_rows (fun acc x => for_pages (r x) (answer x) acc (body x)).
Proof.
  intros Hr Hb acc x acc' H.
  pose proof (for_pages_ok_inv _ _ _ _ _ H) as [Hrun Hend].
  destruct (for_each_adds_rows _ (Hb x) _ _ _ Hrun) as [Hle Hq].
  split; [exact Hle|]. intros Heq. specialize (Hq Heq).
  unfold for_pages. apply bind_all; [repeat constructor; apply Hr|]. intros _.
  apply bind_all; [exact Hq|]. intros. rewrite Hend. constructor.
Qed.

Lemma describe_service_adds_rows w cw cluster_name :
  adds_rows (ECS_report.describe_service w cw cluster_name).
Proof.
  intros acc service acc' H. unfold ECS_report.describe_service in H.
  apply bind_ok_inv in H as (name & _ & H & _).
  apply bind_ok_inv in H as (stats & _ & H & _).
  injection H as <-. rewrite length_app. simpl. split; lia.
Qed.

Lemma describe_batch_adds_rows w ecs cw cluster_arn cluster_name :
  adds_rows (ECS_report.describe_batch w ecs cw cluster_arn cluster_name).
Proof.
  intros acc batch acc' H. unfold ECS_report.describe_batch in *.
  apply bind_ok_inv in H as (services & Hs & H & Ht).
  destruct (for_each_adds_rows _ (describe_service_adds_rows w cw cluster_name)
              _ _ _ H) as [Hle Hq].
  split; [exact Hle|]. intros Heq. rewrite Ht.
  apply Forall_app. split; [repeat constructor|now apply Hq].
Qed.

Lemma describe_cluster_adds_rows w ecs cw :
  adds_rows (ECS_report.describe_cluster w ecs cw).
Proof.
  unfold ECS_report.describe_cluster.
  apply (for_pages_adds_rows ListServices (list_services ecs)
           (fun cluster_arn acc service_arns =>
              match service_arns with
              | [] => ret acc
              | _ => for_each (slices 10 service_arns) acc
                       (ECS_report.describe_batch w ecs cw cluster_arn
                          (last_segment "/" cluster_arn))
              end)).
  - reflexivity.
  - intros cluster_arn acc service_arns acc' H.
    destruct service_arns as [|arn rest].
    + injection H as <-. split; [lia|constructor].
    + now apply (for_each_adds_rows _ (describe_batch_adds_rows w ecs cw _ _)).
Qed.

Lemma ecs_listing_empty w ecs cw :
  outcome (ECS_report.get_ecs_report_data w ecs cw) = Ok [] ->
  Forall no_metric_query (trace (ECS_report.get_ecs_report_data w ecs cw)).
Proof.
  unfold ECS_report.get_ecs_report_data. intros H.
  apply bind_ok_inv in H as ([] & _ & H & ->).
  apply bind_ok_inv in H as (clusters & _ & H & ->).
  apply bind_ok_inv in H as (rows & Hrows & H & ->).
  apply bind_ok_inv in H as ([] & _ & H & ->). injection H as ->.
  destruct (for_each_adds_rows _ (describe_cluster_adds_rows w ecs cw)
              _ _ _ Hrows) as [_ Hq].
  repeat (apply Forall_app; split); try (repeat constructor).
  now apply Hq.
Qed.

(** ** The runs of the three [main] functions *)

Lemma bind_pair_ok {X Y} (t : list event) (a : X) (k : X -> M Y) :
  bind (t, Ok a) k = ((t ++ trace (k a))%list, outcome (k a)).
Proof. unfold bind. now destruct (k a). Qed.

Lemma ec2_main_run (w : World) :
  match boto3_Session w (AWS_REGION w) with
  | Raise e => EC2_report.main w = ([unexpected mark_failed e], Ok tt)
  | Ok session =>
    match client_ec2 session with
    | Raise e => EC2_report.main w = ([unexpected mark_failed e], Ok tt)
    | Ok ec2 =>
      match client_cloudwatch session with
      | Raise e => EC2_report.main w = ([unexpected mark_failed e], Ok tt)
      | Ok cw =>
        let listing := EC2_report.get_ec2_instance_details ec2 cw in
        match outcome listing with
        | Raise e =>
            EC2_report.main w
            = ((heading "EC2" :: trace listing) ++ [unexpected mark_failed e],
               Ok tt)%list
        | Ok [] =>
            EC2_report.main w
            = ((heading "EC2" :: trace listing)
               ++ [Print "No EC2 instances found. Exiting."], Ok tt)%list
        | Ok details =>
            let fetch := map_M (EC2_report.metrics_of_row w cw) details in
            let file := "EC2_Report_" ++ file_stamp (now w) ++ ".xlsx" in
            match outcome fetch with
            | Raise e =>
                EC2_report.main w
                = ((heading "EC2" :: trace listing) ++ trace fetch
                   ++ [unexpected mark_failed e], Ok tt)%list
            | Ok metrics =>
                EC2_report.main w
                = ((heading "EC2" :: trace listing) ++ trace fetch
                   ++ [ Print (nl ++ "--- EC2 Metrics (Min, Max, Avg) ---");
                        PrintFrame metrics;
                        ToExcel file "EC2_Report" 0 details;
                        ToExcel file "EC2_Report" (List.length details + 3)
                                metrics;
                        saved mark_done file ], Ok tt)%list
            end
        end
      end
    end
  end.
Proof.
  unfold EC2_report.main.
  destruct (boto3_Session w (AWS_REGION w)) as [session|e]; [|reflexivity].
  rewrite bind_lift_ok.
  destruct (client_ec2 session) as [ec2|e]; [|reflexivity].
  rewrite bind_lift_ok.
  destruct (client_cloudwatch session) as [cw|e]; [|reflexivity].
  rewrite bind_lift_ok, bind_print. cbv zeta.
  destruct (EC2_report.get_ec2_instance_details ec2 cw) as [t [[|d ds]|e]];
    cbn [outcome trace fst snd].
  - simpl. rewrite <- ?app_assoc. reflexivity.
  - rewrite bind_pair_ok. cbv beta iota.
    generalize (map_M (EC2_report.metrics_of_row w cw) (d :: ds)).
    intros [tm [metrics|e]]; simpl; rewrite <- ?app_assoc; reflexivity.
  - reflexivity.
Qed.

Lemma rds_main_run (w : World) :
  match boto3_Session w (AWS_REGION w) with
  | Raise e => RDS_report.main w = ([unexpected mark_failed' e], Ok tt)
  | Ok session =>
    match client_rds session with
    | Raise e => RDS_report.main w = ([unexpected mark_failed' e], Ok tt)
    | Ok rds =>
      match client_cloudwatch session with
      | Raise e => RDS_report.main w = ([unexpected mark_failed' e], Ok tt)
      | Ok cw =>
        let listing := RDS_report.get_rds_instance_details rds in
        match outcome listing with
        | Raise e =>
            RDS_report.main w
            = ((heading "RDS" :: trace listing) ++ [unexpected mark_failed' e],
               Ok tt)%list
        | Ok [] =>
            RDS_report.main w
            = ((heading "RDS" :: trace listing)
               ++ [Print "No RDS instances found. Exiting."], Ok tt)%list
        | Ok details =>
            let fetch := map_M (RDS_report.metrics_of_row w cw) details in
            let file := "RDS_Report_" ++ file_stamp (now w) ++ ".xlsx" in
            match outcome fetch with
            | Raise e =>
                RDS_report.main w
                = ((heading "RDS" :: trace listing) ++ trace fetch
                   ++ [unexpected mark_failed' e], Ok tt)%list
            | Ok metrics =>
                RDS_report.main w
                = ((heading "RDS" :: trace listing) ++ trace fetch
                   ++ [ ToExcel file "RDS_Report" 0 details;
                        ToExcel file "RDS_Report" (List.length details + 3)
                                metrics;
                        saved mark_done' file ], Ok tt)%list
            end
        end
      end
    end
  end.
Proof.
  unfold RDS_report.main.
  destruct (boto3_Session w (AWS_REGION w)) as [session|e]; [|reflexivity].
  rewrite bind_lift_ok.
  destruct (client_rds session) as [rds|e]; [|reflexivity].
  rewrite bind_lift_ok.
  destruct (client_cloudwatch session) as [cw|e]; [|reflexivity].
  rewrite bind_lift_ok, bind_print. cbv zeta.
  destruct (RDS_report.get_rds_instance_details rds) as [t [[|d ds]|e]];
    cbn [outcome trace fst snd].
  - simpl. rewrite <- ?app_assoc. reflexivity.
  - rewrite bind_pair_ok. cbv beta iota.
    generalize (map_M (RDS_report.metrics_of_row w cw) (d :: ds)).
    intros [tm [metrics|e]]; simpl; rewrite <- ?app_assoc; reflexivity.
  - reflexivity.
Qed.

Lemma ecs_main_run (w : World) :
  match boto3_Session w (AWS_REGION w) with
  | Raise e => ECS_report.main w = ([unexpected mark_failed' e], Ok tt)
  | Ok session =>
    match client_ecs session with
    | Raise e => ECS_report.main w = ([unexpected mark_failed' e], Ok tt)
    | Ok ecs =>
      match client_cloudwatch session with
      | Raise e => ECS_report.main w = ([unexpected mark_failed' e], Ok tt)
      | Ok cw =>
        let listing := ECS_report.get_ecs_report_data w ecs cw in
        let file := "ECS_Report_" ++ file_stamp (now w) ++ ".xlsx" in
        match outcome listing with
        | Raise e =>
            ECS_report.main w
            = ((heading "ECS" :: trace listing) ++ [unexpected mark_failed' e],
               Ok tt)%list
        | Ok [] =>
            ECS_report.main w
            = ((heading "ECS" :: trace listing)
               ++ [Print "No ECS services found. Exiting."], Ok tt)%list
        | Ok report_data =>
            ECS_report.main w
            = ((heading "ECS" :: trace listing)
               ++ [ ToExcel file "Sheet1" 0
                      (ECS_report.reindex ECS_report.final_columns report_data);
                    saved mark_done' file ], Ok tt)%list
        end
      end
    end
  end.
Proof.
  unfold ECS_report.main.
  destruct (boto3_Session w (AWS_REGION w)) as [session|e]; [|reflexivity].
  rewrite bind_lift_ok.
  destruct (client_ecs session) as [ecs|e]; [|reflexivity].
  rewrite bind_lift_ok.
  destruct (client_cloudwatch session) as [cw|e]; [|reflexivity].
  rewrite bind_lift_ok, bind_print. cbv zeta.
  destruct (ECS_report.get_ecs_report_data w ecs cw) as [t [[|d ds]|e]];
    cbn [outcome trace fst snd].
  - simpl. rewrite <- ?app_assoc. reflexivity.
  - rewrite bind_pair_ok. cbv beta iota.
    generalize (ECS_report.reindex ECS_report.final_columns (d :: ds)).
    intros df. simpl. rewrite <- ?app_assoc. reflexivity.
  - reflexivity.
Qed.

(** ** Metrics rows and inventory rows *)

Lemma getitem_ok {V} (d : dict V) (k : string) (v : V) :
  getitem d k = Ok v -> dict_get k d = Some v.
Proof. unfold getitem. destruct (dict_get k d); [now intros [= ->]|discriminate]. Qed.

Lemma ec2_metrics_row_name w cw d r :
  outcome (EC2_report.metrics_of_row w cw d) = Ok r ->
  dict_get "Name" r = dict_get "Name" d.
Proof.
  unfold EC2_report.metrics_of_row. intros H.
  apply bind_ok_inv in H as (id & _ & H & _).
  apply bind_ok_inv in H as (name & Hname & H & _).
  apply getitem_ok in Hname. rewrite Hname.
  destruct (metrics_row_total EC2_report.format_metric_value (METRIC_DAYS w) (utcnow w)
              "AWS/EC2" [ {| dim_Name := "InstanceId"; dim_Value := id |} ]
              name EC2_report.EC2_METRICS cw) as (r' & Hr' & Hn).
  unfold EC2_report.get_cloudwatch_metrics in H. congruence.
Qed.

Lemma rds_metrics_row_name w cw d r :
  outcome (RDS_report.metrics_of_row w cw d) = Ok r ->
  dict_get "Name" r = dict_get "DBInstanceIdentifier" d.
Proof.
  unfold RDS_report.metrics_of_row. intros H.
  apply bind_ok_inv in H as (id & Hid & H & _).
  apply getitem_ok in Hid. rewrite Hid.
  destruct (metrics_row_total RDS_report.format_metric_value (METRIC_DAYS w) (utcnow w)
              "AWS/RDS" [ {| dim_Name := "DBInstanceIdentifier"; dim_Value := id |} ]
              id RDS_report.RDS_METRICS cw) as (r' & Hr' & Hn).
  unfold RDS_report.get_cloudwatch_metrics in H. congruence.
Qed.

Lemma forall2_map_eq {X Y Z0} (f : Y -> Z0) (g : X -> Z0) (xs : list X)
    (ys : list Y) :
  Forall2 (fun x y => f y = g x) xs ys -> map f ys = map g xs.
Proof. induction 1; simpl; congruence. Qed.

Lemma exports_of_run (t tm tail : list event) (ev : event) :
  Forall no_export t -> Forall no_export tm -> no_export ev ->
  exports ((ev :: t) ++ tm ++ tail) = exports tail.
Proof.
  intros Ht Htm Hev. unfold exports. simpl. rewrite Hev.
  rewrite !filter_app.
  rewrite (filter_none _ t Ht), (filter_none _ tm Htm). reflexivity.
Qed.

Lemma metric_queries_of_run (t tail : list event) (ev : event) :
  Forall no_metric_query t -> Forall no_metric_query tail -> no_metric_query ev ->
  metric_queries ((ev :: t) ++ tail) = [].
Proof.
  intros Ht Htail Hev. apply metric_queries_none.
  constructor; [exact Hev|]. apply Forall_app. auto.
Qed.

(** ** Minimum and maximum of floats *)

Lemma SFltb_irrefl (a : spec_float) : SFltb a a = false.
Proof.
  unfold SFltb, SFcompare.
  destruct a as [[]|[]| |[] m e]; try reflexivity;
    rewrite Z.compare_refl; fold (Pos.compare m m); rewrite Pos.compare_refl;
    reflexivity.
Qed.

Lemma SFltb_trans (a b c : spec_float) :
  SFltb a b = true -> SFltb b c = true -> SFltb a c = true.
Proof.
  unfold SFltb, SFcompare.
  destruct a as [[]|[]| |[] m1 e1], b as [[]|[]| |[] m2 e2],
           c as [[]|[]| |[] m3 e3];
    try discriminate; try reflexivity;
    fold (Pos.compare m1 m2); fold (Pos.compare m2 m3); fold (Pos.compare m1 m3);
    destruct (Z.compare_spec e1 e2), (Z.compare_spec e2 e3),
             (Z.compare_spec e1 e3); try discriminate; try reflexivity;
    try lia; subst;
    destruct (Pos.compare_spec m1 m2), (Pos.compare_spec m2 m3),
             (Pos.compare_spec m1 m3); simpl; try discriminate;
    try reflexivity; try lia.
Qed.

Lemma ltb_irrefl (x : float) : PrimFloat.ltb x x = false.
Proof. rewrite FloatAxioms.ltb_spec. apply SFltb_irrefl. Qed.

Lemma ltb_trans (x y z : float) :
  PrimFloat.ltb x y = true -> PrimFloat.ltb y z = true ->
  PrimFloat.ltb x z = true.
Proof. rewrite !FloatAxioms.ltb_spec. apply SFltb_trans. Qed.

(** [min(values)] is one of the values and none of them is below it. *)
Lemma min_float_least (v : float) (rest : list float) :
  In (min_float v rest) (v :: rest)
  /\ forall x, In x (v :: rest) -> PrimFloat.ltb x (min_float v rest) = false.
Proof.
  unfold min_float.
  assert (H : forall seen cur,
             In cur seen ->
             (forall x, In x seen -> PrimFloat.ltb x cur = false) ->
             let m := fold_left (fun cur item =>
                                   if PrimFloat.ltb item cur then item else cur)
                                rest cur in
             In m (seen ++ rest)
             /\ forall x, In x (seen ++ rest) -> PrimFloat.ltb x m = false).
  { induction rest as [|item rest IH]; intros seen cur Hin Hlow; simpl.
    - rewrite app_nil_r. auto.
    - replace (seen ++ item :: rest)%list with ((seen ++ [item]) ++ rest)%list
        by now rewrite <- app_assoc.
      apply IH.
      + destruct (PrimFloat.ltb item cur); apply in_or_app; simpl; auto.
      + intros x Hx. apply in_app_or in Hx as [Hx|[<-|[]]].
        * destruct (PrimFloat.ltb item cur) eqn:E; [|now apply Hlow].
          destruct (PrimFloat.ltb x item) eqn:E'; [|reflexivity].
          rewrite <- (Hlow x Hx). symmetry. eapply ltb_trans; eauto.
        * destruct (PrimFloat.ltb item cur) eqn:E; [apply ltb_irrefl|exact E]. }
  apply (H [v] v); simpl; auto.
  intros x [<-|[]]. apply ltb_irrefl.
Qed.

(** [max(values)] is one of the values and none of them is above it. *)
Lemma max_float_greatest (v : float) (rest : list float) :
  In (max_float v rest) (v :: rest)
  /\ forall x, In x (v :: rest) -> PrimFloat.ltb (max_float v rest) x = false.
Proof.
  unfold max_float.
  assert (H : forall seen cur,
             In cur seen ->
             (forall x, In x seen -> PrimFloat.ltb cur x = false) ->
             let m := fold_left (fun cur item =>
                                   if PrimFloat.ltb cur item then item else cur)
                                rest cur in
             In m (seen ++ rest)
             /\ forall x, In x (seen ++ rest) -> PrimFloat.ltb m x = false).
  { induction rest as [|item rest IH]; intros seen cur Hin Hlow; simpl.
    - rewrite app_nil_r. auto.
    - replace (seen ++ item :: rest)%list with ((seen ++ [item]) ++ rest)%list
        by now rewrite <- app_assoc.
      apply IH.
      + destruct (PrimFloat.ltb cur item); apply in_or_app; simpl; auto.
      + intros x Hx. apply in_app_or in Hx as [Hx|[<-|[]]].
        * destruct (PrimFloat.ltb cur item) eqn:E; [|now apply Hlow].
          destruct (PrimFloat.ltb item x) eqn:E'; [|reflexivity].
          rewrite <- (Hlow x Hx). symmetry. eapply ltb_trans; eauto.
        * destruct (PrimFloat.ltb cur item) eqn:E; [apply ltb_irrefl|exact E]. }
  apply (H [v] v); simpl; auto.
  intros x [<-|[]]. apply ltb_irrefl.
Qed.

(** ** Aggregation of the samples *)

(** C1: when the window of the metric query starts on a day of the
    calendar, the query of a resource completes and metric [m] has
    samples [v :: rest] (the values returned for [m], concatenated across
    all pages), the row holds for [m] the formatted minimum, maximum and
    mean of these samples, in the EC2, RDS and ECS reports; the minimum
    (maximum) is one of the samples and no sample is below (above) it, the
    mean is their sum divided by their number; for the series
    10, 20, 30 the fields read 10.00, 30.00 and 20.00, and 10.00%, 30.00%
    and 20.00% in the two metrics rows the EC2 report writes for a mocked
    inventory of two instances when the series is the CPUUtilization. *)
Theorem samples_reduce_to_min_max_mean :
  (forall w namespace dimensions resource_name metric_list cw m v rest,
      let answer :=
        get_metric_data cw
          (Metrics.metric_data_queries namespace dimensions metric_list)
          (METRIC_DAYS w) "TimestampAscending" in
      window_opens w ->
      completes metric_list answer ->
      In m metric_list ->
      samples_of metric_list m (pages answer) = v :: rest ->
      (exists r,
          outcome (EC2_report.get_cloudwatch_metrics w namespace dimensions
                     resource_name metric_list cw) = Ok r
          /\ derived_fields r m
             = (Some (CStr (EC2_report.format_metric_value (min_float v rest) m)),
                Some (CStr (EC2_report.format_metric_value (max_float v rest) m)),
                Some (CStr (EC2_report.format_metric_value (mean_float v rest) m))))
      /\ (exists r,
             outcome (RDS_report.get_cloudwatch_metrics w namespace dimensions
                        resource_name metric_list cw) = Ok r
             /\ derived_fields r m
                = (Some (CStr (RDS_report.format_metric_value (min_float v rest) m)),
                   Some (CStr (RDS_report.format_metric_value (max_float v rest) m)),
                   Some (CStr (RDS_report.format_metric_value (mean_float v rest) m)))))
  /\ (forall w cluster_name service_name cw m v rest,
         let answer := ecs_metric_answer w cw cluster_name service_name in
         window_opens w ->
         completes ECS_report.ECS_METRICS answer ->
         In m ECS_report.ECS_METRICS ->
         samples_of ECS_report.ECS_METRICS m (pages answer) = v :: rest ->
         exists stats,
           outcome (ECS_report.get_cloudwatch_metrics w cluster_name
                      service_name cw) = Ok stats
           /\ derived_fields stats m
              = (Some (CStr (ECS_report.format_metric_value (min_float v rest) m)),
                 Some (CStr (ECS_report.format_metric_value (max_float v rest) m)),
                 Some (CStr (ECS_report.format_metric_value (mean_float v rest) m))))
  /\ (forall v rest,
         (In (min_float v rest) (v :: rest)
          /\ forall x, In x (v :: rest) ->
                       PrimFloat.ltb x (min_float v rest) = false)
         /\ (In (max_float v rest) (v :: rest)
             /\ forall x, In x (v :: rest) ->
                          PrimFloat.ltb (max_float v rest) x = false)
         /\ mean_float v rest
            = (sum_float (v :: rest) / float_of_len (v :: rest))%float)
  /\ (forall w name,
         window_opens w ->
         exists r,
           outcome (EC2_report.get_cloudwatch_metrics w "AWS/EC2" [] name
                      EC2_report.EC2_METRICS (Mock.cloudwatch (Mock.series "m0")))
           = Ok r
           /\ derived_fields r "CPUCreditUsage"
              = (Some (CStr "10.00"), Some (CStr "30.00"), Some (CStr "20.00")))
  /\ (exists file details metrics,
         exports (trace (EC2_report.main
                           (Mock.stocked (Mock.cloudwatch (Mock.series "m1")))))
         = [ ToExcel file "EC2_Report" 0 details;
             ToExcel file "EC2_Report" 5 metrics ]
         /\ List.length details = 2
         /\ map (fun r => derived_fields r "CPUUtilization") metrics
            = [ (Some (CStr "10.00%"), Some (CStr "30.00%"), Some (CStr "20.00%"));
                (Some (CStr "10.00%"), Some (CStr "30.00%"), Some (CStr "20.00%")) ]).
Proof.
  split; [|split; [|split; [|split]]].
  - intros w ns dims name ml cw m v rest answer [start Hwin] [Hend Hres] Hm Hs.
    split.
    + destruct (metrics_row_ok EC2_report.format_metric_value (METRIC_DAYS w)
                  (utcnow w) ns dims name ml cw start m Hwin Hend Hres Hm)
        as (r & Hr & Hf).
      exists r. split; [exact Hr|]. fold answer in Hf. now rewrite Hs in Hf.
    + destruct (metrics_row_ok RDS_report.format_metric_value (METRIC_DAYS w)
                  (utcnow w) ns dims name ml cw start m Hwin Hend Hres Hm)
        as (r & Hr & Hf).
      exists r. split; [exact Hr|]. fold answer in Hf. now rewrite Hs in Hf.
  - intros w cluster service cw m v rest answer [start Hwin] [Hend Hres] Hm Hs.
    destruct (ecs_metrics_ok w cluster service cw start m Hwin Hend Hres Hm)
      as (stats & Hr & Hf).
    exists stats. split; [exact Hr|].
    unfold answer, ecs_metric_answer in Hs. now rewrite Hs in Hf.
  - intros v rest. split; [apply min_float_least|].
    split; [apply max_float_greatest|reflexivity].
  - intros w name [start Hwin].
    unfold EC2_report.get_cloudwatch_metrics, Metrics.get_cloudwatch_metrics,
      Metrics.collect.
    rewrite Hwin, bind_lift_ok.
    eexists. split; [reflexivity|]. vm_compute. reflexivity.
  - do 3 eexists. split; [vm_compute; reflexivity|]. split; reflexivity.
Qed.

Lemma samples_reduce_to_min_max_mean_witness :
  let cw := Mock.cloudwatch (Mock.series "m1") in
  exists r,
    outcome (EC2_report.get_cloudwatch_metrics (Mock.stocked cw)
               "AWS/EC2" [] (CStr "web") EC2_report.EC2_METRICS cw) = Ok r
    /\ derived_fields r "CPUUtilization"
       = (Some (CStr (EC2_report.format_metric_value
                        (min_float 10 [20; 30]%float) "CPUUtilization")),
          Some (CStr (EC2_report.format_metric_value
                        (max_float 10 [20; 30]%float) "CPUUtilization")),
          Some (CStr (EC2_report.format_metric_value
                        (mean_float 10 [20; 30]%float) "CPUUtilization"))).
Proof.
  intros cw.
  refine (proj1 (proj1 samples_reduce_to_min_max_mean (Mock.stocked cw)
                   "AWS/EC2" [] (CStr "web") EC2_report.EC2_METRICS cw
                   "CPUUtilization" 10%float [20; 30]%float _ _ _ _)).
  - eexists. vm_compute. reflexivity.
  - split; [reflexivity|]. simpl. intros page r [<-|[]] [<-|[]]. discriminate.
  - simpl. auto.
  - reflexivity.
Defined.

(** C3: when the window of the metric query starts on a day of the
    calendar and the query of a resource completes and has returned no
    sample for metric [m], the three derived fields of [m] are the text
    Nil, in the EC2, RDS and ECS reports; and no formatted value reads
    Nil. *)
Theorem no_samples_give_nil :
  (forall w namespace dimensions resource_name metric_list cw m,
      let answer :=
        get_metric_data cw
          (Metrics.metric_data_queries namespace dimensions metric_list)
          (METRIC_DAYS w) "TimestampAscending" in
      window_opens w ->
      completes metric_list answer ->
      In m metric_list ->
      samples_of metric_list m (pages answer) = [] ->
      (exists r,
          outcome (EC2_report.get_cloudwatch_metrics w namespace dimensions
                     resource_name metric_list cw) = Ok r
          /\ derived_fields r m = all_nil)
      /\ (exists r,
             outcome (RDS_report.get_cloudwatch_metrics w namespace dimensions
                        resource_name metric_list cw) = Ok r
             /\ derived_fields r m = all_nil))
  /\ (forall w cluster_name service_name cw m,
         let answer := ecs_metric_answer w cw cluster_name service_name in
         window_opens w ->
         completes ECS_report.ECS_METRICS answer ->
         In m ECS_report.ECS_METRICS ->
         samples_of ECS_report.ECS_METRICS m (pages answer) = [] ->
         exists stats,
           outcome (ECS_report.get_cloudwatch_metrics w cluster_name
                      service_name cw) = Ok stats
           /\ derived_fields stats m = all_nil)
  /\ (forall value metric_name,
         EC2_report.format_metric_value value metric_name <> "Nil"
         /\ RDS_report.format_metric_value value metric_name <> "Nil"
         /\ ECS_report.format_metric_value value metric_name <> "Nil").
Proof.
  split; [|split].
  - intros w ns dims name ml cw m answer [start Hwin] [Hend Hres] Hm Hs. split.
    + destruct (metrics_row_ok EC2_report.format_metric_value (METRIC_DAYS w)
                  (utcnow w) ns dims name ml cw start m Hwin Hend Hres Hm)
        as (r & Hr & Hf).
      exists r. split; [exact Hr|]. fold answer in Hf. now rewrite Hs in Hf.
    + destruct (metrics_row_ok RDS_report.format_metric_value (METRIC_DAYS w)
                  (utcnow w) ns dims name ml cw start m Hwin Hend Hres Hm)
        as (r & Hr & Hf).
      exists r. split; [exact Hr|]. fold answer in Hf. now rewrite Hs in Hf.
  - intros w cluster service cw m answer [start Hwin] [Hend Hres] Hm Hs.
    destruct (ecs_metrics_ok w cluster service cw start m Hwin Hend Hres Hm)
      as (stats & Hr & Hf).
    exists stats. split; [exact Hr|].
    unfold answer, ecs_metric_answer in Hs. now rewrite Hs in Hf.
  - apply formatted_not_nil.
Qed.

Lemma no_samples_give_nil_witness :
  let cw := Mock.cloudwatch Mock.no_data in
  exists stats,
    outcome (ECS_report.get_cloudwatch_metrics (Mock.stocked cw) "prod" "api" cw)
    = Ok stats
    /\ derived_fields stats "MemoryUtilization" = all_nil.
Proof.
  intros cw.
  refine (proj1 (proj2 no_samples_give_nil) (Mock.stocked cw) "prod" "api" cw
                "MemoryUtilization" _ _ _ _).
  - eexists. vm_compute. reflexivity.
  - split; [reflexivity|]. simpl. intros page r [<-|[]] [].
  - simpl. auto.
  - reflexivity.
Defined.

(** ** A failing metric query *)

Lemma ec2_row_keys i d :
  row_of_instance i d ->
  getitem d "Instance ID" = Ok (cell_of (InstanceId i))
  /\ getitem d "Name" = Ok (CStr (EC2_report.get_instance_name i))
  /\ dict_get "Instance state" d = Some (cell_of (State_Name i)).
Proof. intros (sc & al & ip & lt & ->). repeat split. Qed.

Lemma ec2_metrics_total w cw instances details :
  Forall2 row_of_instance instances details ->
  exists metrics,
    outcome (map_M (EC2_report.metrics_of_row w cw) details) = Ok metrics.
Proof.
  intros Hrows. apply map_M_ok.
  induction Hrows as [|i d instances ds Hd _ IH]; constructor; [|exact IH].
  destruct (ec2_row_keys i d Hd) as (Hid & Hname & _).
  unfold EC2_report.metrics_of_row. rewrite Hid, bind_lift_ok, Hname, bind_lift_ok.
  destruct (metrics_row_total EC2_report.format_metric_value (METRIC_DAYS w) (utcnow w)
              "AWS/EC2"
              [ {| dim_Name := "InstanceId"; dim_Value := cell_of (InstanceId i) |} ]
              (CStr (EC2_report.get_instance_name i))
              EC2_report.EC2_METRICS cw) as (r & Hr & _).
  now exists r.
Qed.

Lemma ec2_metrics_row_error w cw d r e m :
  outcome (EC2_report.metrics_of_row w cw d) = Ok r ->
  failure (ec2_metric_answer w cw d) = Some e ->
  In m EC2_report.EC2_METRICS ->
  derived_fields r m = all_error.
Proof.
  unfold EC2_report.metrics_of_row, ec2_metric_answer. intros H Hf Hm.
  apply bind_ok_inv in H as (id & Hid & H & _).
  apply bind_ok_inv in H as (name & _ & H & _).
  apply getitem_ok in Hid. rewrite Hid in Hf.
  destruct (metrics_row_error EC2_report.format_metric_value (METRIC_DAYS w) (utcnow w)
              "AWS/EC2" [ {| dim_Name := "InstanceId"; dim_Value := id |} ]
              name EC2_report.EC2_METRICS cw e m Hf Hm) as (r' & Hr' & Hfields).
  unfold EC2_report.get_cloudwatch_metrics in H. cbv beta in H.
  rewrite H in Hr'. injection Hr' as <-. exact Hfields.
Qed.

(** C2: a metric query that raises leaves the text Error in the three
    derived fields of every metric asked for, in the EC2, RDS and ECS
    reports, and the function fetching the metrics returns normally; the
    EC2 report then still writes every inventory row and a metrics row for
    each, and the ECS listing still adds the row of the service. *)
Theorem failed_query_gives_error_and_keeps_row :
  (forall w namespace dimensions resource_name metric_list cw e m,
      failure (get_metric_data cw
                 (Metrics.metric_data_queries namespace dimensions metric_list)
                 (METRIC_DAYS w) "TimestampAscending") = Some e ->
      In m metric_list ->
      (exists r,
          outcome (EC2_report.get_cloudwatch_metrics w namespace dimensions
                     resource_name metric_list cw) = Ok r
          /\ derived_fields r m = all_error)
      /\ (exists r,
             outcome (RDS_report.get_cloudwatch_metrics w namespace dimensions
                        resource_name metric_list cw) = Ok r
             /\ derived_fields r m = all_error))
  /\ (forall w cluster_name service_name cw e m,
         failure (ecs_metric_answer w cw cluster_name service_name) = Some e ->
         In m ECS_report.ECS_METRICS ->
         exists stats,
           outcome (ECS_report.get_cloudwatch_metrics w cluster_name
                      service_name cw) = Ok stats
           /\ derived_fields stats m = all_error)
  /\ (forall w session ec2 cw details,
         boto3_Session w (AWS_REGION w) = Ok session ->
         client_ec2 session = Ok ec2 ->
         client_cloudwatch session = Ok cw ->
         outcome (EC2_report.get_ec2_instance_details ec2 cw) = Ok details ->
         details <> [] ->
         outcome (EC2_report.main w) = Ok tt
         /\ exists file metrics,
             exports (trace (EC2_report.main w))
             = [ ToExcel file "EC2_Report" 0 details;
                 ToExcel file "EC2_Report" (List.length details + 3) metrics ]
             /\ Forall2
                  (fun d r =>
                     forall e m,
                       failure (ec2_metric_answer w cw d) = Some e ->
                       In m EC2_report.EC2_METRICS ->
                       derived_fields r m = all_error)
                  details metrics)
  /\ (forall w cw cluster_name acc service service_name e m,
         serviceName service = Some service_name ->
         failure (ecs_metric_answer w cw cluster_name service_name) = Some e ->
         In m ECS_report.ECS_METRICS ->
         exists r,
           outcome (ECS_report.describe_service w cw cluster_name acc service)
           = Ok (acc ++ [r])%list
           /\ derived_fields r m = all_error).
Proof.
  split; [|split; [|split]].
  - intros w ns dims name ml cw e m Hf Hm. split.
    + exact (metrics_row_error EC2_report.format_metric_value (METRIC_DAYS w) (utcnow w)
               ns dims name ml cw e m Hf Hm).
    + exact (metrics_row_error RDS_report.format_metric_value (METRIC_DAYS w) (utcnow w)
               ns dims name ml cw e m Hf Hm).
  - intros w cluster service cw e m Hf Hm.
    eexists. split; [exact (ecs_metrics_error w cluster service cw e Hf)|].
    destruct Hm as [<-|[<-|[]]]; reflexivity.
  - intros w session ec2 cw details Hs He Hc HL Hne.
    pose proof (ec2_main_run w) as Hrun.
    rewrite Hs, He, Hc in Hrun. cbv zeta in Hrun. rewrite HL in Hrun.
    destruct details as [|d ds]; [now elim Hne|].
    pose proof (ec2_listing_rows ec2 cw _ HL) as Hrows.
    destruct (ec2_metrics_total w cw _ _ Hrows) as [metrics Hm].
    rewrite Hm in Hrun. rewrite Hrun. split; [reflexivity|].
    exists ("EC2_Report_" ++ file_stamp (now w) ++ ".xlsx"), metrics. split.
    + cbn [trace fst].
      rewrite exports_of_run;
        [reflexivity|apply ec2_listing_no_export|apply ec2_metrics_no_export
        |reflexivity].
    + apply map_M_ok_inv in Hm.
      eapply Forall2_impl; [|exact Hm]. cbv beta.
      intros d' r Hr e m. now apply ec2_metrics_row_error.
  - intros w cw cluster acc service name e m Hname Hf Hm.
    unfold ECS_report.describe_service. rewrite Hname, bind_lift_ok.
    rewrite (bind_ok _ _ _ (ecs_metrics_error w cluster name cw e Hf)).
    eexists. split; [reflexivity|].
    destruct Hm as [<-|[<-|[]]]; reflexivity.
Qed.

Lemma failed_query_gives_error_and_keeps_row_witness :
  let cw := Mock.cloudwatch (Mock.failing "Throttling") in
  let w := Mock.stocked cw in
  outcome (EC2_report.main w) = Ok tt
  /\ exists file metrics,
      exports (trace (EC2_report.main w))
      = [ ToExcel file "EC2_Report" 0
            (EC2_report.instance_row (Mock.instance "i-01" "web" "running")
               "N/A" "No alarms" dash "2024/01/15 09:30 GMT+5:30"
             :: [EC2_report.instance_row (Mock.instance "i-03" "batch" "stopped")
                   "N/A" "No alarms" dash "2024/01/15 09:30 GMT+5:30"]);
          ToExcel file "EC2_Report" 5 metrics ]
      /\ Forall2
           (fun d r =>
              forall e m,
                failure (ec2_metric_answer w cw d) = Some e ->
                In m EC2_report.EC2_METRICS ->
                derived_fields r m = all_error)
           (EC2_report.instance_row (Mock.instance "i-01" "web" "running")
              "N/A" "No alarms" dash "2024/01/15 09:30 GMT+5:30"
            :: [EC2_report.instance_row (Mock.instance "i-03" "batch" "stopped")
                  "N/A" "No alarms" dash "2024/01/15 09:30 GMT+5:30"])
           metrics.
Proof.
  intros cw w.
  refine (proj1 (proj2 (proj2 failed_query_gives_error_and_keeps_row))
            w _ (Mock.ec2 Mock.fleet) cw _ eq_refl eq_refl eq_refl _ _).
  - vm_compute. reflexivity.
  - discriminate.
Defined.

(** ** Inventory rows and metrics rows *)

(** C4: whenever a report file is written, the EC2 and the RDS report write
    two tables, the inventory and the metrics, with the same number of
    rows; row by row, the Name of the metrics row is the Name of the EC2
    inventory row, respectively the DBInstanceIdentifier of the RDS
    inventory row. *)
Theorem metrics_rows_match_inventory_rows (w : World) :
  (exports (trace (EC2_report.main w)) = []
   \/ exists file details metrics,
       exports (trace (EC2_report.main w))
       = [ ToExcel file "EC2_Report" 0 details;
           ToExcel file "EC2_Report" (List.length details + 3) metrics ]
       /\ List.length metrics = List.length details
       /\ map (dict_get "Name") metrics = map (dict_get "Name") details)
  /\ (exports (trace (RDS_report.main w)) = []
      \/ exists file details metrics,
          exports (trace (RDS_report.main w))
          = [ ToExcel file "RDS_Report" 0 details;
              ToExcel file "RDS_Report" (List.length details + 3) metrics ]
          /\ List.length metrics = List.length details
          /\ map (dict_get "Name") metrics
             = map (dict_get "DBInstanceIdentifier") details).
Proof.
  split.
  - pose proof (ec2_main_run w) as Hrun.
    destruct (boto3_Session w (AWS_REGION w)) as [session|e];
      [|rewrite Hrun; now left].
    destruct (client_ec2 session) as [ec2|e]; [|rewrite Hrun; now left].
    destruct (client_cloudwatch session) as [cw|e]; [|rewrite Hrun; now left].
    cbv zeta in Hrun.
    pose proof (ec2_listing_no_export ec2 cw) as Hquiet.
    destruct (outcome (EC2_report.get_ec2_instance_details ec2 cw))
      as [[|d ds]|e].
    + rewrite Hrun. left. cbn [trace fst].
      rewrite <- (app_nil_l [Print _]), exports_of_run; auto; constructor.
    + pose proof (ec2_metrics_no_export w cw (d :: ds)) as Hquiet'.
      destruct (outcome (map_M (EC2_report.metrics_of_row w cw) (d :: ds)))
        as [metrics|e] eqn:Hm; rewrite Hrun; cbn [trace fst].
      * right. exists ("EC2_Report_" ++ file_stamp (now w) ++ ".xlsx"),
                 (d :: ds), metrics.
        apply map_M_ok_inv in Hm. split; [|split].
        -- rewrite exports_of_run; auto; reflexivity.
        -- symmetry. eapply Forall2_length, Hm.
        -- apply forall2_map_eq. eapply Forall2_impl; [|exact Hm]. cbv beta.
           intros d' r. apply ec2_metrics_row_name.
      * left. rewrite exports_of_run; auto; reflexivity.
    + rewrite Hrun. left. cbn [trace fst].
      rewrite <- (app_nil_l [unexpected _ _]), exports_of_run; auto; constructor.
  - pose proof (rds_main_run w) as Hrun.
    destruct (boto3_Session w (AWS_REGION w)) as [session|e];
      [|rewrite Hrun; now left].
    destruct (client_rds session) as [rds|e]; [|rewrite Hrun; now left].
    destruct (client_cloudwatch session) as [cw|e]; [|rewrite Hrun; now left].
    cbv zeta in Hrun.
    pose proof (rds_listing_no_export rds) as Hquiet.
    destruct (outcome (RDS_report.get_rds_instance_details rds))
      as [[|d ds]|e].
    + rewrite Hrun. left. cbn [trace fst].
      rewrite <- (app_nil_l [Print _]), exports_of_run; auto; constructor.
    + pose proof (rds_metrics_no_export w cw (d :: ds)) as Hquiet'.
      destruct (outcome (map_M (RDS_report.metrics_of_row w cw) (d :: ds)))
        as [metrics|e] eqn:Hm; rewrite Hrun; cbn [trace fst].
      * right. exists ("RDS_Report_" ++ file_stamp (now w) ++ ".xlsx"),
                 (d :: ds), metrics.
        apply map_M_ok_inv in Hm. split; [|split].
        -- rewrite exports_of_run; auto; reflexivity.
        -- symmetry. eapply Forall2_length, Hm.
        -- apply forall2_map_eq. eapply Forall2_impl; [|exact Hm]. cbv beta.
           intros d' r. apply rds_metrics_row_name.
      * left. rewrite exports_of_run; auto; reflexivity.
    + rewrite Hrun. left. cbn [trace fst].
      rewrite <- (app_nil_l [unexpected _ _]), exports_of_run; auto; constructor.
Qed.

(** ** Empty and failed listings *)

(** C7: when the listing of a report returns no resource, the report sends
    no metric query, writes no file and returns without raising; this holds
    for the EC2, the RDS and the ECS report. *)
Theorem empty_inventory_skips_metrics_and_export :
  forall w session cw,
    boto3_Session w (AWS_REGION w) = Ok session ->
    client_cloudwatch session = Ok cw ->
    (forall ec2,
        client_ec2 session = Ok ec2 ->
        outcome (EC2_report.get_ec2_instance_details ec2 cw) = Ok [] ->
        outcome (EC2_report.main w) = Ok tt
        /\ metric_queries (trace (EC2_report.main w)) = []
        /\ exports (trace (EC2_report.main w)) = [])
    /\ (forall rds,
           client_rds session = Ok rds ->
           outcome (RDS_report.get_rds_instance_details rds) = Ok [] ->
           outcome (RDS_report.main w) = Ok tt
           /\ metric_queries (trace (RDS_report.main w)) = []
           /\ exports (trace (RDS_report.main w)) = [])
    /\ (forall ecs,
           client_ecs session = Ok ecs ->
           outcome (ECS_report.get_ecs_report_data w ecs cw) = Ok [] ->
           outcome (ECS_report.main w) = Ok tt
           /\ metric_queries (trace (ECS_report.main w)) = []
           /\ exports (trace (ECS_report.main w)) = []).
Proof.
  intros w session cw Hs Hc. split; [|split].
  - intros ec2 He HL. pose proof (ec2_main_run w) as Hrun.
    rewrite Hs, He, Hc in Hrun. cbv zeta in Hrun. rewrite HL in Hrun.
    rewrite Hrun. cbn [trace outcome fst snd]. split; [reflexivity|]. split.
    + apply metric_queries_of_run;
        [apply ec2_listing_no_metric_query|repeat constructor|reflexivity].
    + rewrite <- (app_nil_l [Print _]), exports_of_run;
        [reflexivity|apply ec2_listing_no_export|constructor|reflexivity].
  - intros rds He HL. pose proof (rds_main_run w) as Hrun.
    rewrite Hs, He, Hc in Hrun. cbv zeta in Hrun. rewrite HL in Hrun.
    rewrite Hrun. cbn [trace outcome fst snd]. split; [reflexivity|]. split.
    + apply metric_queries_of_run;
        [apply rds_listing_no_metric_query|repeat constructor|reflexivity].
    + rewrite <- (app_nil_l [Print _]), exports_of_run;
        [reflexivity|apply rds_listing_no_export|constructor|reflexivity].
  - intros ecs He HL. pose proof (ecs_main_run w) as Hrun.
    rewrite Hs, He, Hc in Hrun. cbv zeta in Hrun. rewrite HL in Hrun.
    rewrite Hrun. cbn [trace outcome fst snd]. split; [reflexivity|]. split.
    + apply metric_queries_of_run;
        [now apply ecs_listing_empty|repeat constructor|reflexivity].
    + rewrite <- (app_nil_l [Print _]), exports_of_run;
        [reflexivity|apply ecs_listing_no_export|constructor|reflexivity].
Qed.

Lemma empty_inventory_skips_metrics_and_export_witness :
  (outcome (EC2_report.main Mock.empty) = Ok tt
   /\ metric_queries (trace (EC2_report.main Mock.empty)) = []
   /\ exports (trace (EC2_report.main Mock.empty)) = [])
  /\ (outcome (RDS_report.main Mock.empty) = Ok tt
      /\ metric_queries (trace (RDS_report.main Mock.empty)) = []
      /\ exports (trace (RDS_report.main Mock.empty)) = [])
  /\ (outcome (ECS_report.main Mock.empty) = Ok tt
      /\ metric_queries (trace (ECS_report.main Mock.empty)) = []
      /\ exports (trace (ECS_report.main Mock.empty)) = []).
Proof.
  destruct (empty_inventory_skips_metrics_and_export Mock.empty _
              (Mock.cloudwatch Mock.no_data) eq_refl eq_refl)
    as (Hec2 & Hrds & Hecs).
  split; [|split].
  - apply (Hec2 (Mock.ec2 [])); reflexivity.
  - apply (Hrds (Mock.rds [])); reflexivity.
  - apply (Hecs (Mock.ecs [] [])); reflexivity.
Defined.

(** C9: when the listing of the EC2 or of the RDS report raises, the report
    stops there: it sends no metric query and writes no file; the exception
    is logged by the report, which returns normally. *)
Theorem failed_listing_aborts_report :
  forall w session cw e,
    boto3_Session w (AWS_REGION w) = Ok session ->
    client_cloudwatch session = Ok cw ->
    (forall ec2,
        client_ec2 session = Ok ec2 ->
        outcome (EC2_report.get_ec2_instance_details ec2 cw) = Raise e ->
        EC2_report.main w
        = ((heading "EC2"
            :: trace (EC2_report.get_ec2_instance_details ec2 cw))
           ++ [unexpected mark_failed e], Ok tt)%list
        /\ metric_queries (trace (EC2_report.main w)) = []
        /\ exports (trace (EC2_report.main w)) = [])
    /\ (forall rds,
           client_rds session = Ok rds ->
           outcome (RDS_report.get_rds_instance_details rds) = Raise e ->
           RDS_report.main w
           = ((heading "RDS" :: trace (RDS_report.get_rds_instance_details rds))
              ++ [unexpected mark_failed' e], Ok tt)%list
           /\ metric_queries (trace (RDS_report.main w)) = []
           /\ exports (trace (RDS_report.main w)) = []).
Proof.
  intros w session cw e Hs Hc. split.
  - intros ec2 He HL. pose proof (ec2_main_run w) as Hrun.
    rewrite Hs, He, Hc in Hrun. cbv zeta in Hrun. rewrite HL in Hrun.
    rewrite Hrun. cbn [trace outcome fst snd]. split; [reflexivity|]. split.
    + apply metric_queries_of_run;
        [apply ec2_listing_no_metric_query|repeat constructor|reflexivity].
    + rewrite <- (app_nil_l [unexpected _ _]), exports_of_run;
        [reflexivity|apply ec2_listing_no_export|constructor|reflexivity].
  - intros rds He HL. pose proof (rds_main_run w) as Hrun.
    rewrite Hs, He, Hc in Hrun. cbv zeta in Hrun. rewrite HL in Hrun.
    rewrite Hrun. cbn [trace outcome fst snd]. split; [reflexivity|]. split.
    + apply metric_queries_of_run;
        [apply rds_listing_no_metric_query|repeat constructor|reflexivity].
    + rewrite <- (app_nil_l [unexpected _ _]), exports_of_run;
        [reflexivity|apply rds_listing_no_export|constructor|reflexivity].
Qed.

Lemma failed_listing_aborts_report_witness :
  (metric_queries (trace (EC2_report.main Mock.down)) = []
   /\ exports (trace (EC2_report.main Mock.down)) = [])
  /\ (metric_queries (trace (RDS_report.main Mock.down)) = []
      /\ exports (trace (RDS_report.main Mock.down)) = []).
Proof.
  split.
  - refine (proj2 (proj1 (failed_listing_aborts_report Mock.down _
                            (Mock.cloudwatch Mock.no_data) "AuthFailure"
                            eq_refl eq_refl) Mock.ec2_down eq_refl _)).
    reflexivity.
  - refine (proj2 (proj2 (failed_listing_aborts_report Mock.down _
                            (Mock.cloudwatch Mock.no_data) "AccessDenied"
                            eq_refl eq_refl) Mock.rds_down eq_refl _)).
    reflexivity.
Defined.

(** ** The EC2 inventory *)

Lemma for_pages_asks {P0 S} (r : request) (answer : paged P0) (acc : S)
    (body : S -> P0 -> M S) :
  In (Call r) (trace (for_pages r answer acc body)).
Proof.
  unfold for_pages. simpl.
  destruct (for_each (pages answer) acc body) as [t [acc'|e]]; simpl;
    [destruct (failure answer); simpl|]; now left.
Qed.

Lemma ec2_listing_asks ec2 cw details :
  outcome (EC2_report.get_ec2_instance_details ec2 cw) = Ok details ->
  In (Call (DescribeInstances EC2_report.state_filter))
     (trace (EC2_report.get_ec2_instance_details ec2 cw)).
Proof.
  unfold EC2_report.get_ec2_instance_details. intros H.
  apply bind_ok_inv in H as (_ & _ & H & ->).
  apply bind_ok_inv in H as (statuses & _ & H & ->).
  apply bind_ok_inv in H as (status_map & _ & H & ->).
  apply bind_ok_inv in H as (addresses & _ & H & ->).
  apply bind_ok_inv in H as (ip_map & _ & H & ->).
  apply bind_ok_inv in H as (rows & _ & H & ->).
  rewrite !in_app_iff. do 5 right. left. apply for_pages_asks.
Qed.

Lemma in_state_running_or_stopped i :
  in_state ["running"; "stopped"] i = true ->
  State_Name i = Some "running" \/ State_Name i = Some "stopped".
Proof.
  unfold in_state. destruct (State_Name i) as [s|]; [|discriminate].
  cbn [existsb]. rewrite orb_false_r. intros H.
  apply orb_true_iff in H as [H|H]; apply String.eqb_eq in H; subst; auto.
Qed.

(** C10: against an EC2 service that honours the [instance-state-name]
    filter, the listing asks for the states running and stopped, and the
    inventory holds one row for each instance of the fleet in one of these
    two states, in order, and no other row: the state cell of every row is
    running or stopped. *)
Theorem inventory_is_running_or_stopped :
  forall ec2 cw fleet details,
    (forall states,
        listed (describe_instances ec2
                  [ {| f_Name := "instance-state-name"; f_Values := states |} ])
        = filter (in_state states) fleet) ->
    outcome (EC2_report.get_ec2_instance_details ec2 cw) = Ok details ->
    In (Call (DescribeInstances
                [ {| f_Name := "instance-state-name";
                     f_Values := ["running"; "stopped"] |} ]))
       (trace (EC2_report.get_ec2_instance_details ec2 cw))
    /\ Forall2 row_of_instance
               (filter (in_state ["running"; "stopped"]) fleet) details
    /\ Forall (fun d =>
                 dict_get "Instance state" d = Some (CStr "running")
                 \/ dict_get "Instance state" d = Some (CStr "stopped"))
              details.
Proof.
  intros ec2 cw fleet details Hservice HL.
  pose proof (ec2_listing_rows ec2 cw details HL) as Hrows.
  unfold EC2_report.state_filter in Hrows. rewrite Hservice in Hrows.
  split; [exact (ec2_listing_asks ec2 cw details HL)|]. split; [exact Hrows|].
  assert (Hstate : Forall (fun i => in_state ["running"; "stopped"] i = true)
                          (filter (in_state ["running"; "stopped"]) fleet)).
  { apply Forall_forall. intros i Hi. now apply filter_In in Hi. }
  clear HL Hservice. revert Hrows Hstate.
  generalize (filter (in_state ["running"; "stopped"]) fleet).
  intros kept Hrows. induction Hrows as [|i d instances ds Hd _ IH];
    intros Hstate; constructor.
  - inversion Hstate as [|? ? Hi _]; subst.
    destruct (ec2_row_keys i d Hd) as (_ & _ & ->).
    destruct (in_state_running_or_stopped i Hi) as [-> | ->]; auto.
  - apply IH. inversion Hstate; subst; assumption.
Qed.

Lemma inventory_is_running_or_stopped_witness :
  Forall (fun d =>
            dict_get "Instance state" d = Some (CStr "running")
            \/ dict_get "Instance state" d = Some (CStr "stopped"))
         [ EC2_report.instance_row (Mock.instance "i-01" "web" "running")
             "N/A" "No alarms" dash "2024/01/15 09:30 GMT+5:30";
           EC2_report.instance_row (Mock.instance "i-03" "batch" "stopped")
             "N/A" "No alarms" dash "2024/01/15 09:30 GMT+5:30" ].
Proof.
  refine (proj2 (proj2 (inventory_is_running_or_stopped
                          (Mock.ec2 Mock.fleet) (Mock.cloudwatch Mock.no_data)
                          Mock.fleet _ _ _))).
  - intros states. unfold listed. simpl. rewrite !andb_true_r, app_nil_r.
    reflexivity.
  - vm_compute. reflexivity.
Defined.

(** ** The formatting rules *)

(** C6, as the code has it: each report's formatter chooses by the
    substrings of the metric name alone. The EC2 one puts a percent sign
    after a CPUUtilization and shows the names containing Bytes in
    gigabytes; the RDS one puts a percent sign after a CPUUtilization and
    shows FreeableMemory in gigabytes; the ECS one puts a percent sign after
    CPUUtilization and MemoryUtilization and converts nothing; every other
    value is shown with two decimals, ReadThroughput and the other RDS
    metrics included. *)
Theorem formatting_rules_by_name :
  forall value metric_name,
    (contains "CPUUtilization" metric_name = true ->
     EC2_report.format_metric_value value metric_name = format_2f value ++ "%"
     /\ RDS_report.format_metric_value value metric_name = format_2f value ++ "%"
     /\ ECS_report.format_metric_value value metric_name = format_2f value ++ "%")
    /\ (contains "CPUUtilization" metric_name = false ->
        (EC2_report.format_metric_value value metric_name
         = if contains "Bytes" metric_name
           then format_2f (value / 1e9)%float ++ " GB" else format_2f value)
        /\ (RDS_report.format_metric_value value metric_name
            = if contains "FreeableMemory" metric_name
              then format_2f (value / 1e9)%float ++ " GB" else format_2f value)
        /\ (ECS_report.format_metric_value value metric_name
            = if contains "MemoryUtilization" metric_name
              then format_2f value ++ "%" else format_2f value))
    /\ map (RDS_report.format_metric_value value) RDS_report.RDS_METRICS
       = [ format_2f value ++ "%"; format_2f (value / 1e9)%float ++ " GB";
           format_2f value; format_2f value; format_2f value; format_2f value;
           format_2f value; format_2f value; format_2f value; format_2f value;
           format_2f value; format_2f value; format_2f value; format_2f value;
           format_2f value; format_2f value ]
    /\ RDS_report.format_metric_value value "ReadThroughput" = format_2f value
    /\ map (ECS_report.format_metric_value value) ECS_report.ECS_METRICS
       = [ format_2f value ++ "%"; format_2f value ++ "%" ]
    /\ map (EC2_report.format_metric_value value) EC2_report.EC2_METRICS
       = [ format_2f value; format_2f value ++ "%"; format_2f value;
           format_2f value ].
Proof.
  intros value metric_name.
  unfold EC2_report.format_metric_value, RDS_report.format_metric_value,
    ECS_report.format_metric_value.
  split; [|split; [|repeat split]].
  - intros ->. auto.
  - intros ->. auto.
Qed.

Lemma formatting_rules_by_name_witness :
  EC2_report.format_metric_value 42.5 "CPUUtilization" = format_2f 42.5 ++ "%"
  /\ RDS_report.format_metric_value 42.5 "CPUUtilization" = format_2f 42.5 ++ "%"
  /\ ECS_report.format_metric_value 42.5 "CPUUtilization" = format_2f 42.5 ++ "%".
Proof.
  apply (proj1 (formatting_rules_by_name 42.5 "CPUUtilization")).
  reflexivity.
Defined.

(** C6, as stated, fails: the RDS formatter shows ReadThroughput with two
    decimals and no conversion to gigabytes, and the ECS formatter converts
    no metric at all. *)
Lemma throughput_is_not_shown_in_gigabytes :
  RDS_report.format_metric_value 2147483648 "ReadThroughput" = "2147483648.00"
  /\ RDS_report.format_metric_value 2147483648 "ReadThroughput"
     <> format_2f (2147483648 / 1e9)%float ++ " GB"
  /\ ECS_report.format_metric_value 2147483648 "ReadThroughput"
     <> format_2f (2147483648 / 1e9)%float ++ " GB".
Proof. repeat split; vm_compute; (reflexivity || discriminate). Qed.

(** The three reports catch what they raise: the entry point never has a
    failure of theirs to log. *)
Lemma reports_never_raise (w : World) :
  outcome (EC2_report.main w) = Ok tt
  /\ outcome (RDS_report.main w) = Ok tt
  /\ outcome (ECS_report.main w) = Ok tt.
Proof.
  unfold EC2_report.main, RDS_report.main, ECS_report.main.
  repeat split;
    match goal with
    | |- outcome (try_except ?body _) = _ =>
        destruct body as [t [[]|e]]; reflexivity
    end.
Qed.

(** ** Printing and reading integers *)

Lemma int_digits_of_uint (d : Decimal.uint) (acc : N) :
  int_digits (NilEmpty.string_of_uint d) (Z.of_N acc) true
  = Some (Z.of_N (Pos.of_uint d
                  + acc * 10 ^ DecimalPos.Unsigned.usize d)%N).
Proof.
  revert acc.
  induction d as [|d IH|d IH|d IH|d IH|d IH|d IH|d IH|d IH|d IH|d IH];
    intros acc;
    [ simpl; f_equal; f_equal; lia | .. ];
    cbn [NilEmpty.string_of_uint int_digits];
    match goal with
    | |- context [digit_of ?c] =>
        let v := eval vm_compute in (digit_of c) in
        change (digit_of c) with v
    end;
    cbv iota;
    match goal with
    | |- context [int_digits _ (10 * Z.of_N acc + ?k)%Z true] =>
        replace (10 * Z.of_N acc + k)%Z with (Z.of_N (10 * acc + Z.to_N k))
          by (vm_compute (Z.to_N k); lia)
    end;
    rewrite IH; f_equal; f_equal;
    cbn [DecimalPos.Unsigned.usize Pos.of_uint];
    rewrite ?DecimalPos.Unsigned.of_uint_acc_rev,
            ?DecimalPos.Unsigned.of_uint_alt, N.pow_succ_r';
    vm_compute (Z.to_N _); lia.
Qed.

(** A text of ASCII digits is left as it is. *)
Lemma to_ascii_digits_uint (d : Decimal.uint) :
  to_ascii_digits 0 0 0 (NilEmpty.string_of_uint d) = NilEmpty.string_of_uint d.
Proof.
  induction d as [|d IH|d IH|d IH|d IH|d IH|d IH|d IH|d IH|d IH|d IH];
    [reflexivity | ..];
    cbn [NilEmpty.string_of_uint];
    match goal with
    | |- to_ascii_digits 0 0 0 (String ?c ?rest) = _ =>
        change (to_ascii_digits 0 0 0 (String c rest))
          with (String c (to_ascii_digits 0 0 0 rest))
    end;
    now rewrite IH.
Qed.

Lemma string_of_uint_digit (d : Decimal.uint) :
  d <> Decimal.Nil ->
  exists c rest k,
    NilEmpty.string_of_uint d = String c rest
    /\ digit_of c = Some k /\ is_space c = false
    /\ c <> "-"%char /\ c <> "+"%char.
Proof.
  destruct d; [now intros [] | ..]; intros _;
    do 3 eexists; (split; [reflexivity|]);
    repeat split; try reflexivity; discriminate.
Qed.

Lemma int_of_str_uint (d : Decimal.uint) :
  d <> Decimal.Nil ->
  int_of_str (NilEmpty.string_of_uint d) = Ok (Z.of_N (Pos.of_uint d))
  /\ int_unsigned (NilEmpty.string_of_uint d) = Some (Z.of_N (Pos.of_uint d)).
Proof.
  intros Hd.
  assert (Hdigits : int_digits (NilEmpty.string_of_uint d) 0 false
                    = Some (Z.of_N (Pos.of_uint d))).
  { pose proof (int_digits_of_uint d 0) as H. rewrite N.mul_0_l, N.add_0_r in H.
    rewrite <- H. destruct d; try reflexivity. now elim Hd. }
  destruct (string_of_uint_digit d Hd) as (c & rest & k & Hs & Hk & Hsp & Hm & Hp).
  assert (Hun : int_unsigned (NilEmpty.string_of_uint d)
                = Some (Z.of_N (Pos.of_uint d))).
  { unfold int_unsigned. rewrite Hs, Hk, <- Hs. exact Hdigits. }
  split; [|exact Hun].
  unfold int_of_str. rewrite to_ascii_digits_uint, Hs. cbn [lstrip].
  rewrite Hsp.
  assert (Hmatch :
            match String c rest with
            | String "-"%char r => option_map Z.opp (int_unsigned r)
            | String "+"%char r => int_unsigned r
            | _ => int_unsigned (String c rest)
            end = int_unsigned (String c rest)).
  { destruct c as [[] [] [] [] [] [] [] []]; try reflexivity;
      (now elim Hm) || (now elim Hp). }
  rewrite Hmatch, <- Hs, Hun. reflexivity.
Qed.

(** [int(str(z)) == z] for every integer. *)
Lemma int_of_str_of_Z (z : Z) : int_of_str (str_of_Z z) = Ok z.
Proof.
  unfold str_of_Z. destruct z as [|p|p].
  - reflexivity.
  - pose proof (DecimalPos.Unsigned.to_uint_nonnil p) as Hn.
    unfold NilZero.string_of_uint.
    change (N.to_uint (Z.to_N (Z.pos p))) with (Pos.to_uint p).
    assert (Hs : match Pos.to_uint p with
                 | Decimal.Nil => "0"
                 | _ => NilEmpty.string_of_uint (Pos.to_uint p)
                 end = NilEmpty.string_of_uint (Pos.to_uint p)).
    { destruct (Pos.to_uint p); try reflexivity. now elim Hn. }
    rewrite Hs. destruct (int_of_str_uint (Pos.to_uint p) Hn) as [-> _].
    now rewrite DecimalPos.Unsigned.of_to.
  - pose proof (DecimalPos.Unsigned.to_uint_nonnil p) as Hn.
    unfold NilZero.string_of_uint.
    assert (Hs : match Pos.to_uint p with
                 | Decimal.Nil => "0"
                 | _ => NilEmpty.string_of_uint (Pos.to_uint p)
                 end = NilEmpty.string_of_uint (Pos.to_uint p)).
    { destruct (Pos.to_uint p); try reflexivity. now elim Hn. }
    rewrite Hs. unfold int_of_str.
    change (to_ascii_digits 0 0 0
              ("-" ++ NilEmpty.string_of_uint (Pos.to_uint p)))
      with (String "-"%char
              (to_ascii_digits 0 0 0 (NilEmpty.string_of_uint (Pos.to_uint p)))).
    rewrite to_ascii_digits_uint.
    change (lstrip (String "-"%char (NilEmpty.string_of_uint (Pos.to_uint p))))
      with (String "-"%char (NilEmpty.string_of_uint (Pos.to_uint p))).
    cbv iota.
    destruct (int_of_str_uint (Pos.to_uint p) Hn) as [_ ->].
    now rewrite DecimalPos.Unsigned.of_to.
Qed.

Import Shape.

(** ** The identifiers of the metric queries *)

Lemma enumerate_from_nth {X} (l : list X) (start i : nat) (x : X) :
  nth_error l i = Some x ->
  nth_error (enumerate_from start l) i = Some ((start + i)%nat, x).
Proof.
  revert start i. induction l as [|a rest IH]; intros start [|i]; simpl;
    try discriminate.
  - intros [= ->]. now rewrite Nat.add_0_r.
  - intros H. rewrite (IH (S start) i H). f_equal. f_equal. lia.
Qed.

Lemma enumerate_from_fst {X} (l : list X) (start : nat) :
  map fst (enumerate_from start l) = seq start (List.length l).
Proof.
  revert start. induction l as [|a rest IH]; intros start; simpl;
    [reflexivity|now rewrite IH].
Qed.

Lemma enumerate_from_snd {X} (l : list X) (start : nat) :
  map snd (enumerate_from start l) = l.
Proof.
  revert start. induction l as [|a rest IH]; intros start; simpl;
    [reflexivity|now rewrite IH].
Qed.

Lemma index_nth {X} (l : list X) (i : nat) (x : X) :
  nth_error l i = Some x -> index l (Z.of_nat i) = Ok x.
Proof.
  intros H. unfold index.
  assert (Hlt : (i < List.length l)%nat) by (apply nth_error_Some; congruence).
  destruct (Z.ltb_spec (Z.of_nat i) 0); [lia|].
  destruct (Z.leb_spec 0 (Z.of_nat i)); [|lia].
  destruct (Z.ltb_spec (Z.of_nat i) (Z.of_nat (List.length l))); [|lia].
  simpl. now rewrite Nat2Z.id, H.
Qed.

Lemma query_id_decodes (n : nat) :
  int_of_str (drop_first ("m" ++ str_of_nat n)) = Ok (Z.of_nat n).
Proof. apply int_of_str_of_Z. Qed.

Lemma query_id_filed (metric_list : list string) (i : nat) (m : string)
    (values : list float) :
  nth_error metric_list i = Some m ->
  metric_of_result metric_list {| Id := "m" ++ str_of_nat i; Values := values |}
  = Some m.
Proof.
  intros Hi. unfold metric_of_result. cbn [Id].
  now rewrite query_id_decodes, (index_nth metric_list i m Hi).
Qed.


(** X1: the identifier given to the query of the metric at position [i]
    decodes back to that metric: a result carrying it is filed under the
    metric the query asked for. *)
Theorem query_id_round_trip :
  forall namespace dimensions metric_list i m values,
    nth_error metric_list i = Some m ->
    exists q,
      nth_error (Metrics.metric_data_queries namespace dimensions metric_list) i
      = Some q
      /\ q_MetricName q = m
      /\ q_Id q = "m" ++ str_of_nat i
      /\ metric_of_result metric_list {| Id := q_Id q; Values := values |}
         = Some m.
Proof.
  intros ns dims ml i m values Hi.
  unfold Metrics.metric_data_queries, enumerate.
  rewrite nth_error_map, (enumerate_from_nth ml 0 i m Hi). simpl.
  eexists. split; [reflexivity|]. repeat split.
  cbn [q_Id fst]. now apply query_id_filed.
Qed.

Lemma query_id_round_trip_witness :
  exists q,
    nth_error (Metrics.metric_data_queries "AWS/RDS" [] RDS_report.RDS_METRICS) 11
    = Some q
    /\ q_MetricName q = "ReadThroughput"
    /\ q_Id q = "m" ++ str_of_nat 11
    /\ metric_of_result RDS_report.RDS_METRICS
         {| Id := q_Id q; Values := [1%float] |} = Some "ReadThroughput".
Proof.
  apply (query_id_round_trip "AWS/RDS" [] RDS_report.RDS_METRICS 11
           "ReadThroughput" [1%float]).
  reflexivity.
Defined.

Lemma str_of_nat_inj (a b : nat) : str_of_nat a = str_of_nat b -> a = b.
Proof.
  intros H. apply (f_equal int_of_str) in H. unfold str_of_nat in H.
  rewrite !int_of_str_of_Z in H. injection H. lia.
Qed.

(** X2: one batch holds one query per metric, in the order of the metric
    list, with pairwise distinct identifiers, each asking for the Average
    over periods of 300 seconds in the given namespace and dimensions. *)
Theorem query_batch_shape :
  forall namespace dimensions metric_list,
    let queries :=
      Metrics.metric_data_queries namespace dimensions metric_list in
    map q_MetricName queries = metric_list
    /\ map q_Id queries
       = map (fun i => "m" ++ str_of_nat i) (seq 0 (List.length metric_list))
    /\ NoDup (map q_Id queries)
    /\ Forall (fun q => q_Namespace q = namespace
                        /\ q_Dimensions q = dimensions
                        /\ q_Period q = 300%Z
                        /\ q_Stat q = "Average"
                        /\ q_ReturnData q = true) queries.
Proof.
  intros ns dims ml queries. unfold queries, Metrics.metric_data_queries, enumerate.
  assert (Hids : map q_Id
                   (map (fun im : nat * string =>
                           {| q_Id := "m" ++ str_of_nat (fst im);
                              q_Namespace := ns; q_MetricName := snd im;
                              q_Dimensions := dims; q_Period := 300;
                              q_Stat := "Average"; q_ReturnData := true |})
                        (enumerate_from 0 ml))
                 = map (fun i => "m" ++ str_of_nat i) (seq 0 (List.length ml))).
  { rewrite map_map. cbn [q_Id].
    rewrite <- (enumerate_from_fst ml 0), map_map. reflexivity. }
  split; [|split; [exact Hids|split]].
  - rewrite map_map. cbn [q_MetricName]. apply enumerate_from_snd.
  - rewrite Hids. apply Lists.Finite.Injective_map_NoDup; [|apply seq_NoDup].
    intros a b H. injection H as H. now apply str_of_nat_inj.
  - apply Forall_map, Forall_forall. intros im _. cbn. auto.
Qed.

(** ** When a metric query completes *)


Lemma collect_results_inv metric_list (rs : list MetricDataResult) :
  forall acc acc',
    outcome (for_each rs acc (Metrics.collect_result metric_list)) = Ok acc' ->
    Forall (fun r => metric_of_result metric_list r <> None) rs.
Proof.
  induction rs as [|r rest IH]; intros acc acc' H; constructor.
  - simpl in H. apply bind_ok_inv in H as (acc1 & H1 & _ & _).
    unfold Metrics.collect_result in H1. unfold metric_of_result.
    destruct (int_of_str _) as [i|]; [|discriminate]. rewrite bind_lift_ok in H1.
    destruct (index metric_list i); [discriminate|discriminate].
  - simpl in H. apply bind_ok_inv in H as (acc1 & _ & H & _). eapply IH, H.
Qed.

Lemma collect_ok_inv days utcnow queries metric_list cw all_results :
  outcome (Metrics.collect days utcnow queries metric_list cw) = Ok all_results ->
  (exists start, Datetime.days_before utcnow days = Ok start)
  /\ completes metric_list (get_metric_data cw queries days "TimestampAscending").
Proof.
  unfold Metrics.collect. intros H.
  destruct (Datetime.days_before utcnow days) as [start|e]; [|discriminate].
  rewrite bind_lift_ok in H. split; [now exists start|].
  apply for_pages_ok_inv in H as [H Hend]. split; [exact Hend|].
  rewrite for_each_concat in H. apply collect_results_inv in H.
  intros page r Hp Hr. rewrite Forall_forall in H. apply H.
  apply in_concat. eauto.
Qed.

(** X4: a metrics row is never half failed. The function always returns a
    row; when the window starts on a day of the calendar and the query
    completes, every metric holds Nil or its three formatted statistics, and
    otherwise (the window falls outside the calendar, a page fetch raises,
    or a result carries an [Id] that names no metric) every metric holds
    Error, whatever was collected before. This is the text shared by the
    EC2 and the RDS module, for any formatter. *)
Theorem metrics_row_all_or_nothing :
  forall format days utcnow namespace dimensions resource_name metric_list cw,
    let answer :=
      get_metric_data cw
        (Metrics.metric_data_queries namespace dimensions metric_list)
        days "TimestampAscending" in
    let ready :=
      (exists start, Datetime.days_before utcnow days = Ok start)
      /\ completes metric_list answer in
    exists r,
      outcome (Metrics.get_cloudwatch_metrics format days utcnow namespace
                 dimensions resource_name metric_list cw) = Ok r
      /\ ((ready
           /\ forall m, In m metric_list ->
                        derived_fields r m
                        = reduced format m
                            (samples_of metric_list m (pages answer)))
          \/ (~ ready
              /\ forall m, In m metric_list -> derived_fields r m = all_error)).
Proof.
  intros format days utcnow namespace dimensions resource_name metric_list cw
    answer ready.
  destruct (outcome (Metrics.collect days utcnow
                       (Metrics.metric_data_queries namespace dimensions
                          metric_list) metric_list cw))
    as [ar|e] eqn:Hc.
  - pose proof (collect_ok_inv _ _ _ _ _ _ Hc) as Hready.
    destruct Hready as [[start Hwin] [Hend Hres]].
    destruct (collect_ok days utcnow _ metric_list cw start Hwin Hend Hres)
      as (ar' & Hrun & Hnd & Hget).
    unfold Metrics.get_cloudwatch_metrics. rewrite Hrun. simpl.
    eexists. split; [reflexivity|]. left.
    split; [split; [now exists start|now split]|].
    intros m Hm. unfold reduced, all_nil.
    apply fold_reduce_fields; auto.
  - unfold Metrics.get_cloudwatch_metrics.
    destruct (Metrics.collect days utcnow _ metric_list cw) as [t [ar|e']]
      eqn:Hrun; simpl in Hc; [discriminate|]. simpl.
    eexists. split; [reflexivity|]. right. split.
    + intros [[start Hwin] [Hend Hres]].
      destruct (collect_ok days utcnow _ metric_list cw start Hwin Hend Hres)
        as (ar' & Hrun' & _).
      rewrite Hrun in Hrun'. discriminate.
    + intros m Hm. now apply mark_errors_fields.
Qed.



(** ** What a metric query logs *)




(** ** The columns of the rows *)

Lemma dict_set_keys_old {V} (k : string) (v : V) (d : dict V) :
  In k (dict_keys d) -> dict_keys (dict_set k v d) = dict_keys d.
Proof.
  induction d as [|[k' v'] rest IH]; simpl; [now intros []|].
  destruct (String.eqb_spec k k') as [->|Hne]; [reflexivity|].
  intros [->|Hin]; [now elim Hne|]. simpl. f_equal. auto.
Qed.

Lemma dict_set_keys_new {V} (k : string) (v : V) (d : dict V) :
  ~ In k (dict_keys d) -> dict_keys (dict_set k v d) = (dict_keys d ++ [k])%list.
Proof.
  induction d as [|[k' v'] rest IH]; simpl; [reflexivity|].
  intros Hn. destruct (String.eqb_spec k k') as [->|Hne].
  - exfalso. apply Hn. now left.
  - simpl. f_equal. apply IH. intros Hin. apply Hn. now right.
Qed.

Lemma dict_get_some_key {V} (k : string) (v : V) (d : dict V) :
  dict_get k d = Some v -> In k (dict_keys d).
Proof.
  induction d as [|[k' v'] rest IH]; simpl; [discriminate|].
  destruct (String.eqb_spec k k') as [->|Hne]; [now left|]. intros H.
  right. auto.
Qed.

Lemma field_key_in_columns (done : list string) (base : list string)
    (m s : string) :
  Forall plain_key base ->
  (s = " Min" \/ s = " Max" \/ s = " Avg") ->
  In (m ++ s) (base ++ metric_columns done) -> In m done.
Proof.
  intros Hbase Hs Hin. apply in_app_or in Hin as [Hin|Hin].
  - rewrite Forall_forall in Hbase. destruct (Hbase _ Hin m) as (H1 & H2 & H3).
    destruct Hs as [->|[->| ->]]; congruence.
  - unfold metric_columns in Hin. apply in_flat_map in Hin as (m' & Hm' & Hin).
    assert (m = m'); [|now subst].
    destruct Hs as [->|[->| ->]];
      destruct Hin as [H|[H|[H|[]]]];
      now apply append_inj_suffix in H as [-> _].
Qed.

Lemma update_stat_cells_keys (md : dict cell) (base done : list string)
    (m : string) (a b c : cell) :
  Forall plain_key base ->
  dict_keys md = (base ++ metric_columns done)%list ->
  ~ In m done ->
  dict_keys (dict_update md (Metrics.stat_cells m a b c))
  = (base ++ metric_columns (done ++ [m]))%list.
Proof.
  intros Hbase Hkeys Hnew. rewrite update_stat_cells.
  assert (Hmin : ~ In (m ++ " Min") (dict_keys md)).
  { rewrite Hkeys. intros H. apply Hnew.
    apply (field_key_in_columns done base m " Min" Hbase); [tauto|exact H]. }
  assert (Hmax : ~ In (m ++ " Max") (dict_keys md)).
  { rewrite Hkeys. intros H. apply Hnew.
    apply (field_key_in_columns done base m " Max" Hbase); [tauto|exact H]. }
  assert (Havg : ~ In (m ++ " Avg") (dict_keys md)).
  { rewrite Hkeys. intros H. apply Hnew.
    apply (field_key_in_columns done base m " Avg" Hbase); [tauto|exact H]. }
  rewrite dict_set_keys_new.
  - rewrite dict_set_keys_new.
    + rewrite dict_set_keys_new by exact Hmin. rewrite Hkeys.
      unfold metric_columns. rewrite flat_map_app. simpl.
      now rewrite <- !app_assoc.
    + rewrite dict_set_keys_new by exact Hmin. intros H.
      apply in_app_or in H as [H|[H|[]]]; [now apply Hmax|].
      now apply append_inj_suffix in H as [_ H].
  - rewrite dict_set_keys_new.
    + rewrite dict_set_keys_new by exact Hmin. intros H.
      apply in_app_or in H as [H|[H|[]]].
      * apply in_app_or in H as [H|[H|[]]]; [now apply Havg|].
        now apply append_inj_suffix in H as [_ H].
      * now apply append_inj_suffix in H as [_ H].
    + rewrite dict_set_keys_new by exact Hmin. intros H.
      apply in_app_or in H as [H|[H|[]]]; [now apply Hmax|].
      now apply append_inj_suffix in H as [_ H].
Qed.

Lemma fold_reduce_keys format (all_results : dict (list float)) :
  forall (md : dict cell) (base done : list string),
    Forall plain_key base ->
    dict_keys md = (base ++ metric_columns done)%list ->
    NoDup (done ++ dict_keys all_results) ->
    dict_keys (fold_left (Metrics.reduce_metric format) all_results md)
    = (base ++ metric_columns (done ++ dict_keys all_results))%list.
Proof.
  induction all_results as [|[m vs] rest IH]; intros md base done Hb Hk Hnd.
  - simpl. now rewrite app_nil_r.
  - simpl. replace (done ++ m :: dict_keys rest)%list
      with ((done ++ [m]) ++ dict_keys rest)%list by now rewrite <- app_assoc.
    apply IH; auto.
    + unfold Metrics.reduce_metric.
      assert (Hnew : ~ In m done).
      { intros Hin. apply NoDup_remove_2 in Hnd. apply Hnd.
        apply in_or_app. now left. }
      destruct vs; now apply update_stat_cells_keys.
    + now rewrite <- app_assoc.
Qed.

Lemma mark_errors_keys (metric_list : list string) :
  forall (md : dict cell) (base done : list string),
    Forall plain_key base ->
    dict_keys md = (base ++ metric_columns done)%list ->
    NoDup (done ++ metric_list) ->
    dict_keys (Metrics.mark_errors metric_list md)
    = (base ++ metric_columns (done ++ metric_list))%list.
Proof.
  unfold Metrics.mark_errors.
  induction metric_list as [|m rest IH]; intros md base done Hb Hk Hnd.
  - simpl. now rewrite app_nil_r.
  - simpl. replace (done ++ m :: rest)%list
      with ((done ++ [m]) ++ rest)%list by now rewrite <- app_assoc.
    apply IH; auto.
    + apply update_stat_cells_keys; auto.
      intros Hin. apply NoDup_remove_2 in Hnd. apply Hnd.
      apply in_or_app. now left.
    + now rewrite <- app_assoc.
Qed.

Lemma init_results_keys (l : list string) :
  forall acc : dict (list float),
    NoDup (dict_keys acc ++ l) ->
    dict_keys (fold_left (fun d m => dict_set m [] d) l acc)
    = (dict_keys acc ++ l)%list.
Proof.
  induction l as [|m rest IH]; intros acc Hnd; simpl.
  - now rewrite app_nil_r.
  - assert (Hnew : ~ In m (dict_keys acc)).
    { intros Hin. apply NoDup_remove_2 in Hnd. apply Hnd.
      apply in_or_app. now left. }
    rewrite IH; rewrite dict_set_keys_new by exact Hnew;
      now rewrite <- app_assoc.
Qed.

Lemma collect_results_keys metric_list (rs : list MetricDataResult) :
  forall acc acc',
    outcome (for_each rs acc (Metrics.collect_result metric_list)) = Ok acc' ->
    dict_keys acc' = dict_keys acc.
Proof.
  induction rs as [|r rest IH]; intros acc acc' H; simpl in H.
  - now injection H as <-.
  - apply bind_ok_inv in H as (acc1 & H1 & H & _).
    rewrite (IH _ _ H). unfold Metrics.collect_result in H1.
    apply bind_ok_inv in H1 as (i & _ & H1 & _).
    apply bind_ok_inv in H1 as (m & _ & H1 & _).
    unfold Metrics.extend, lift, outcome in H1. simpl in H1.
    destruct (dict_get m acc) as [old|] eqn:E; [|discriminate].
    injection H1 as <-. apply dict_set_keys_old.
    eapply dict_get_some_key, E.
Qed.

Lemma collect_keys days utcnow queries metric_list cw all_results :
  NoDup metric_list ->
  outcome (Metrics.collect days utcnow queries metric_list cw) = Ok all_results ->
  dict_keys all_results = metric_list.
Proof.
  intros Hnd H. unfold Metrics.collect in H.
  destruct (Datetime.days_before utcnow days) as [start|e]; [|discriminate].
  rewrite bind_lift_ok in H.
  apply for_pages_ok_inv in H as [H _]. rewrite for_each_concat in H.
  apply collect_results_keys in H. rewrite H.
  now rewrite (init_results_keys metric_list []).
Qed.

Lemma name_is_plain : Forall plain_key ["Name"].
Proof.
  constructor; [|constructor]. intros m. repeat split; intros H;
    apply (append_inj_suffix "" m "Name") in H; try reflexivity;
    destruct H; discriminate.
Qed.

(** X6: for a metric list without repetition, every metrics row has the
    same columns in the same order, whether the query completed or not:
    Name, then Min, Max and Avg of each metric in the order of the list;
    so the metrics table has no missing cell. *)
Theorem metrics_row_columns :
  forall format days utcnow namespace dimensions resource_name metric_list cw,
    NoDup metric_list ->
    exists r,
      outcome (Metrics.get_cloudwatch_metrics format days utcnow namespace
                 dimensions resource_name metric_list cw) = Ok r
      /\ dict_keys r = "Name" :: metric_columns metric_list.
Proof.
  intros format days utcnow ns dims name ml cw Hnd.
  unfold Metrics.get_cloudwatch_metrics. simpl.
  destruct (Metrics.collect days utcnow _ ml cw) as [t [ar|e]] eqn:Hrun; simpl.
  - eexists. split; [reflexivity|].
    assert (Hk : dict_keys ar = ml).
    { eapply collect_keys; [exact Hnd|]. now rewrite Hrun. }
    rewrite (fold_reduce_keys format ar _ ["Name"] []);
      [now rewrite Hk|apply name_is_plain|reflexivity|now rewrite Hk].
  - eexists. split; [reflexivity|].
    now rewrite (mark_errors_keys ml _ ["Name"] []);
      [|apply name_is_plain|reflexivity|].
Qed.

Lemma metrics_row_columns_witness :
  exists r,
    outcome (Metrics.get_cloudwatch_metrics EC2_report.format_metric_value 90
               Mock.clock "AWS/EC2" [] (CStr "web") EC2_report.EC2_METRICS
               (Mock.cloudwatch (Mock.failing "Throttling"))) = Ok r
    /\ dict_keys r = "Name" :: metric_columns EC2_report.EC2_METRICS.
Proof.
  apply (metrics_row_columns EC2_report.format_metric_value 90 Mock.clock
           "AWS/EC2" [] (CStr "web") EC2_report.EC2_METRICS
           (Mock.cloudwatch (Mock.failing "Throttling"))).
  repeat constructor; simpl; intuition discriminate.
Defined.

(** ** The ECS listing *)

Lemma dict_update_keys_fresh {V} (other : dict V) :
  forall d : dict V,
    NoDup (dict_keys d ++ dict_keys other) ->
    dict_keys (dict_update d other) = (dict_keys d ++ dict_keys other)%list.
Proof.
  unfold dict_update.
  induction other as [|[k v] rest IH]; intros d Hnd; simpl.
  - now rewrite List.app_nil_r.
  - assert (Hnew : ~ In k (dict_keys d)).
    { intros Hin. simpl in Hnd. apply NoDup_remove_2 in Hnd. apply Hnd.
      apply in_or_app. now left. }
    rewrite IH; rewrite dict_set_keys_new by exact Hnew;
      [now rewrite <- List.app_assoc|].
    simpl in Hnd. now rewrite <- List.app_assoc.
Qed.

Lemma ecs_stats_keys w cluster_name service_name cw stats :
  outcome (ECS_report.get_cloudwatch_metrics w cluster_name service_name cw)
  = Ok stats ->
  dict_keys stats = metric_columns ECS_report.ECS_METRICS.
Proof.
  assert (Hnd : NoDup ECS_report.ECS_METRICS).
  { repeat constructor; simpl; intuition discriminate. }
  unfold ECS_report.get_cloudwatch_metrics.
  destruct (Metrics.collect (METRIC_DAYS w) (utcnow w) _
              ECS_report.ECS_METRICS cw)
    as [t [ar|e]] eqn:Hrun; simpl; intros [= <-].
  - assert (Hk : dict_keys ar = ECS_report.ECS_METRICS).
    { eapply collect_keys; [exact Hnd|]. now rewrite Hrun. }
    rewrite (fold_left_ext _ _ _ _ ecs_reduce_metric_eq).
    rewrite (fold_reduce_keys ECS_report.format_metric_value ar _ [] []);
      [now rewrite Hk|constructor|reflexivity|now rewrite Hk].
  - reflexivity.
Qed.

Lemma service_row_keys cluster_name service_name service stats :
  dict_keys stats = metric_columns ECS_report.ECS_METRICS ->
  dict_keys (ECS_report.service_row cluster_name service_name service stats)
  = ECS_report.final_columns.
Proof.
  intros Hk. unfold ECS_report.service_row.
  rewrite dict_update_keys_fresh; rewrite Hk; [reflexivity|].
  repeat constructor; simpl; intuition discriminate.
Qed.

Lemma reindex_own_keys (r : row) :
  NoDup (dict_keys r) ->
  map (fun c => (c, match dict_get c r with
                    | Some v => v
                    | None => CNaN
                    end)) (dict_keys r) = r.
Proof.
  induction r as [|[k v] rest IH]; intros Hnd; simpl; [reflexivity|].
  inversion Hnd as [|? ? Hnotin Hrest]; subst.
  rewrite String.eqb_refl. f_equal. rewrite <- (IH Hrest) at 2.
  apply map_ext_in. intros c Hc.
  destruct (String.eqb_spec c k) as [->|_]; [now elim Hnotin|reflexivity].
Qed.

Lemma for_each_invariant {X S} (I : S -> Prop) (body : S -> X -> M S) :
  (forall acc x acc', I acc -> outcome (body acc x) = Ok acc' -> I acc') ->
  forall xs acc acc',
    I acc -> outcome (for_each xs acc body) = Ok acc' -> I acc'.
Proof.
  intros Hb. induction xs as [|x rest IH]; intros acc acc' HI H; simpl in H.
  - now injection H as <-.
  - apply bind_ok_inv in H as (acc1 & H1 & H & _). eauto.
Qed.

Lemma ecs_listing_rows_columns w ecs cw rows :
  outcome (ECS_report.get_ecs_report_data w ecs cw) = Ok rows ->
  Forall (fun r => dict_keys r = ECS_report.final_columns) rows.
Proof.
  unfold ECS_report.get_ecs_report_data. intros H.
  apply bind_ok_inv in H as (_ & _ & H & _).
  apply bind_ok_inv in H as (clusters & _ & H & _).
  apply bind_ok_inv in H as (rows' & Hrows & H & _).
  apply bind_ok_inv in H as (_ & _ & H & _). injection H as <-.
  revert Hrows. apply for_each_invariant; [|constructor].
  intros acc cluster_arn acc' HI Hc. unfold ECS_report.describe_cluster in Hc.
  apply for_pages_ok_inv in Hc as [Hc _]. revert Hc.
  apply for_each_invariant; [|exact HI]. clear.
  intros acc arns acc' HI Hp. destruct arns as [|arn arns];
    [now injection Hp as <-|].
  revert Hp. apply for_each_invariant; [|exact HI]. clear.
  intros acc batch acc' HI Hb. unfold ECS_report.describe_batch in Hb.
  apply bind_ok_inv in Hb as (services & _ & Hb & _). revert Hb.
  apply for_each_invariant; [|exact HI]. clear.
  intros acc service acc' HI Hs. unfold ECS_report.describe_service in Hs.
  apply bind_ok_inv in Hs as (name & _ & Hs & _).
  apply bind_ok_inv in Hs as (stats & Hstats & Hs & _). injection Hs as <-.
  apply Forall_app. split; [exact HI|]. constructor; [|constructor].
  apply service_row_keys. eapply ecs_stats_keys, Hstats.
Qed.

(** X7: every row of the ECS listing has exactly the fourteen final
    columns, in their final order, whether the metric query of the service
    succeeded or failed; the reordering step of [main] changes nothing and
    the file written holds the listing itself. *)
Theorem ecs_rows_have_final_columns :
  forall w session ecs cw rows,
    boto3_Session w (AWS_REGION w) = Ok session ->
    client_ecs session = Ok ecs ->
    client_cloudwatch session = Ok cw ->
    outcome (ECS_report.get_ecs_report_data w ecs cw) = Ok rows ->
    Forall (fun r => dict_keys r = ECS_report.final_columns) rows
    /\ ECS_report.reindex ECS_report.final_columns rows = rows
    /\ (rows <> [] ->
        exports (trace (ECS_report.main w))
        = [ToExcel ("ECS_Report_" ++ file_stamp (now w) ++ ".xlsx")
                   "Sheet1" 0 rows]).
Proof.
  intros w session ecs cw rows Hs He Hc HL.
  pose proof (ecs_listing_rows_columns w ecs cw rows HL) as Hcols.
  assert (Hre : ECS_report.reindex ECS_report.final_columns rows = rows).
  { unfold ECS_report.reindex. rewrite <- (map_id rows) at 2.
    apply map_ext_in. intros r Hr. rewrite Forall_forall in Hcols.
    rewrite <- (Hcols r Hr). apply reindex_own_keys. rewrite (Hcols r Hr).
    repeat constructor; simpl; intuition discriminate. }
  split; [exact Hcols|]. split; [exact Hre|]. intros Hne.
  pose proof (ecs_main_run w) as Hrun.
  rewrite Hs, He, Hc in Hrun. cbv zeta in Hrun. rewrite HL in Hrun.
  destruct rows as [|r rs]; [now elim Hne|]. rewrite Hrun, Hre.
  cbn [trace fst].
  rewrite <- (List.app_nil_l [ToExcel _ _ _ _; _]), exports_of_run;
    [reflexivity|apply ecs_listing_no_export|constructor|reflexivity].
Qed.

Lemma ecs_rows_have_final_columns_witness :
  let w := Mock.stocked (Mock.cloudwatch (Mock.failing "Throttling")) in
  exists rows,
    outcome (ECS_report.get_ecs_report_data w
               (Mock.ecs ["arn:aws:ecs:ap-south-1:1:cluster/prod"] ["api"])
               (Mock.cloudwatch (Mock.failing "Throttling"))) = Ok rows
    /\ Forall (fun r => dict_keys r = ECS_report.final_columns) rows
    /\ ECS_report.reindex ECS_report.final_columns rows = rows.
Proof.
  intros w. eexists. split; [vm_compute; reflexivity|].
  refine (let H := ecs_rows_have_final_columns w _ _ _ _
                     eq_refl eq_refl eq_refl _ in
          conj (proj1 H) (proj1 (proj2 H))).
  vm_compute. reflexivity.
Defined.










(** ** Batches of service names *)

Lemma slices_fuel_spec {X} (size : nat) :
  (0 < size)%nat ->
  forall fuel (l : list X),
    (List.length l <= fuel)%nat ->
    List.concat (slices_fuel fuel size l) = l
    /\ Forall (fun b => (1 <= List.length b <= size)%nat)
              (slices_fuel fuel size l).
Proof.
  intros Hsize. induction fuel as [|fuel IH]; intros l Hlen.
  - destruct l; [|simpl in Hlen; lia]. simpl. auto.
  - destruct l as [|x rest]; [simpl; auto|].
    cbn [slices_fuel].
    destruct (IH (skipn size (x :: rest))) as [Hcat Hall].
    { rewrite length_skipn. cbn [List.length] in *. lia. }
    split.
    + cbn [List.concat]. rewrite Hcat. apply firstn_skipn.
    + constructor; [|exact Hall]. rewrite length_firstn.
      cbn [List.length]. lia.
Qed.

Lemma batch_in_limit_prints (log : list string) :
  Forall batch_in_limit (map Print log).
Proof. apply Forall_map, Forall_forall. intros; exact I. Qed.

(** X9: the service names of a page are described in consecutive batches
    that lose and repeat none of them, and every [DescribeServices] request
    of the ECS listing names at least one and at most ten services. *)
Theorem ecs_batches_within_limit :
  (forall service_arns : list string,
      List.concat (slices 10 service_arns) = service_arns
      /\ Forall (fun b => (1 <= List.length b <= 10)%nat)
                (slices 10 service_arns))
  /\ forall w ecs cw,
      Forall batch_in_limit (trace (ECS_report.get_ecs_report_data w ecs cw)).
Proof.
  assert (Hslices : forall service_arns : list string,
             List.concat (slices 10 service_arns) = service_arns
             /\ Forall (fun b => (1 <= List.length b <= 10)%nat)
                       (slices 10 service_arns)).
  { intros l. apply slices_fuel_spec; lia. }
  split; [exact Hslices|]. intros w ecs cw.
  unfold ECS_report.get_ecs_report_data.
  apply bind_all; [repeat constructor|]. intros _.
  apply bind_all; [repeat constructor|]. intros clusters.
  apply bind_all; [|intros; repeat constructor].
  apply for_each_all. intros acc cluster_arn _.
  unfold ECS_report.describe_cluster.
  apply for_pages_all; [exact I|]. intros acc' arns _.
  destruct arns as [|arn arns]; [constructor|].
  apply for_each_all. intros acc'' batch Hb.
  unfold ECS_report.describe_batch.
  apply bind_all.
  - constructor; [|constructor]. simpl.
    destruct (Hslices (arn :: arns)) as [_ Hall].
    rewrite Forall_forall in Hall. now apply Hall.
  - intros services. apply for_each_all. intros acc3 service _.
    unfold ECS_report.describe_service.
    apply bind_all; [destruct (serviceName service); constructor|].
    intros name. apply bind_all; [|intros; constructor].
    destruct (ecs_metrics_trace w (last_segment "/" cluster_arn) name cw)
      as [log ->].
    apply Forall_app. split; [|apply batch_in_limit_prints].
    destruct (Datetime.days_before _ _); repeat constructor.
Qed.

(** ** One metric query for each inventory row *)








(** ** The RDS listing *)

(** X11: the RDS listing returns one row for each database instance of
    every page, in the order the service lists them, when the pagination
    ends normally, and raises the pagination's exception otherwise; it
    never fails on an instance with missing fields. *)
Theorem rds_listing_characterised :
  forall rds,
    outcome (RDS_report.get_rds_instance_details rds)
    = match failure (describe_db_instances rds) with
      | None =>
          Ok (map RDS_report.db_row
                  (List.concat (pages (describe_db_instances rds))))
      | Some e => Raise e
      end.
Proof.
  intros rds. unfold RDS_report.get_rds_instance_details, for_pages.
  rewrite bind_print. cbn [outcome snd]. rewrite for_each_concat, rds_rows_ok.
  destruct (failure (describe_db_instances rds)); reflexivity.
Qed.

(** ** The EC2 listing *)

Lemma find_snoc {X} (p : X -> bool) (l : list X) (x : X) :
  find p (l ++ [x]) = match find p l with
                      | Some y => Some y
                      | None => if p x then Some x else None
                      end.
Proof.
  induction l as [|a rest IH]; simpl; [reflexivity|].
  now destruct (p a).
Qed.


Lemma build_status_map_spec statuses :
  forall acc m,
    EC2_report.build_status_map statuses acc = Ok m ->
    Forall (fun s => st_InstanceId s <> None) statuses
    /\ forall id, dict_get id m = match last_status statuses id with
                                  | Some s => Some s
                                  | None => dict_get id acc
                                  end.
Proof.
  unfold last_status.
  induction statuses as [|s rest IH]; intros acc m; simpl.
  - intros [= <-]. split; [constructor|reflexivity].
  - destruct (st_InstanceId s) as [i|] eqn:Ei; [|discriminate]. intros H.
    destruct (IH _ _ H) as [Hall Hget]. split.
    + constructor; [congruence|exact Hall].
    + intros id. rewrite Hget, find_snoc, Ei, dict_get_set.
      destruct (find _ (rev rest)); [reflexivity|].
      now destruct (String.eqb id i).
Qed.


Lemma build_ip_map_spec addresses :
  forall acc m,
    EC2_report.build_ip_map addresses acc = Ok m ->
    Forall (fun a => a_InstanceId a <> None -> a_PublicIp a <> None) addresses
    /\ forall id, dict_get id m = match last_address addresses id with
                                  | Some a => a_PublicIp a
                                  | None => dict_get id acc
                                  end.
Proof.
  unfold last_address.
  induction addresses as [|a rest IH]; intros acc m; simpl.
  - intros [= <-]. split; [constructor|reflexivity].
  - destruct (a_InstanceId a) as [i|] eqn:Ei.
    + destruct (a_PublicIp a) as [ip|] eqn:Eip; [|discriminate]. intros H.
      destruct (IH _ _ H) as [Hall Hget]. split.
      * constructor; [congruence|exact Hall].
      * intros id. rewrite Hget, find_snoc, Ei, dict_get_set.
        destruct (find _ (rev rest)); [reflexivity|].
        now destruct (String.eqb id i).
    + intros H. destruct (IH _ _ H) as [Hall Hget]. split.
      * constructor; [congruence|exact Hall].
      * intros id. rewrite Hget, find_snoc, Ei.
        now destruct (find _ (rev rest)).
Qed.

(** The row the loop body adds for [i], given the two maps. *)
Lemma describe_instance_outcome cw status_map ip_map acc i :
  outcome (EC2_report.describe_instance cw status_map ip_map acc i)
  = match describe_alarms_for_metric cw "CPUUtilization" "AWS/EC2"
            (alarm_dimensions i), LaunchTime i with
    | Ok alarms, Some t =>
        Ok (acc ++ [EC2_report.instance_row i
                      (EC2_report.status_check_of
                         (EC2_report.lookup status_map (InstanceId i)))
                      (match alarms with
                       | [] => "No alarms"
                       | _ => "View alarms"
                       end)
                      (EC2_report.or_default
                         (EC2_report.lookup ip_map (InstanceId i)) dash)
                      (launch_stamp t)])%list
    | Ok _, None => Raise "'NoneType' object has no attribute 'strftime'"
    | Raise e, _ => Raise e
    end.
Proof.
  unfold EC2_report.describe_instance, alarm_dimensions, call.
  destruct (describe_alarms_for_metric cw _ _ _) as [alarms|e];
    [|reflexivity].
  destruct (LaunchTime i); reflexivity.
Qed.


Lemma describe_instances_spec cw status_map ip_map instances :
  forall acc rows,
    outcome (for_each instances acc
               (EC2_report.describe_instance cw status_map ip_map)) = Ok rows ->
    Forall (fun i =>
              LaunchTime i <> None
              /\ exists alarms,
                  describe_alarms_for_metric cw "CPUUtilization" "AWS/EC2"
                    (alarm_dimensions i) = Ok alarms) instances
    /\ rows
       = (acc ++ map (fun i =>
                        EC2_report.instance_row i
                          (EC2_report.status_check_of
                             (EC2_report.lookup status_map (InstanceId i)))
                          (match describe_alarms_for_metric cw "CPUUtilization"
                                   "AWS/EC2" (alarm_dimensions i) with
                           | Ok (_ :: _) => "View alarms"
                           | _ => "No alarms"
                           end)
                          (EC2_report.or_default
                             (EC2_report.lookup ip_map (InstanceId i)) dash)
                          (match LaunchTime i with
                           | Some t => launch_stamp t
                           | None => ""
                           end)) instances)%list.
Proof.
  induction instances as [|i rest IH]; intros acc rows; cbn [for_each map].
  - intros [= <-]. split; [constructor|now rewrite List.app_nil_r].
  - intros H. apply bind_ok_inv in H as (acc1 & H1 & H & _).
    rewrite describe_instance_outcome in H1.
    destruct (describe_alarms_for_metric cw _ _ (alarm_dimensions i))
      as [alarms|e] eqn:Ea; [|discriminate].
    destruct (LaunchTime i) as [t|] eqn:Et; [|discriminate].
    assert (Hacc : acc1 = (acc ++ [EC2_report.instance_row i
                      (EC2_report.status_check_of
                         (EC2_report.lookup status_map (InstanceId i)))
                      (match alarms with
                       | [] => "No alarms"
                       | _ => "View alarms"
                       end)
                      (EC2_report.or_default
                         (EC2_report.lookup ip_map (InstanceId i)) dash)
                      (launch_stamp t)])%list) by congruence.
    subst acc1. clear H1. destruct (IH _ _ H) as [Hall ->]. split.
    + constructor; [|exact Hall]. split; [congruence|eauto].
    + rewrite <- List.app_assoc. cbn [map List.app]. rewrite ?Ea, ?Et.
      destruct alarms; reflexivity.
Qed.



(** X13: when the EC2 listing returns, it holds one row for each listed
    instance, in order, and the cells that come from other calls are those
    of the latest entry for the instance: the status check reads 2/2 checks
    passed only if the last status entry of the instance has both checks
    ok, the Elastic IP is that of the last address associated with the
    instance, the alarm cell tells whether the alarm lookup returned an
    alarm, and the launch time is the formatted time of the instance. *)
Theorem ec2_inventory_cells :
  forall ec2 cw statuses addresses details,
    describe_instance_status ec2 true = Ok statuses ->
    describe_addresses ec2 = Ok addresses ->
    outcome (EC2_report.get_ec2_instance_details ec2 cw) = Ok details ->
    details
    = map (expected_row statuses addresses cw)
          (listed (describe_instances ec2 EC2_report.state_filter)).
Proof.
  intros ec2 cw statuses addresses details Hst Had H.
  unfold EC2_report.get_ec2_instance_details in H.
  apply bind_ok_inv in H as (_ & _ & H & _).
  apply bind_ok_inv in H as (statuses' & Hst' & H & _).
  apply bind_ok_inv in H as (status_map & Hsm & H & _).
  apply bind_ok_inv in H as (addresses' & Had' & H & _).
  apply bind_ok_inv in H as (ip_map & Him & H & _).
  apply bind_ok_inv in H as (rows & Hrows & H & _).
  apply bind_ok_inv in H as (_ & _ & H & _). injection H as <-.
  cbv [call outcome snd] in Hst', Had'.
  rewrite Hst in Hst'. injection Hst' as <-.
  rewrite Had in Had'. injection Had' as <-.
  apply for_pages_ok_inv in Hrows as [Hrows _].
  unfold Reservation in Hrows. rewrite 2!for_each_concat in Hrows.
  apply describe_instances_spec in Hrows as [Hall ->]. cbn [List.app].
  destruct (build_status_map_spec _ _ _ Hsm) as [_ Hstatus].
  destruct (build_ip_map_spec _ _ _ Him) as [Hips Hip].
  apply map_ext. intros i. unfold expected_row, EC2_report.lookup.
  f_equal.
  - destruct (InstanceId i) as [id|]; [|reflexivity].
    rewrite Hstatus. now destruct (last_status statuses id).
  - destruct (InstanceId i) as [id|]; [|reflexivity].
    rewrite Hip. unfold dict_get at 1.
    now destruct (last_address addresses id).
Qed.

Lemma ec2_inventory_cells_witness :
  let ec2 := Mock.ec2 Mock.fleet in
  let cw := Mock.cloudwatch Mock.no_data in
  [ EC2_report.instance_row (Mock.instance "i-01" "web" "running")
      "N/A" "No alarms" dash "2024/01/15 09:30 GMT+5:30";
    EC2_report.instance_row (Mock.instance "i-03" "batch" "stopped")
      "N/A" "No alarms" dash "2024/01/15 09:30 GMT+5:30" ]
  = map (expected_row [] [] cw)
        (listed (describe_instances ec2 EC2_report.state_filter)).
Proof.
  intros ec2 cw.
  refine (ec2_inventory_cells ec2 cw [] [] _ eq_refl eq_refl _).
  vm_compute. reflexivity.
Defined.

(** ** The entry point and the reports *)

(** X14: no report ever raises: each catches and logs its own failures.
    So the entry point never prints one of its failure lines, and its run
    is the start line, then for each report the heading followed by the
    report's own events, then the closing line. *)
Theorem entry_point_never_logs_a_failure :
  forall w_ec2 w_rds w_ecs,
    outcome (EC2_report.main w_ec2) = Ok tt
    /\ outcome (RDS_report.main w_rds) = Ok tt
    /\ outcome (ECS_report.main w_ecs) = Ok tt
    /\ outcome (Main.main w_ec2 w_rds w_ecs) = Ok tt
    /\ trace (Main.main w_ec2 w_rds w_ecs)
       = ([Print "--- Starting AWS Report Generation ---"]
          ++ [heading "EC2"] ++ trace (EC2_report.main w_ec2)
          ++ [heading "RDS"] ++ trace (RDS_report.main w_rds)
          ++ [heading "ECS"] ++ trace (ECS_report.main w_ecs)
          ++ [Print (nl ++ "--- All Reports Generated Successfully ---")])%list.
Proof.
  intros w1 w2 w3.
  destruct (reports_never_raise w1) as (H1 & _ & _).
  destruct (reports_never_raise w2) as (_ & H2 & _).
  destruct (reports_never_raise w3) as (_ & _ & H3).
  repeat (split; [assumption|]).
  unfold Main.main, Main.run_reports.
  destruct (EC2_report.main w1) as [t1 r1], (RDS_report.main w2) as [t2 r2],
           (ECS_report.main w3) as [t3 r3].
  simpl in H1, H2, H3. subst. simpl.
  rewrite <- ?List.app_assoc. simpl. split; reflexivity.
Qed.

(** ** Names *)

(** X15: the name of an instance is the value of its first tag whose key is
    Name, and N/A when it has no such tag. *)
Theorem get_instance_name_is_first_name_tag :
  forall i,
    (forall before value after,
        Tags i = (before ++ ("Name", value) :: after)%list ->
        (forall kv, In kv before -> fst kv <> "Name") ->
        EC2_report.get_instance_name i = value)
    /\ ((forall kv, In kv (Tags i) -> fst kv <> "Name") ->
        EC2_report.get_instance_name i = "N/A").
Proof.
  intros i. unfold EC2_report.get_instance_name. split.
  - intros before value after -> Hb.
    induction before as [|[k v] rest IH]; simpl.
    + reflexivity.
    + destruct (String.eqb_spec k "Name") as [->|_].
      * now elim (Hb ("Name", v) (or_introl eq_refl)).
      * apply IH. intros kv Hin. apply Hb. now right.
  - generalize (Tags i). intros tags.
    induction tags as [|[k v] rest IH]; intros Hn; simpl; [reflexivity|].
    destruct (String.eqb_spec k "Name") as [->|_].
    + now elim (Hn ("Name", v) (or_introl eq_refl)).
    + apply IH. intros kv Hin. apply Hn. now right.
Qed.

Lemma get_instance_name_is_first_name_tag_witness :
  EC2_report.get_instance_name (Mock.instance "i-01" "web" "running") = "web".
Proof.
  apply (proj1 (get_instance_name_is_first_name_tag
                  (Mock.instance "i-01" "web" "running")) [] "web" []).
  - reflexivity.
  - intros kv [].
Defined.

Lemma contains_slash (c : ascii) (rest : string) :
  contains "/" (String c rest) = Ascii.eqb c "/" || contains "/" rest.
Proof.
  cbn [contains prefix].
  destruct (ascii_dec "/" c) as [<-|Hne].
  - now destruct rest.
  - rewrite (proj2 (Ascii.eqb_neq c "/")) by congruence. reflexivity.
Qed.

(** X16: the cluster name taken from an ARN contains no slash and is the
    end of the ARN: what precedes it is empty or ends with a slash. *)
Theorem cluster_name_is_last_segment :
  forall arn,
    contains "/" (last_segment "/" arn) = false
    /\ exists before,
        arn = before ++ last_segment "/" arn
        /\ (before = "" \/ exists p, before = p ++ "/").
Proof.
  induction arn as [|c rest (Hno & before & Harn & Hbefore)].
  - split; [reflexivity|]. exists "". auto.
  - cbn [last_segment].
    change (contains (String "/" "") rest) with (contains "/" rest).
    destruct (Ascii.eqb_spec c "/") as [->|Hc].
    + split; [exact Hno|]. exists (String "/" before). split.
      * simpl. now rewrite <- Harn.
      * right. destruct Hbefore as [->|[p ->]]; [now exists ""|].
        now exists (String "/" p).
    + destruct (contains "/" rest) eqn:Hrest.
      * split; [exact Hno|]. exists (String c before). split.
        -- simpl. now rewrite <- Harn.
        -- right. destruct Hbefore as [->|[p ->]].
           ++ simpl in Harn. rewrite <- Harn in Hno. congruence.
           ++ now exists (String c p).
      * split.
        -- rewrite contains_slash, Hrest.
           now rewrite (proj2 (Ascii.eqb_neq c "/")).
        -- exists "". auto.
Qed.

(** ** Failures before the first resource *)

(** X17: when no session can be opened, each report logs the failure and
    stops: it sends no request at all and writes no file. *)
Theorem failed_session_sends_no_request :
  forall w e,
    boto3_Session w (AWS_REGION w) = Raise e ->
    EC2_report.main w = ([unexpected mark_failed e], Ok tt)
    /\ RDS_report.main w = ([unexpected mark_failed' e], Ok tt)
    /\ ECS_report.main w = ([unexpected mark_failed' e], Ok tt).
Proof.
  intros w e Hs.
  pose proof (ec2_main_run w) as H1. pose proof (rds_main_run w) as H2.
  pose proof (ecs_main_run w) as H3. rewrite Hs in H1, H2, H3. auto.
Qed.

Lemma failed_session_sends_no_request_witness :
  let w := {| AWS_REGION := None; METRIC_DAYS := 90;
              boto3_Session := fun _ => Raise "You must specify a region.";
              now := Mock.clock; utcnow := Mock.clock |} in
  EC2_report.main w
  = ([unexpected mark_failed "You must specify a region."], Ok tt).
Proof.
  intros w.
  exact (proj1 (failed_session_sends_no_request w
                  "You must specify a region." eq_refl)).
Defined.

(** X18: when the listing of the clusters raises, the ECS report has sent
    that one request only; it logs the failure, sends no metric query and
    writes no file. *)
Theorem failed_cluster_listing_aborts_ecs_report :
  forall w session ecs cw e,
    boto3_Session w (AWS_REGION w) = Ok session ->
    client_ecs session = Ok ecs ->
    client_cloudwatch session = Ok cw ->
    list_clusters ecs = Raise e ->
    ECS_report.main w
    = ([ heading "ECS";
         Print "Fetching ECS service details and metrics...";
         Call ListClusters;
         unexpected mark_failed' e ], Ok tt).
Proof.
  intros w session ecs cw e Hs He Hc Hl.
  pose proof (ecs_main_run w) as Hrun.
  rewrite Hs, He, Hc in Hrun. cbv zeta in Hrun.
  unfold ECS_report.get_ecs_report_data in Hrun. rewrite Hl in Hrun.
  exact Hrun.
Qed.

Lemma failed_cluster_listing_aborts_ecs_report_witness :
  let ecs := {| list_clusters := Raise "AccessDenied";
                list_services := fun _ => Mock.one_page [];
                describe_services := fun _ _ => Ok [] |} in
  let w := Mock.world (Mock.ec2 []) (Mock.rds []) ecs
                      (Mock.cloudwatch Mock.no_data) in
  ECS_report.main w
  = ([ heading "ECS";
       Print "Fetching ECS service details and metrics...";
       Call ListClusters;
       unexpected mark_failed' "AccessDenied" ], Ok tt).
Proof.
  intros ecs w.
  exact (failed_cluster_listing_aborts_ecs_report w _ ecs
           (Mock.cloudwatch Mock.no_data) "AccessDenied"
           eq_refl eq_refl eq_refl eq_refl).
Defined.

(** ** The window of the metric queries *)


